(** * Octave Online Server: the front server's socket handler

    A shallow embedding of [front/src/socket_connect.ts] (class
    [SocketHandler]) and the properties of its routing, listener
    lifecycle, startup join and side-effect handlers.

    Layout:
    - [Js]: the JavaScript values that travel in client messages, with
      the built-ins the handler applies to them ([||], [&&], [!],
      [===], string concatenation, [String.prototype.substr],
      [Array.prototype.indexOf], [parseInt]);
    - [Model]: the records, the trace of calls on the collaborators and
      the state-and-exception monad in which the methods are written;
    - [SocketHandler]: the methods of the class, one definition per
      method or callback, and the [Async.auto] join of the constructor;
    - [Session]: the entry points of the unit as operations on a state;
    - [Spec], [Sample]: the vocabulary of the statements and the
      sessions they are tried on;
    - [JsFacts], [Invariant], [Routing], [Handlers], [Authorization],
      [Lifecycle], [Join], [Teardown]: the properties;
    - [Notions], [MoreSamples], then [Run], [Selection], [Disconnects],
      [Upstream], [Profiles], [Messages], [Startup], [Fields]: further
      vocabulary and the properties of the remaining methods. *)

From Stdlib Require Import String Ascii List ZArith Lia Bool.
Import ListNotations.

Local Open Scope string_scope.
Local Open Scope Z_scope.

(* ================================================================== *)
(** * JavaScript values *)
(* ================================================================== *)

Module Js.

(** Numbers are the doubles.  [JInt z] is the integer [z] and
    [JFrac m f] is [m / 2^f] with [m] odd, a number with a fractional
    part; every finite double other than [-0] is one of the two, in one
    way.  A [JInt] or [JFrac] that is no double is read as the double
    nearest to it, which is what the functions below compute first. *)
Inductive Num : Type :=
| NaN
| Infinity (negative : bool)
| NegZero
| JInt (z : Z)
| JFrac (m : Z) (f : positive).

(** Values of a message: the JSON-like data socket.io hands over. *)
#[warnings="-register-all"]
Inductive Val : Type :=
| JUndefined
| JNull
| JBool (b : bool)
| JNum (n : Num)
| JStr (s : string)
| JArr (elems : list Val)
| JObj (fields : list (string * Val)).

Definition safe_integer (z : Z) : Prop := Z.abs z <= 2 ^ 53 - 1.

(** ** Rounding to a double *)

(** [floor (log2 (a / b))] for positive [a] and [b]. *)
Definition ilog2 (a b : Z) : Z :=
  let t := Z.log2 a - Z.log2 b in
  if (if 0 <=? t then b * 2 ^ t <=? a else b <=? a * 2 ^ (- t)) then t else t - 1.

(** The double nearest to the positive rational [a / b], ties to even,
    as mantissa and exponent [(q, u)] of value [q * 2^u]: 53 bits of
    mantissa, exponents from [-1074]. *)
Definition round_rat (a b : Z) : Z * Z :=
  let u := Z.max (ilog2 a b - 52) (-1074) in
  let n := if u <? 0 then a * 2 ^ (- u) else a in
  let d := if u <? 0 then b else b * 2 ^ u in
  let q := n / d in
  let r := n mod d in
  let q' := if (d <? 2 * r) || ((d =? 2 * r) && Z.odd q) then q + 1 else q in
  (q', u).

(** [q * 2^u = a / b] *)
Definition is_value (qu : Z * Z) (a b : Z) : bool :=
  let '(q, u) := qu in
  if 0 <=? u then q * 2 ^ u * b =? a else q * b =? a * 2 ^ (- u).

(** Beyond the largest double. *)
Definition overflows (qu : Z * Z) : bool :=
  let '(q, u) := qu in (0 <=? u) && (2 ^ 1024 <=? q * 2 ^ u).

(** The double nearest to the integer [n >= 0]; [None] is [Infinity].
    The integers below [2^53] are doubles. *)
Definition round_int (n : Z) : option Z :=
  if n <? 2 ^ 53 then Some n
  else
    let qu := round_rat n 1 in
    if overflows qu then None else Some (fst qu * 2 ^ snd qu).

(** The Number value of the integer of sign [negative] and magnitude
    [n]; the magnitude [0] keeps its sign. *)
Definition number_of (negative : bool) (n : Z) : Num :=
  if n =? 0 then (if negative then NegZero else JInt 0)
  else
    match round_int n with
    | Some v => JInt (if negative then - v else v)
    | None => Infinity negative
    end.

(** Magnitude of a number as a rational [(a, b)]. *)
Definition magnitude (n : Num) : Z * Z :=
  match n with
  | JInt z => (Z.abs z, 1)
  | JFrac m f => (Z.abs m, 2 ^ Zpos f)
  | _ => (0, 1)
  end.

(** [ToBoolean]: [undefined], [null], [false], [0], [-0], [NaN] and [""]
    are falsy, everything else (every object and array too) is truthy. *)
Definition truthy (v : Val) : bool :=
  match v with
  | JUndefined | JNull => false
  | JBool b => b
  | JNum NaN => false
  | JNum (Infinity _) => true
  | JNum NegZero => false
  | JNum (JInt z) => negb (z =? 0)
  | JNum (JFrac m f) => negb (fst (round_rat (Z.abs m) (2 ^ Zpos f)) =? 0)
  | JStr s => negb (String.eqb s "")
  | JArr _ | JObj _ => true
  end.

(** [a || b] and [a && b] return one of their operands. *)
Definition or (a b : Val) : Val := if truthy a then a else b.
Definition and (a b : Val) : Val := if truthy a then b else a.

(** [v === "lit"] against a string literal: only a string can be
    strictly equal to a string. *)
Definition is_str (v : Val) (lit : string) : bool :=
  match v with
  | JStr s => String.eqb s lit
  | _ => false
  end.

(** Property lookup [o.key] in an object literal's field list: the first
    binding of the key. *)
Fixpoint lookup (key : string) (fields : list (string * Val)) : Val :=
  match fields with
  | [] => JUndefined
  | (k, v) :: rest => if String.eqb k key then v else lookup key rest
  end.

(** [v.key] for the keys the handler reads ([action], [info], [sessCode],
    [skipCreate], [program], [userId], [startTime], [enabled], [new_pwd],
    [bucket_id], [main]).  None of them is a property of a primitive
    wrapper or of [Array.prototype], so on a truthy primitive or an array
    the lookup yields [undefined]; on [undefined] and [null] JavaScript
    throws, which is [None] here. *)
Definition get (v : Val) (key : string) : option Val :=
  match v with
  | JUndefined | JNull => None
  | JObj fields => Some (lookup key fields)
  | _ => Some JUndefined
  end.

(** ** Decimal printing of integers *)

Definition digit_char (d : Z) : ascii :=
  match d with
  | 0 => "0" | 1 => "1" | 2 => "2" | 3 => "3" | 4 => "4"
  | 5 => "5" | 6 => "6" | 7 => "7" | 8 => "8" | _ => "9"
  end%char.

(** The decimal digits of [n >= 0], most significant first, pushed in
    front of [acc]. *)
Fixpoint digits_fuel (fuel : nat) (n : Z) (acc : list Z) : list Z :=
  match fuel with
  | O => acc
  | S f =>
      let acc' := (n mod 10) :: acc in
      if n / 10 =? 0 then acc' else digits_fuel f (n / 10) acc'
  end.

Definition digits (n : Z) : list Z :=
  digits_fuel (S (Z.to_nat (Z.log2 n))) n [].

Definition string_of_digits (ds : list Z) : string :=
  fold_right (fun d s => String (digit_char d) s) EmptyString ds.

Definition int_to_string (z : Z) : string :=
  if z <? 0 then String "-"%char (string_of_digits (digits (- z)))
  else string_of_digits (digits z).

(** ** [Number::toString] *)

(** The least [n] with [a / b < 10^n], for [a / b < 1] counted down
    from [j]. *)
Fixpoint below_one (fuel : nat) (a b : Z) (j : Z) : Z :=
  match fuel with
  | O => j
  | S f => if b <=? a * 10 then j else below_one f (a * 10) b (j - 1)
  end.

Definition decade (a b : Z) : Z :=
  if b <=? a then Z.of_nat (length (digits (a / b)))
  else below_one 400 a b 0.

(** The decimal of the fewest digits that rounds to the double [a / b],
    as [(s, e)] of value [s * 10^e]: for [k = 1, 2, ...] digits, the two
    [k]-digit decimals around [a / b] are tried; of two that round to
    it, the closer wins, and the even one if they are as close. *)
Fixpoint shortest (fuel : nat) (k : Z) (a b n0 : Z) : Z * Z :=
  let p := k - n0 in
  let num := if 0 <=? p then a * 10 ^ p else a in
  let den := if 0 <=? p then b else b * 10 ^ (- p) in
  let lo := num / den in
  let hi := lo + 1 in
  let rounds s :=
    if 0 <=? p then is_value (round_rat s (10 ^ p)) a b
    else is_value (round_rat (s * 10 ^ (- p)) 1) a b in
  let r := num mod den in
  match fuel with
  | O => (lo, - p)
  | S f =>
      match rounds lo, rounds hi with
      | true, false => (lo, - p)
      | false, true => (hi, - p)
      | true, true =>
          if 2 * r <? den then (lo, - p)
          else if den <? 2 * r then (hi, - p)
          else if Z.even lo then (lo, - p) else (hi, - p)
      | false, false => shortest f (k + 1) a b n0
      end
  end.

Fixpoint strip_zeros (fuel : nat) (s e : Z) : Z * Z :=
  match fuel with
  | O => (s, e)
  | S f =>
      if (s mod 10 =? 0) && negb (s =? 0) then strip_zeros f (s / 10) (e + 1)
      else (s, e)
  end.

Fixpoint zeros (n : nat) : string :=
  match n with
  | O => ""
  | S k => String "0"%char (zeros k)
  end.

Fixpoint take (n : nat) (s : string) : string :=
  match n, s with
  | S k, String c r => String c (take k r)
  | _, _ => ""
  end.

Fixpoint drop (n : nat) (s : string) : string :=
  match n, s with
  | S k, String c r => drop k r
  | _, _ => s
  end.

(** The string of the positive double [a / b]: with [k] digits and the
    decimal point after the [n]-th, plain notation for [-6 < n <= 21]
    and exponent notation otherwise. *)
Definition print_positive (a b : Z) : string :=
  let '(s0, e0) := shortest 17 1 a b (decade a b) in
  let '(s, e) := strip_zeros 400 s0 e0 in
  let ds := string_of_digits (digits s) in
  let k := Z.of_nat (String.length ds) in
  let n := e + k in
  if (k <=? n) && (n <=? 21) then ds ++ zeros (Z.to_nat (n - k))
  else if (0 <? n) && (n <=? 21) then take (Z.to_nat n) ds ++ "." ++ drop (Z.to_nat n) ds
  else if (-6 <? n) && (n <=? 0) then "0." ++ zeros (Z.to_nat (- n)) ++ ds
  else
    let x := n - 1 in
    let mant := if k =? 1 then ds else take 1 ds ++ "." ++ drop 1 ds in
    mant ++ "e" ++ (if x <? 0 then "-" else "+") ++ string_of_digits (digits (Z.abs x)).

(** The string of the double nearest to [a / b >= 0]. *)
Definition print_rat (a b : Z) : string :=
  let qu := round_rat a b in
  if fst qu =? 0 then "0"
  else if overflows qu then "Infinity"
  else if 0 <=? snd qu then print_positive (fst qu * 2 ^ snd qu) 1
       else print_positive (fst qu) (2 ^ (- snd qu)).

Definition signed (negative : bool) (s : string) : string :=
  if negative && negb (String.eqb s "0") then String "-"%char s else s.

(** [Number::toString(n)].  A safe integer prints as its decimal
    digits; so does [2^53]. *)
Definition number_to_string (n : Num) : string :=
  match n with
  | NaN => "NaN"
  | Infinity negative => signed negative "Infinity"
  | NegZero => "0"
  | JInt z =>
      if Z.abs z <=? 2 ^ 53 then int_to_string z
      else signed (z <? 0) (print_rat (Z.abs z) 1)
  | JFrac m f => signed (m <? 0) (print_rat (Z.abs m) (2 ^ Zpos f))
  end.

(** ** [ToString] *)

Fixpoint join (sep : string) (parts : list string) : string :=
  match parts with
  | [] => ""
  | [p] => p
  | p :: rest => p ++ sep ++ join sep rest
  end.

(** An own property [toString] of an object of a message is no
    function. *)
Definition has_toString (fields : list (string * Val)) : bool :=
  existsb (fun kv => String.eqb (fst kv) "toString") fields.

(** [ToString(v)], which is also what [s + v] appends to a string;
    [None] when it throws a [TypeError].  An array prints its elements
    joined by commas, with [undefined] and [null] elements printed as
    the empty string; an object prints as ["[object Object]"], unless it
    has a property [toString] of its own: that one is tried, is no
    function, and [valueOf] gives no primitive, so the conversion
    throws. *)
Fixpoint to_string (v : Val) : option string :=
  match v with
  | JUndefined => Some "undefined"
  | JNull => Some "null"
  | JBool true => Some "true"
  | JBool false => Some "false"
  | JNum n => Some (number_to_string n)
  | JStr s => Some s
  | JArr elems =>
      option_map (join ",")
        ((fix each (l : list Val) : option (list string) :=
            match l with
            | [] => Some []
            | e :: rest =>
                match (match e with
                       | JUndefined | JNull => Some ""
                       | _ => to_string e
                       end) with
                | Some s =>
                    match each rest with
                    | Some ss => Some (s :: ss)
                    | None => None
                    end
                | None => None
                end
            end) elems)
  | JObj fields => if has_toString fields then None else Some "[object Object]"
  end.

(** ** [parseInt] with no radix argument *)

(** Strings are kept in UTF-8.  White space for [parseInt] is
    [WhiteSpace] and [LineTerminator]: tab, line feed, vertical tab,
    form feed, carriage return and space in one byte; U+00A0 in two;
    U+1680, U+2000 to U+200A, U+2028, U+2029, U+202F, U+205F, U+3000
    and U+FEFF in three. *)
Definition is_space (c : ascii) : bool :=
  let n := nat_of_ascii c in
  ((9 <=? n) && (n <=? 13) || (n =? 32))%nat.

Definition is_lead (c : ascii) : bool :=
  let n := nat_of_ascii c in
  ((n =? 194) || (n =? 225) || (n =? 226) || (n =? 227) || (n =? 239))%nat.

Definition is_space2 (c1 c2 : ascii) : bool :=
  ((nat_of_ascii c1 =? 194) && (nat_of_ascii c2 =? 160))%nat.

Definition is_space3 (c1 c2 c3 : ascii) : bool :=
  let n1 := nat_of_ascii c1 in
  let n2 := nat_of_ascii c2 in
  let n3 := nat_of_ascii c3 in
  ((n1 =? 225) && (n2 =? 154) && (n3 =? 128)
   || (n1 =? 226) && (n2 =? 128)
      && ((128 <=? n3) && (n3 <=? 138) || (n3 =? 168) || (n3 =? 169) || (n3 =? 175))
   || (n1 =? 226) && (n2 =? 129) && (n3 =? 159)
   || (n1 =? 227) && (n2 =? 128) && (n3 =? 128)
   || (n1 =? 239) && (n2 =? 187) && (n3 =? 191))%nat.

Fixpoint trim_start (s : string) : string :=
  match s with
  | String c1 r1 =>
      if is_space c1 then trim_start r1
      else if is_lead c1 then
        match r1 with
        | String c2 r2 =>
            if is_space2 c1 c2 then trim_start r2
            else
              match r2 with
              | String c3 r3 => if is_space3 c1 c2 c3 then trim_start r3 else s
              | EmptyString => s
              end
        | EmptyString => s
        end
      else s
  | EmptyString => s
  end.

(** The value of [c] as a digit of the given radix. *)
Definition digit_val (radix : Z) (c : ascii) : option Z :=
  let n := Z.of_nat (nat_of_ascii c) in
  let d :=
    if (48 <=? n) && (n <=? 57) then Some (n - 48)
    else if (97 <=? n) && (n <=? 122) then Some (n - 87)
    else if (65 <=? n) && (n <=? 90) then Some (n - 55)
    else None in
  match d with
  | Some d => if d <? radix then Some d else None
  | None => None
  end.

(** The longest prefix of [s] made of radix digits, as digit values. *)
Fixpoint digit_prefix (radix : Z) (s : string) : list Z :=
  match s with
  | String c s' =>
      match digit_val radix c with
      | Some d => d :: digit_prefix radix s'
      | None => []
      end
  | EmptyString => []
  end.

Definition math_int (radix : Z) (ds : list Z) : Z :=
  fold_left (fun a d => a * radix + d) ds 0.

(** A leading [0x] or [0X] selects radix 16 and is removed. *)
Definition strip_hex (s : string) : Z * string :=
  match s with
  | String "0" (String "x" rest) => (16, rest)
  | String "0" (String "X" rest) => (16, rest)
  | _ => (10, s)
  end%char.

(** A leading sign. *)
Definition strip_sign (s : string) : bool * string :=
  match s with
  | String "-" r => (true, r)
  | String "+" r => (false, r)
  | _ => (false, s)
  end%char.

(** [parseInt(s)] on a string: skip white space, read a sign, strip a
    hexadecimal prefix, read the longest run of digits; no digit at all
    gives [NaN], else the Number value of the integer read. *)
Definition parse_int_string (s : string) : Num :=
  let '(negative, s2) := strip_sign (trim_start s) in
  let '(radix, s3) := strip_hex s2 in
  match digit_prefix radix s3 with
  | [] => NaN
  | ds => number_of negative (math_int radix ds)
  end.

(** [parseInt(v)] converts its argument with [ToString] first, and
    throws when that throws. *)
Definition parseInt (v : Val) : option Num :=
  option_map parse_int_string (to_string v).

(** [arr.indexOf(v)] on an array of strings: the index of the first
    element strictly equal to [v], or [-1]. *)
Fixpoint indexOf_from (i : Z) (arr : list string) (v : Val) : Z :=
  match arr with
  | [] => -1
  | s :: rest => if is_str v s then i else indexOf_from (i + 1) rest v
  end.

Definition indexOf (arr : list string) (v : Val) : Z := indexOf_from 0 arr v.

(** [s.substr(0, 3)].  Strings are UTF-8 bytes here and UTF-16 units in
    JavaScript; the two agree on whether the result is one of the ASCII
    literals it is compared with. *)
Definition substr3 (s : string) : string := substring 0 3 s.

End Js.

(* ================================================================== *)
(** * Records, effects and the handler monad *)
(* ================================================================== *)

Module Model.

(** An error handed to a Node-style callback by the stores. *)
Definition Err := string.

(** The reply of a store to a callback [(err, value)]. *)
Inductive Reply (A : Type) : Type :=
| Failed (err : Err)
| Ok (value : A).
Arguments Failed {A} err.
Arguments Ok {A} value.

(** [IUser]: the fields of a user document the handler reads or writes.
    [program] and [share_key] are tested for truthiness and [program] is
    assigned a value taken from a message, hence JavaScript values. *)
Record User : Type := mkUser {
  _id : string;
  consoleText : string;
  displayName : string;
  program : Js.Val;
  instructor : list string;
  share_key : Js.Val
}.

(** [IBucket]. *)
Record Bucket : Type := mkBucket {
  bucket_id : Js.Val;
  user_id : string;
  main : Js.Val
}.

(** The arrow-function members registered as listeners, and the
    anonymous listener of [socket.once("init", ...)]. *)
Inductive Handler : Type :=
| H_onDataD | H_onDestroyD | H_onDataU | H_onDestroyU
| H_onDataW | H_sendMessage | H_setSessCode | H_onDataWtoU | H_onLogW
| H_init_once.

(** The [new] expressions of [init_session]. *)
Inductive WsCtor : Type :=
| SharedWorkspace_info (type : string) (info : Js.Val)
| SharedWorkspace_user (type : string) (user : User)
| NormalWorkspace (sessCode : Js.Val) (user : option User) (bucketId : Js.Val).

(** Modelled from the spec: the listener registry of the three channels
    ([on], [removeAllListeners]) lives in the socket library and in
    [back_server_handler] and the workspace classes, which are not part
    of this unit.  Following the channel contracts, a registry is the
    list of (event, listener) pairs in registration order; [on] appends
    a pair and [removeAllListeners] empties the list. *)
Definition Listeners := list (string * Handler).

(** A workspace object as the handler sees it: how it was constructed,
    its listener registry, and the [sessCode] property [setSessCode]
    writes ([None] until then). *)
Record Workspace : Type := mkWorkspace {
  ctor : WsCtor;
  ws_listeners : Listeners;
  ws_sessCode : option string
}.

(** The bookkeeping of [Async.auto] for the three tasks of the
    constructor: which results are present, how many tasks remain, and
    whether the listener that waits to start [init_session] is still
    registered. *)
Record AutoState : Type := mkAuto {
  results_user : option (option User);
  results_init : option Js.Val;
  results_init_session : bool;
  remainingTasks : nat;
  hasError : bool;
  init_session_waiting : bool
}.

(** The fields of [SocketHandler] ([workspace] is [undefined] or [null]
    when [None]), the registries of [socket] and [back], and the two
    constants of the socket the handler logs. *)
Record State : Type := mkState {
  socket_id : string;
  handshake_address : string;
  socket_listeners : Listeners;
  back_listeners : Listeners;
  workspace : option Workspace;
  user : option User;
  bucketId : Js.Val;
  sessCode : option string;
  destroyed : bool;
  auto : AutoState
}.

Inductive LogArg : Type :=
| LStr (s : string)
| LVal (v : Js.Val)
| LLen (n : nat).

(** Data sent to the client with [socket.emit]. *)
Inductive Payload : Type :=
| PNothing
| PJs (v : Js.Val)
| PInstructor (program : string) (users : option (list User))
| PAllBuckets (buckets : list Bucket)
| PBucketInfo (bucket : Bucket)
| PBucketCreated (bucket : Bucket).

(** The callbacks passed to the stores, with the variables they close
    over. *)
Inductive Callback : Type :=
| cb_auto_user
| cb_loadInstructor (program : string)
| cb_loadUserBuckets
| cb_touchUser
| cb_loadBucket (skipCreate : Js.Val)
| cb_onSetPassword
| cb_onBucketCreated (bucket : Bucket)
| cb_onDeleteBucket_found (obj : Js.Val)
| cb_onDeleteBucket_removed (obj : Js.Val)
| cb_onEnroll
| cb_onUnenrollStudent_found
| cb_onUnenrollStudent_saved (student : User)
| cb_onReenrollStudent_found (obj : Js.Val)
| cb_onReenrollStudent_saved (student : User)
| cb_createShareKey
| cb_removeShareKey.

(** Every call the handler makes on a collaborator, in program order. *)
Inductive Effect : Type :=
| ConsoleLog (args : list LogArg)
| SocketEmit (name : string) (data : Payload)
| BackNew
| BackDataD (name : string) (data : Js.Val)
| BackSetSessCode (code : option string)
| BackSubscribe
| BackUnsubscribe
| WsNew (c : WsCtor)
| WsDataD (name : string) (data : Js.Val)
| WsDataU (name : string) (data : Js.Val)
| WsDestroyD (reason : string)
| WsDestroyU (reason : string)
| WsBeginOctaveRequest
| WsSubscribe
| WsUnsubscribe
| UserFindById (id : Js.Val) (k : Callback)
| UserFind (program : string) (k : Callback)
| UserTouchLastActivity (u : User) (k : Callback)
| UserSetPassword (u : User) (new_pwd : Js.Val) (k : Callback)
| UserSave (u : User) (k : Callback)
| UserCreateShareKey (u : User) (k : Callback)
| UserRemoveShareKey (u : User) (k : Callback)
| BucketFind (owner : string) (k : Callback)
| BucketFindOne (id : Js.Val) (k : Callback)
| BucketSave (b : Bucket) (k : Callback)
| BucketRemove (b : Bucket) (k : Callback)
| SetImmediate_taskComplete.

Definition Trace := list Effect.

(** The result of running a method: it returns, or it throws (the
    [TypeError] of a property read on [null] or [undefined], or of a
    call of something that is not a function); either way with the state
    reached and the calls made so far. *)
Inductive Outcome (A : Type) : Type :=
| Done (a : A) (s : State) (t : Trace)
| Throw (e : string) (s : State) (t : Trace).
Arguments Done {A} a s t.
Arguments Throw {A} e s t.

Definition M (A : Type) : Type := State -> Outcome A.

Definition ret {A} (a : A) : M A := fun s => Done a s [].

Definition bind {A B} (m : M A) (f : A -> M B) : M B :=
  fun s =>
    match m s with
    | Done a s1 t1 =>
        match f a s1 with
        | Done b s2 t2 => Done b s2 (t1 ++ t2)%list
        | Throw e s2 t2 => Throw e s2 (t1 ++ t2)%list
        end
    | Throw e s1 t1 => Throw e s1 t1
    end.

Definition throw {A} (e : string) : M A := fun s => Throw e s [].
Definition get : M State := fun s => Done s s [].
Definition modify (f : State -> State) : M unit := fun s => Done tt (f s) [].
Definition effect (e : Effect) : M unit := fun s => Done tt s [e].

Definition final_state {A} (o : Outcome A) : State :=
  match o with Done _ s _ | Throw _ s _ => s end.

Definition trace_of {A} (o : Outcome A) : Trace :=
  match o with Done _ _ t | Throw _ _ t => t end.

Definition threw {A} (o : Outcome A) : bool :=
  match o with Done _ _ _ => false | Throw _ _ _ => true end.

End Model.

Module Import MNotations.
Notation "x <- m ;; k" := (Model.bind m (fun x => k))
  (at level 61, m at next level, right associativity).
Notation "m ;; k" := (Model.bind m (fun _ => k))
  (at level 61, right associativity).
End MNotations.

(* ================================================================== *)
(** * The class [SocketHandler] *)
(* ================================================================== *)

Module SocketHandler.
Import Model.

(** ** Field updates *)

Definition set_socket_listeners (l : Listeners) (s : State) : State :=
  mkState (socket_id s) (handshake_address s) l (back_listeners s)
          (workspace s) (user s) (bucketId s) (sessCode s) (destroyed s) (auto s).

Definition set_back_listeners (l : Listeners) (s : State) : State :=
  mkState (socket_id s) (handshake_address s) (socket_listeners s) l
          (workspace s) (user s) (bucketId s) (sessCode s) (destroyed s) (auto s).

Definition set_workspace (w : option Workspace) (s : State) : State :=
  mkState (socket_id s) (handshake_address s) (socket_listeners s) (back_listeners s)
          w (user s) (bucketId s) (sessCode s) (destroyed s) (auto s).

Definition set_user (u : option User) (s : State) : State :=
  mkState (socket_id s) (handshake_address s) (socket_listeners s) (back_listeners s)
          (workspace s) u (bucketId s) (sessCode s) (destroyed s) (auto s).

Definition set_bucketId (b : Js.Val) (s : State) : State :=
  mkState (socket_id s) (handshake_address s) (socket_listeners s) (back_listeners s)
          (workspace s) (user s) b (sessCode s) (destroyed s) (auto s).

Definition set_auto (a : AutoState) (s : State) : State :=
  mkState (socket_id s) (handshake_address s) (socket_listeners s) (back_listeners s)
          (workspace s) (user s) (bucketId s) (sessCode s) (destroyed s) a.

Definition set_program (p : Js.Val) (u : User) : User :=
  mkUser (_id u) (consoleText u) (displayName u) p (instructor u) (share_key u).

(** ** Calls on the collaborators *)

Definition TypeError : string := "TypeError".

(** Line feed and double quote, for the message literals. *)
Definition nl : string := String (ascii_of_nat 10) EmptyString.
Definition dq : string := String (ascii_of_nat 34) EmptyString.

Definition socket_removeAllListeners : M unit := modify (set_socket_listeners []).

Definition socket_on (ev : string) (h : Handler) : M unit :=
  modify (fun s => set_socket_listeners (socket_listeners s ++ [(ev, h)])%list s).

Definition socket_emit (name : string) (data : Payload) : M unit :=
  effect (SocketEmit name data).

Definition back_removeAllListeners : M unit := modify (set_back_listeners []).

Definition back_on (ev : string) (h : Handler) : M unit :=
  modify (fun s => set_back_listeners (back_listeners s ++ [(ev, h)])%list s).

(** [this.workspace.m(...)]: a [TypeError] when the field holds no
    object. *)
Definition with_workspace {A} (f : Workspace -> M A) : M A :=
  s <- get ;;
  match workspace s with
  | Some w => f w
  | None => throw TypeError
  end.

Definition ws_call (e : Effect) : M unit := with_workspace (fun _ => effect e).

Definition ws_removeAllListeners : M unit :=
  with_workspace (fun w =>
    modify (set_workspace (Some (mkWorkspace (ctor w) [] (ws_sessCode w))))).

Definition ws_on (ev : string) (h : Handler) : M unit :=
  with_workspace (fun w =>
    modify (set_workspace
              (Some (mkWorkspace (ctor w) (ws_listeners w ++ [(ev, h)])%list
                                 (ws_sessCode w))))).

(** [if (this.workspace) ...] *)
Definition if_workspace (m : M unit) : M unit :=
  s <- get ;;
  match workspace s with
  | Some _ => m
  | None => ret tt
  end.

(** [this.user.f]: a [TypeError] when [this.user] is [null]. *)
Definition this_user : M User :=
  s <- get ;;
  match user s with
  | Some u => ret u
  | None => throw TypeError
  end.

(** [obj.key]: a [TypeError] when [obj] is [undefined] or [null]. *)
Definition field (obj : Js.Val) (key : string) : M Js.Val :=
  match Js.get obj key with
  | Some v => ret v
  | None => throw TypeError
  end.

(** ["text" + v]: a [TypeError] when [v] has no string form. *)
Definition to_str (v : Js.Val) : M string :=
  match Js.to_string v with
  | Some text => ret text
  | None => throw TypeError
  end.

(** [parseInt(v)], which converts [v] to a string first. *)
Definition parse_int (v : Js.Val) : M Js.Num :=
  match Js.parseInt v with
  | Some n => ret n
  | None => throw TypeError
  end.

(** [obj && obj.key] *)
Definition and_field (obj : Js.Val) (key : string) : M Js.Val :=
  if Js.truthy obj then field obj key else ret obj.

(** ** [listen], [unlisten], [log], [sendMessage] *)

Definition unlisten : M unit :=
  socket_removeAllListeners ;;
  back_removeAllListeners ;;
  effect BackUnsubscribe ;;
  if_workspace (
    ws_removeAllListeners ;;
    ws_call WsUnsubscribe).

Definition listen : M unit :=
  (* Prevent duplicate listeners *)
  unlisten ;;
  (* Make listeners on the socket *)
  socket_on "*" H_onDataD ;;
  socket_on "disconnect" H_onDestroyD ;;
  (* Make listeners on Redis *)
  back_on "data" H_onDataU ;;
  back_on "destroy-u" H_onDestroyU ;;
  (* Make listeners on Workspace *)
  if_workspace (
    ws_on "data" H_onDataW ;;
    ws_on "message" H_sendMessage ;;
    ws_on "sesscode" H_setSessCode ;;
    ws_on "back" H_onDataWtoU ;;
    ws_on "log" H_onLogW ;;
    ws_call WsSubscribe) ;;
  (* Let Redis have listeners too *)
  effect BackSubscribe.

Definition log (args : list LogArg) : M unit :=
  s <- get ;;
  effect (ConsoleLog (LStr ("[" ++ socket_id s ++ "]") :: args)).

Definition sendMessage (message : string) : M unit :=
  socket_emit "data"
    (PJs (Js.JObj [("type", Js.JStr "stdout"); ("data", Js.JStr (message ++ nl))])) ;;
  socket_emit "alert" (PJs (Js.JStr message)).

(** ** Main listener functions *)

Definition onDestroyD : M unit :=
  log [LStr "Client Disconnect"] ;;
  if_workspace (ws_call (WsDestroyD "Client Disconnect")) ;;
  unlisten.

Definition onDestroyU (message : string) : M unit :=
  log [LStr "Upstream Destroyed:"; LStr message] ;;
  socket_emit "destroy-u" (PJs (Js.JStr message)) ;;
  effect (BackSetSessCode None) ;;
  if_workspace (ws_call (WsDestroyU message)).

Definition onDataW (name : string) (data : Js.Val) : M unit :=
  socket_emit name (PJs data).

Definition onLogW (data : list LogArg) : M unit := log data.

Definition onDataWtoU (name : string) (value : Js.Val) : M unit :=
  effect (BackDataD name value).

Definition setSessCode (code : string) : M unit :=
  (* We have our sessCode. *)
  log [LStr "SessCode"; LStr code] ;;
  effect (BackSetSessCode (Some code)) ;;
  socket_emit "sesscode" (PJs (Js.JObj [("sessCode", Js.JStr code)])) ;;
  if_workspace (
    with_workspace (fun w =>
      modify (set_workspace (Some (mkWorkspace (ctor w) (ws_listeners w) (Some code)))))).

Definition onOoReconnect : M unit :=
  s <- get ;;
  match workspace s with
  | Some _ => ws_call WsBeginOctaveRequest
  | None => socket_emit "destroy-u" (PJs (Js.JStr "Invalid Session"))
  end.

(** ** Other utility functions *)

Definition loadInstructor : M unit :=
  s <- get ;;
  match user s with
  | None => ret tt
  | Some u =>
      (* an array is truthy; [!this.user.instructor.length] *)
      if (length (instructor u) =? 0)%nat then ret tt
      else
        fold_right
          (fun program rest => effect (UserFind program (cb_loadInstructor program)) ;; rest)
          (ret tt) (instructor u)
  end.

(** [(err, users) => ...]: the callback does not look at [err]; [users]
    is [undefined] on a failed query. *)
Definition loadInstructor_cb (program : string) (r : Reply (list User)) : M unit :=
  socket_emit "instructor"
    (PInstructor program (match r with Ok users => Some users | Failed _ => None end)).

Definition loadUserBuckets : M unit :=
  s <- get ;;
  match user s with
  | None => ret tt
  | Some u => effect (BucketFind (_id u) cb_loadUserBuckets)
  end.

Definition loadUserBuckets_cb (r : Reply (list Bucket)) : M unit :=
  match r with
  | Failed err => log [LStr "LOAD USER BUCKETS ERROR"; LStr err]
  | Ok buckets =>
      u <- this_user ;;
      log [LStr "Loaded"; LLen (length buckets); LStr "buckets for user";
           LStr (consoleText u)] ;;
      socket_emit "all-buckets" (PAllBuckets buckets)
  end.

Definition touchUser : M unit :=
  s <- get ;;
  match user s with
  | None => ret tt
  | Some u => effect (UserTouchLastActivity u cb_touchUser)
  end.

Definition touchUser_cb (err : option Err) : M unit :=
  match err with
  | Some e => log [LStr "TOUCH ACTIVITY ERROR"; LStr e]
  | None => ret tt
  end.

Definition loadBucket (skipCreate : Js.Val) : M unit :=
  s <- get ;;
  if negb (Js.truthy (bucketId s)) then ret tt
  else effect (BucketFindOne (bucketId s) (cb_loadBucket skipCreate)).

Definition loadBucket_cb (skipCreate : Js.Val) (r : Reply (option Bucket)) : M unit :=
  match r with
  | Failed err =>
      log [LStr "LOAD BUCKET ERROR"; LStr err] ;;
      sendMessage "Encountered error while initializing bucket."
  | Ok None =>
      s <- get ;;
      id <- to_str (bucketId s) ;;
      sendMessage ("Unable to find bucket: " ++ id) ;;
      socket_emit "destroy-u" (PJs (Js.JStr "Unknown Bucket")) ;;
      modify (set_workspace None)
  | Ok (Some bucket) =>
      log [LStr "Bucket loaded:"; LVal (bucket_id bucket)] ;;
      socket_emit "bucket-info" (PBucketInfo bucket) ;;
      if negb (Js.truthy skipCreate) then ws_call WsBeginOctaveRequest else ret tt
  end.

Definition onSetPassword (obj : Js.Val) : M unit :=
  if negb (Js.truthy obj) then ret tt
  else
    s <- get ;;
    match user s with
    | None => ret tt
    | Some u =>
        new_pwd <- field obj "new_pwd" ;;
        effect (UserSetPassword u new_pwd cb_onSetPassword)
    end.

Definition onSetPassword_cb (err : option Err) : M unit :=
  match err with
  | Some e => log [LStr "SET PASSWORD ERROR"; LStr e]
  | None => sendMessage "Your password has been changed."
  end.

Definition onBucketCreated (obj : Js.Val) : M unit :=
  if negb (Js.truthy obj) then ret tt
  else
    id <- field obj "bucket_id" ;;
    if negb (Js.truthy id) then ret tt
    else
      s <- get ;;
      match user s with
      | None => log [LStr "ERROR: No user but got bucket-created message!"; LVal id]
      | Some u =>
          log [LStr "Creating bucket:"; LVal id; LStr (consoleText u)] ;;
          main <- field obj "main" ;;
          let bucket := mkBucket id (_id u) main in
          effect (BucketSave bucket (cb_onBucketCreated bucket))
      end.

Definition onBucketCreated_cb (bucket : Bucket) (err : option Err) : M unit :=
  match err with
  | Some e => log [LStr "ERROR creating bucket:"; LStr e]
  | None => socket_emit "bucket-created" (PBucketCreated bucket)
  end.

(** [this.user._id.equals(bucket.user_id)] on object ids. *)
Definition id_equals (a b : string) : bool := String.eqb a b.

Definition onDeleteBucket (obj : Js.Val) : M unit :=
  if negb (Js.truthy obj) then ret tt
  else
    id <- field obj "bucket_id" ;;
    if negb (Js.truthy id) then ret tt
    else
      s <- get ;;
      match user s with
      | None => ret tt
      | Some _ =>
          log [LStr "Deleting bucket:"; LVal id] ;;
          effect (BucketFindOne id (cb_onDeleteBucket_found obj))
      end.

Definition onDeleteBucket_found (obj : Js.Val) (r : Reply (option Bucket)) : M unit :=
  match r with
  | Failed err =>
      log [LStr "LOAD BUCKET ERROR"; LStr err] ;;
      sendMessage "Encountered error while finding bucket."
  | Ok None =>
      sendMessage "Unable to find bucket; did you already delete it?"
  | Ok (Some bucket) =>
      u <- this_user ;;
      if negb (id_equals (_id u) (user_id bucket)) then
        log [LStr "ERROR: Bad owner:"; LStr (user_id bucket); LStr (consoleText u)] ;;
        sendMessage "You are not the owner of that bucket"
      else
        effect (BucketRemove bucket (cb_onDeleteBucket_removed obj))
  end.

Definition onDeleteBucket_removed (obj : Js.Val) (err : option Err) : M unit :=
  match err with
  | Some e =>
      log [LStr "REMOVE BUCKET ERROR"; LStr e] ;;
      sendMessage "Encountered error while removing bucket."
  | None =>
      id <- field obj "bucket_id" ;;
      socket_emit "bucket-deleted" (PJs (Js.JObj [("bucket_id", id)]))
  end.

(** ** Enrolling and students listener functions *)

Definition onEnroll (obj : Js.Val) : M unit :=
  s <- get ;;
  match user s with
  | None => ret tt
  | Some u =>
      if negb (Js.truthy obj) then ret tt
      else
        program <- field obj "program" ;;
        if negb (Js.truthy program) then ret tt
        else
          log [LStr "Enrolling"; LStr (consoleText u); LStr "in program"; LVal program] ;;
          let u' := set_program program u in
          modify (set_user (Some u')) ;;
          effect (UserSave u' cb_onEnroll)
  end.

Definition onEnroll_cb (err : option Err) : M unit :=
  match err with
  | Some e => log [LStr "MONGO ERROR"; LStr e]
  | None => sendMessage "Successfully enrolled"
  end.

Definition onUpdateStudents (obj : Js.Val) : M unit :=
  if negb (Js.truthy obj) then ret tt
  else sendMessage ("The update_students command has been replaced." ++ nl
                    ++ "Open a support ticket for more information.").

(** [student.f] on the document a lookup called back with: a
    [TypeError] when no document was found. *)
Definition deref (student : option User) : M User :=
  match student with
  | Some st => ret st
  | None => throw TypeError
  end.

Definition onUnenrollStudent (obj : Js.Val) : M unit :=
  if negb (Js.truthy obj) then ret tt
  else
    userId <- field obj "userId" ;;
    if negb (Js.truthy userId) then ret tt
    else effect (UserFindById userId cb_onUnenrollStudent_found).

Definition onUnenrollStudent_found (r : Reply (option User)) : M unit :=
  match r with
  | Failed err => log [LStr "MONGO ERROR"; LStr err]
  | Ok found =>
      u <- this_user ;;
      student <- deref found ;;
      if Js.indexOf (instructor u) (program student) =? -1 then
        log [LStr "Warning: illegal call to unenroll student"]
      else
        log [LStr "Un-enrolling"; LStr (consoleText u); LStr "from program";
             LVal (program student)] ;;
        let student' := set_program (Js.JStr "default") student in
        effect (UserSave student' (cb_onUnenrollStudent_saved student'))
  end.

Definition onUnenrollStudent_saved (student : User) (err1 : option Err) : M unit :=
  match err1 with
  | Some e => log [LStr "MONGO ERROR"; LStr e]
  | None => sendMessage ("Student successfully unenrolled: " ++ displayName student)
  end.

Definition onReenrollStudent (obj : Js.Val) : M unit :=
  if negb (Js.truthy obj) then ret tt
  else
    userId <- field obj "userId" ;;
    if negb (Js.truthy userId) then ret tt
    else
      program <- field obj "program" ;;
      if negb (Js.truthy program) then ret tt
      else
        u <- this_user ;;
        if Js.indexOf (instructor u) program =? -1 then
          code <- to_str program ;;
          sendMessage ("Student not re-enrolled: Cannot use the course code " ++ code) ;;
          log [LStr "Warning: illegal call to re-enroll student"]
        else effect (UserFindById userId (cb_onReenrollStudent_found obj)).

Definition onReenrollStudent_found (obj : Js.Val) (r : Reply (option User)) : M unit :=
  match r with
  | Failed err => log [LStr "ERROR ON UNENROLL STUDENT"; LStr err]
  | Ok found =>
      u <- this_user ;;
      student <- deref found ;;
      if Js.indexOf (instructor u) (program student) =? -1 then
        log [LStr "Warning: illegal call to reenroll student"]
      else
        to <- field obj "program" ;;
        log [LStr "Re-enrolling"; LStr (consoleText u); LStr "from program";
             LVal (program student); LStr "to program"; LVal to] ;;
        let student' := set_program to student in
        effect (UserSave student' (cb_onReenrollStudent_saved student'))
  end.

Definition onReenrollStudent_saved (student : User) (err1 : option Err) : M unit :=
  match err1 with
  | Some e => log [LStr "MONGO ERROR"; LStr e]
  | None => sendMessage ("Student successfully re-enrolled: " ++ displayName student)
  end.

Definition onPing (obj : Js.Val) : M unit :=
  if negb (Js.truthy obj) then ret tt
  else
    startTime <- field obj "startTime" ;;
    n <- parse_int startTime ;;
    socket_emit "oo.pong" (PJs (Js.JObj [("startTime", Js.JNum n)])).

Definition reload_cb (err : option Err) : M unit :=
  match err with
  | Some e => log [LStr "MONGO ERROR"; LStr e]
  | None => ret tt
  end ;;
  socket_emit "reload" (PJs (Js.JObj [])).

Definition onToggleSharing (obj : Js.Val) : M unit :=
  s <- get ;;
  match user s with
  | None => ret tt
  | Some u =>
      if negb (Js.truthy obj) then ret tt
      else
        enabled <- field obj "enabled" ;;
        if negb (Js.truthy enabled) && Js.truthy (program u)
           && negb (Js.is_str (program u) "default") then
          sendMessage ("You must unenroll before disabling sharing." ++ nl
                       ++ "To unenroll, run the command " ++ dq
                       ++ "enroll('default')" ++ dq ++ ".")
        else if Js.truthy enabled then
          effect (UserCreateShareKey u cb_createShareKey)
        else
          if_workspace (ws_call (WsDestroyD "Sharing Disabled")) ;;
          effect (UserRemoveShareKey u cb_removeShareKey)
  end.

(** ** Routing of client and backend messages *)

(** [obj.data[i]] *)
Definition data_at (data : list Js.Val) (i : nat) : Js.Val := nth i data Js.JUndefined.

Definition onDataD (obj_data : list Js.Val) : M unit :=
  let name := Js.or (data_at obj_data 0) (Js.JStr "") in
  let data := Js.or (data_at obj_data 1) Js.JNull in
  (* Check for name matches *)
  if Js.is_str name "init" then ret tt
  else if Js.is_str name "enroll" then onEnroll data
  else if Js.is_str name "update_students" then onUpdateStudents data
  else if Js.is_str name "oo.unenroll_student" then onUnenrollStudent data
  else if Js.is_str name "oo.reenroll_student" then onReenrollStudent data
  else if Js.is_str name "oo.ping" then onPing data
  else if Js.is_str name "oo.toggle_sharing" then onToggleSharing data
  else if Js.is_str name "oo.reconnect" then onOoReconnect
  else if Js.is_str name "oo.set_password" then onSetPassword data
  else if Js.is_str name "oo.delete_bucket" then onDeleteBucket data
  else
    (* Check for prefix matches: [name.substr] exists on strings only *)
    match name with
    | Js.JStr n =>
        let prefix := Js.substr3 n in
        if String.eqb prefix "ot." || String.eqb prefix "ws." then
          if_workspace (ws_call (WsDataD n data))
        else
          (* Intercept some commands and fork them into the workspace *)
          (if String.eqb n "data" then if_workspace (ws_call (WsDataD n data)) else ret tt) ;;
          (if String.eqb n "save" then if_workspace (ws_call (WsDataD n data)) else ret tt) ;;
          (* Send everything else upstream to the back server *)
          effect (BackDataD n data)
    | _ => throw TypeError
    end.

Definition onDataU (name : string) (data : Js.Val) : M unit :=
  if_workspace (ws_call (WsDataU name data)) ;;
  if String.eqb name "bucket-repo-created" then onBucketCreated data
  else socket_emit name (PJs data).

(** ** The startup join *)

(** [next(null, null)] at the end of [init_session]: the task callback
    of [Async.auto] stores the result and defers [taskComplete]. *)
Definition set_results_init_session (a : AutoState) : AutoState :=
  mkAuto (results_user a) (results_init a) true (remainingTasks a) (hasError a)
         (init_session_waiting a).

Definition next_init_session : M unit :=
  modify (fun s => set_auto (set_results_init_session (auto s)) s) ;;
  effect SetImmediate_taskComplete.

(** The [switch (action)] of [init_session]: the log line and the
    workspace to construct, or [None] where the case returns. *)
Definition select_workspace (action info oldSessCode : Js.Val) (user : option User)
  : option (list LogArg * WsCtor) :=
  if Js.is_str action "workspace" then
    if negb (Js.truthy info) then None
    else Some ([LStr "Attaching to colaborative workspace:"; LVal info],
               SharedWorkspace_info "default" info)
  else if Js.is_str action "student" then
    if negb (Js.truthy info) then None
    else Some ([LStr "Attaching to a student's workspace:"; LVal info],
               SharedWorkspace_info "student" info)
  else if Js.is_str action "bucket" then
    if negb (Js.truthy info) then None
    else Some ([LStr "Attaching to a bucket:"; LVal info],
               NormalWorkspace oldSessCode user info)
  else
    match user with
    | Some u =>
        if Js.truthy (share_key u) then
          Some ([LStr "Attaching as host to student's workspace:"; LVal (share_key u)],
                SharedWorkspace_user "host" u)
        else
          Some ([LStr "Attaching to default workspace with sessCode"; LVal info],
                NormalWorkspace oldSessCode user Js.JNull)
    | None =>
        Some ([LStr "Attaching to default workspace with sessCode"; LVal info],
              NormalWorkspace oldSessCode user Js.JNull)
    end.

Definition init_session (user : option User) (init : Js.Val) : M unit :=
  s <- get ;;
  if destroyed s then ret tt
  else
    modify (set_user user) ;;
    (* Fork to load instructor data and buckets *)
    loadInstructor ;;
    loadUserBuckets ;;
    touchUser ;;
    (* Process the user's requested action *)
    action <- and_field init "action" ;;
    info <- and_field init "info" ;;
    initSessCode <- and_field init "sessCode" ;;
    skipCreate <- and_field init "skipCreate" ;;
    let oldSessCode :=
      if Js.is_str action "session" && negb (Js.truthy initSessCode)
      then info (* backwards compat. *)
      else initSessCode in
    match select_workspace action info oldSessCode user with
    | None => ret tt
    | Some (line, c) =>
        log line ;;
        effect (WsNew c) ;;
        modify (set_workspace (Some (mkWorkspace c [] None))) ;;
        listen ;;
        (if Js.is_str action "bucket" then
           modify (set_bucketId info) ;;
           loadBucket skipCreate
         else if negb (Js.truthy skipCreate) then ws_call WsBeginOctaveRequest
         else ret tt) ;;
        (* Continue down the chain (does not do anything currently) *)
        next_init_session
    end.

(** [Async.auto] (async 1.x, whose tasks take [(callback, results)]).
    A task callback called with an error raises [hasError] and calls the
    final callback with it; otherwise it stores the result under the
    task's key and defers [taskComplete] with [setImmediate].
    [taskComplete] decrements the count of remaining tasks and runs the
    listeners: the one of [init_session], which starts the task once the
    results of [user] and [init] are both present, and the one that calls
    the final callback when no task remains. *)

(** The final callback: [(err) => { if (err) this.log("ASYNC ERROR", err) }] *)
Definition auto_callback (err : option Err) : M unit :=
  match err with
  | Some e => log [LStr "ASYNC ERROR"; LStr e]
  | None => ret tt
  end.

Definition taskCallback_user (r : Reply (option User)) : M unit :=
  match r with
  | Failed err =>
      modify (fun s =>
        let a := auto s in
        set_auto (mkAuto (results_user a) (results_init a) (results_init_session a)
                         (remainingTasks a) true (init_session_waiting a)) s) ;;
      auto_callback (Some err)
  | Ok u =>
      modify (fun s =>
        let a := auto s in
        set_auto (mkAuto (Some u) (results_init a) (results_init_session a)
                         (remainingTasks a) (hasError a) (init_session_waiting a)) s) ;;
      effect SetImmediate_taskComplete
  end.

Definition taskCallback_init (data : Js.Val) : M unit :=
  modify (fun s =>
    let a := auto s in
    set_auto (mkAuto (results_user a) (Some data) (results_init_session a)
                     (remainingTasks a) (hasError a) (init_session_waiting a)) s) ;;
  effect SetImmediate_taskComplete.

Definition handler_eqb (a b : Handler) : bool :=
  match a, b with
  | H_onDataD, H_onDataD | H_onDestroyD, H_onDestroyD | H_onDataU, H_onDataU
  | H_onDestroyU, H_onDestroyU | H_onDataW, H_onDataW | H_sendMessage, H_sendMessage
  | H_setSessCode, H_setSessCode | H_onDataWtoU, H_onDataWtoU | H_onLogW, H_onLogW
  | H_init_once, H_init_once => true
  | _, _ => false
  end.

Definition is_init_once (l : string * Handler) : bool :=
  String.eqb (fst l) "init" && handler_eqb (snd l) H_init_once.

(** The listener of [self.socket.once("init", ...)]: it runs if it is
    still registered, is removed, and calls [next(null, data)]. *)
Definition socket_init (data : Js.Val) : M unit :=
  s <- get ;;
  if existsb is_init_once (socket_listeners s) then
    modify (set_socket_listeners
              (filter (fun l => negb (is_init_once l)) (socket_listeners s))) ;;
    taskCallback_init data
  else ret tt.

Definition taskComplete : M unit :=
  modify (fun s =>
    let a := auto s in
    set_auto (mkAuto (results_user a) (results_init a) (results_init_session a)
                     (Nat.pred (remainingTasks a)) (hasError a)
                     (init_session_waiting a)) s) ;;
  s <- get ;;
  (match init_session_waiting (auto s), results_user (auto s), results_init (auto s) with
   | true, Some u, Some init =>
       modify (fun s =>
         let a := auto s in
         set_auto (mkAuto (results_user a) (results_init a) (results_init_session a)
                          (remainingTasks a) (hasError a) false) s) ;;
       init_session u init
   | _, _, _ => ret tt
   end) ;;
  s' <- get ;;
  if (remainingTasks (auto s') =? 0)%nat then auto_callback None else ret tt.

(** The session of the handshake: [sess && sess.passport &&
    sess.passport.user]. *)
Definition session_userId (sess : Js.Val) : M Js.Val :=
  passport <- and_field sess "passport" ;;
  and_field passport "user".

Definition constructor (sess : Js.Val) : M unit :=
  (* Set up the socket *)
  s <- get ;;
  log [LStr "New Connection"; LStr (handshake_address s)] ;;
  socket_emit "init" PNothing ;;
  (* Set up Redis connection to back server *)
  effect BackNew ;;
  (* Add event listeners *)
  listen ;;
  (* Startup tasks: 1. Load user from database *)
  userId <- session_userId sess ;;
  (if Js.truthy userId then effect (UserFindById userId cb_auto_user)
   else taskCallback_user (Ok None)) ;;
  (* 2. User requested to connect *)
  socket_on "init" H_init_once.

(** The fields of a new instance, before the constructor body runs:
    [user = null], [bucketId = null], [destroyed = false], no workspace,
    nothing registered, and the three tasks of the join pending. *)
Definition new_state (id address : string) : State :=
  mkState id address [] [] None None Js.JNull None false
          (mkAuto None None false 3 false true).

End SocketHandler.

(* ================================================================== *)
(** * The operations of a session *)
(* ================================================================== *)

Module Session.
Import Model SocketHandler.

(** Every entry point of the unit: the constructor, the methods, the
    listeners, and the callbacks handed to the stores and to
    [Async.auto], each with its arguments. *)
Inductive Op : Type :=
| op_constructor (sess : Js.Val)
| op_listen
| op_unlisten
| op_log (args : list LogArg)
| op_sendMessage (message : string)
| op_onDestroyD
| op_onDestroyU (message : string)
| op_onDataD (obj_data : list Js.Val)
| op_onDataU (name : string) (data : Js.Val)
| op_onDataW (name : string) (data : Js.Val)
| op_onLogW (data : list LogArg)
| op_loadInstructor
| op_loadInstructor_cb (program : string) (r : Reply (list User))
| op_loadUserBuckets
| op_loadUserBuckets_cb (r : Reply (list Bucket))
| op_touchUser
| op_touchUser_cb (err : option Err)
| op_loadBucket (skipCreate : Js.Val)
| op_loadBucket_cb (skipCreate : Js.Val) (r : Reply (option Bucket))
| op_onSetPassword (obj : Js.Val)
| op_onSetPassword_cb (err : option Err)
| op_onBucketCreated (obj : Js.Val)
| op_onBucketCreated_cb (bucket : Bucket) (err : option Err)
| op_onDeleteBucket (obj : Js.Val)
| op_onDeleteBucket_found (obj : Js.Val) (r : Reply (option Bucket))
| op_onDeleteBucket_removed (obj : Js.Val) (err : option Err)
| op_onOoReconnect
| op_setSessCode (code : string)
| op_onDataWtoU (name : string) (value : Js.Val)
| op_onEnroll (obj : Js.Val)
| op_onEnroll_cb (err : option Err)
| op_onUpdateStudents (obj : Js.Val)
| op_onUnenrollStudent (obj : Js.Val)
| op_onUnenrollStudent_found (r : Reply (option User))
| op_onUnenrollStudent_saved (student : User) (err1 : option Err)
| op_onReenrollStudent (obj : Js.Val)
| op_onReenrollStudent_found (obj : Js.Val) (r : Reply (option User))
| op_onReenrollStudent_saved (student : User) (err1 : option Err)
| op_onPing (obj : Js.Val)
| op_onToggleSharing (obj : Js.Val)
| op_reload_cb (err : option Err)
| op_init_session (user : option User) (init : Js.Val)
| op_taskCallback_user (r : Reply (option User))
| op_socket_init (data : Js.Val)
| op_taskComplete.

Definition run (op : Op) : M unit :=
  match op with
  | op_constructor sess => constructor sess
  | op_listen => listen
  | op_unlisten => unlisten
  | op_log args => log args
  | op_sendMessage message => sendMessage message
  | op_onDestroyD => onDestroyD
  | op_onDestroyU message => onDestroyU message
  | op_onDataD obj_data => onDataD obj_data
  | op_onDataU name data => onDataU name data
  | op_onDataW name data => onDataW name data
  | op_onLogW data => onLogW data
  | op_loadInstructor => loadInstructor
  | op_loadInstructor_cb program r => loadInstructor_cb program r
  | op_loadUserBuckets => loadUserBuckets
  | op_loadUserBuckets_cb r => loadUserBuckets_cb r
  | op_touchUser => touchUser
  | op_touchUser_cb err => touchUser_cb err
  | op_loadBucket skipCreate => loadBucket skipCreate
  | op_loadBucket_cb skipCreate r => loadBucket_cb skipCreate r
  | op_onSetPassword obj => onSetPassword obj
  | op_onSetPassword_cb err => onSetPassword_cb err
  | op_onBucketCreated obj => onBucketCreated obj
  | op_onBucketCreated_cb bucket err => onBucketCreated_cb bucket err
  | op_onDeleteBucket obj => onDeleteBucket obj
  | op_onDeleteBucket_found obj r => onDeleteBucket_found obj r
  | op_onDeleteBucket_removed obj err => onDeleteBucket_removed obj err
  | op_onOoReconnect => onOoReconnect
  | op_setSessCode code => setSessCode code
  | op_onDataWtoU name value => onDataWtoU name value
  | op_onEnroll obj => onEnroll obj
  | op_onEnroll_cb err => onEnroll_cb err
  | op_onUpdateStudents obj => onUpdateStudents obj
  | op_onUnenrollStudent obj => onUnenrollStudent obj
  | op_onUnenrollStudent_found r => onUnenrollStudent_found r
  | op_onUnenrollStudent_saved student err1 => onUnenrollStudent_saved student err1
  | op_onReenrollStudent obj => onReenrollStudent obj
  | op_onReenrollStudent_found obj r => onReenrollStudent_found obj r
  | op_onReenrollStudent_saved student err1 => onReenrollStudent_saved student err1
  | op_onPing obj => onPing obj
  | op_onToggleSharing obj => onToggleSharing obj
  | op_reload_cb err => reload_cb err
  | op_init_session user init => init_session user init
  | op_taskCallback_user r => taskCallback_user r
  | op_socket_init data => socket_init data
  | op_taskComplete => taskComplete
  end.

(** A run of operations, one after the other; a throw ends the
    operation it occurs in, not the session. *)
Fixpoint run_all (ops : list Op) (s : State) : State * Trace :=
  match ops with
  | [] => (s, [])
  | op :: rest =>
      let o := run op s in
      let '(s', t) := run_all rest (final_state o) in
      (s', (trace_of o ++ t)%list)
  end.

(** The listener registries of a state: socket, backend, workspace. *)
Definition registries (s : State) : Listeners * Listeners * option Listeners :=
  (socket_listeners s, back_listeners s, option_map ws_listeners (workspace s)).

(** A state with nothing registered on any channel. *)
Definition unbound (s : State) : State :=
  set_socket_listeners []
    (set_back_listeners []
       (set_workspace
          (option_map (fun w => mkWorkspace (ctor w) [] (ws_sessCode w)) (workspace s)) s)).

(** The names [onDataD] handles itself. *)
Definition reserved_names : list string :=
  ["init"; "enroll"; "update_students"; "oo.unenroll_student"; "oo.reenroll_student";
   "oo.ping"; "oo.toggle_sharing"; "oo.reconnect"; "oo.set_password"; "oo.delete_bucket"].

Definition reserved_prefix (name : string) : bool :=
  String.eqb (Js.substr3 name) "ot." || String.eqb (Js.substr3 name) "ws.".

Definition is_BackDataD (e : Effect) : bool :=
  match e with BackDataD _ _ => true | _ => false end.

Definition calls_collaborator (e : Effect) : bool :=
  match e with
  | ConsoleLog _ | SetImmediate_taskComplete => false
  | _ => true
  end.

End Session.

(* ================================================================== *)
(** * Vocabulary of the statements *)
(* ================================================================== *)

Module Spec.
Import Model SocketHandler Session.

(** A decimal digit, and the step of reading one. *)
Definition is_digit (d : Z) : Prop := 0 <= d < 10.
Definition shift (a d : Z) : Z := a * 10 + d.

(** The text does not go on with a decimal digit. *)
Definition no_digit_ahead (rest : string) : bool :=
  match rest with
  | String c _ => match Js.digit_val 10 c with Some _ => false | None => true end
  | EmptyString => true
  end.

(** A first character with which no number of [parseInt] begins: no
    white space (or first byte of one), no sign, no digit. *)
Definition cannot_start_number (c : ascii) : bool :=
  negb (Js.is_space c) && negb (Js.is_lead c)
  && negb (Ascii.eqb c "+") && negb (Ascii.eqb c "-")
  && match Js.digit_val 10 c with Some _ => false | None => true end.

(** A computation keeps the [destroyed] flag when the state it ends in,
    returning or throwing, has the flag of the state it started from. *)
Definition keeps {A} (m : M A) : Prop :=
  forall s, destroyed (final_state (m s)) = destroyed s.

(** The line [this.log(...)] writes. *)
Definition logged (s : State) (args : list LogArg) : Effect :=
  ConsoleLog (LStr ("[" ++ socket_id s ++ "]") :: args).

(** What [sendMessage] sends. *)
Definition message (m : string) : Trace :=
  [SocketEmit "data"
     (PJs (Js.JObj [("type", Js.JStr "stdout"); ("data", Js.JStr (m ++ nl))]));
   SocketEmit "alert" (PJs (Js.JStr m))].

(** The answer to a ping. *)
Definition pong (v : Js.Val) : Effect :=
  SocketEmit "oo.pong" (PJs (Js.JObj [("startTime", v)])).

(** The state after [setSessCode]: the same workspace object, with the
    code recorded on it. *)
Definition record_sessCode (code : string) (s : State) : State :=
  match workspace s with
  | Some w => set_workspace (Some (mkWorkspace (ctor w) (ws_listeners w) (Some code))) s
  | None => s
  end.

Definition is_BucketRemove (e : Effect) : bool :=
  match e with BucketRemove _ _ => true | _ => false end.

Definition is_SocketEmit (e : Effect) : bool :=
  match e with SocketEmit _ _ => true | _ => false end.

Definition is_WsNew (e : Effect) : bool :=
  match e with WsNew _ => true | _ => false end.

(** The listener set [listen] attaches to each channel. *)
Definition socket_bound : Listeners :=
  [("*", H_onDataD); ("disconnect", H_onDestroyD)].

Definition back_bound : Listeners :=
  [("data", H_onDataU); ("destroy-u", H_onDestroyU)].

Definition ws_bound : Listeners :=
  [("data", H_onDataW); ("message", H_sendMessage); ("sesscode", H_setSessCode);
   ("back", H_onDataWtoU); ("log", H_onLogW)].

Definition bound (s : State) : State :=
  set_socket_listeners socket_bound
    (set_back_listeners back_bound
       (set_workspace
          (option_map (fun w => mkWorkspace (ctor w) ws_bound (ws_sessCode w))
                      (workspace s)) s)).

Definition if_some {A B} (o : option A) (l : list B) : list B :=
  match o with Some _ => l | None => [] end.

(** [n] calls of [listen] in a row. *)
Fixpoint rebind (n : nat) : M unit :=
  match n with
  | O => ret tt
  | S k => listen ;; rebind k
  end.

(** The operations of the startup join that can follow a failed user
    lookup: the failure itself, the client's [init], a deferred
    [taskComplete]. *)
Definition join_op_without_user (op : Op) : bool :=
  match op with
  | op_taskCallback_user (Failed _) | op_socket_init _ | op_taskComplete => true
  | _ => false
  end.

(** What a failed lookup leaves of the join: no result for [user], so
    the listener of [init_session] keeps waiting. *)
Definition stalled (s0 s : State) : Prop :=
  socket_id s = socket_id s0 /\ destroyed s = destroyed s0 /\
  user s = user s0 /\ workspace s = workspace s0 /\
  results_user (auto s) = None /\
  init_session_waiting (auto s) = init_session_waiting (auto s0).

End Spec.

(* ================================================================== *)
(** * Sample sessions *)
(* ================================================================== *)

Module Sample.
Import Model SocketHandler Session Spec.

Definition fresh : State := new_state "id" "addr".

Definition normal_workspace : Workspace :=
  mkWorkspace (NormalWorkspace Js.JNull None Js.JNull) [] None.

Definition with_normal_workspace : State := set_workspace (Some normal_workspace) fresh.

Definition instructor_u1 : User :=
  mkUser "u1" "prof" "Prof" (Js.JStr "default") ["math101"] Js.JUndefined.

Definition student_u2 : User :=
  mkUser "u2" "stud" "Stud" (Js.JStr "physics7") [] Js.JUndefined.

Definition as_instructor : State := set_user (Some instructor_u1) fresh.

Definition bucket_of_u2 : Bucket := mkBucket (Js.JStr "bucket-42") "u2" (Js.JStr "main.m").
Definition bucket_of_u1 : Bucket := mkBucket (Js.JStr "bucket-7") "u1" (Js.JStr "main.m").

(** A session whose two join branches have resolved and whose flag an
    outside caller has set. *)
Definition destroyed_session : State :=
  mkState "id" "addr" socket_bound back_bound None None Js.JNull None true
          (mkAuto (Some None) (Some (Js.JObj [("action", Js.JStr "session")])) false 2 false true).

Definition session_of_u1 : Js.Val :=
  Js.JObj [("passport", Js.JObj [("user", Js.JStr "u1")])].

Definition init_default : Js.Val := Js.JObj [("action", Js.JStr "session")].

Definition ping_payload : Js.Val :=
  Js.JObj [("startTime", Js.JNum (Js.JInt 1700000000123))].

Definition reenroll_payload : Js.Val :=
  Js.JObj [("userId", Js.JStr "u2"); ("program", Js.JStr "chem3")].

Definition unenroll_payload : Js.Val := Js.JObj [("userId", Js.JStr "u2")].

(** A join whose lookup fails before the client's [init] arrives, and
    the join of a session without a user id. *)
Definition failed_join : list Op :=
  [op_taskCallback_user (Failed "db down"); op_socket_init init_default; op_taskComplete].

Definition anonymous_join : list Op :=
  [op_taskComplete; op_socket_init init_default; op_taskComplete].

End Sample.

(* ================================================================== *)
(** * Vocabulary of the further statements *)
(* ================================================================== *)

Module Notions.
Import Model SocketHandler Session Spec.

(** The outcome of a computation that ran after the calls [t]. *)
Definition after {A} (t : Trace) (o : Outcome A) : Outcome A :=
  match o with
  | Done a s t' => Done a s (t ++ t')%list
  | Throw e s t' => Throw e s (t ++ t')%list
  end.

(** The value of [obj && obj.key]. *)
Definition and_val (obj : Js.Val) (key : string) : Js.Val :=
  if Js.truthy obj then
    match Js.get obj key with Some v => v | None => Js.JUndefined end
  else obj.

(** The value of [sess && sess.passport && sess.passport.user]. *)
Definition userId_of (sess : Js.Val) : Js.Val :=
  and_val (and_val sess "passport") "user".

(** The variables of [init_session]. *)
Definition init_action (init : Js.Val) : Js.Val := and_val init "action".
Definition init_info (init : Js.Val) : Js.Val := and_val init "info".
Definition init_skipCreate (init : Js.Val) : Js.Val := and_val init "skipCreate".

Definition init_oldSessCode (init : Js.Val) : Js.Val :=
  if Js.is_str (init_action init) "session" && negb (Js.truthy (and_val init "sessCode"))
  then init_info init
  else and_val init "sessCode".

(** The action is one of the three that need [info]. *)
Definition needs_info (action : Js.Val) : bool :=
  Js.is_str action "workspace" || Js.is_str action "student" || Js.is_str action "bucket".

(** The store calls of [loadInstructor], [loadUserBuckets] and
    [touchUser], in that order. *)
Definition instructor_queries (u : User) : Trace :=
  map (fun program => UserFind program (cb_loadInstructor program)) (instructor u).

Definition loaders (u : option User) : Trace :=
  match u with
  | None => []
  | Some u =>
      (instructor_queries u
       ++ [BucketFind (_id u) cb_loadUserBuckets; UserTouchLastActivity u cb_touchUser])%list
  end.

(** All the calls of a computation satisfy [P], from every state. *)
Definition emits_only {A} (P : Effect -> bool) (m : M A) : Prop :=
  forall s, forallb P (trace_of (m s)) = true.

(** A computation leaves the observation [f] of the state as it was. *)
Definition preserves {A X} (f : State -> X) (m : M A) : Prop :=
  forall s, f (final_state (m s)) = f s.

Definition is_dataD (e : Effect) : bool :=
  match e with BackDataD _ _ | WsDataD _ _ => true | _ => false end.

Definition is_WsBeginOctaveRequest (e : Effect) : bool :=
  match e with WsBeginOctaveRequest => true | _ => false end.

Definition is_store_call (e : Effect) : bool :=
  match e with
  | UserFindById _ _ | UserFind _ _ | UserTouchLastActivity _ _ | UserSetPassword _ _ _
  | UserSave _ _ | UserCreateShareKey _ _ | UserRemoveShareKey _ _
  | BucketFind _ _ | BucketFindOne _ _ | BucketSave _ _ | BucketRemove _ _ => true
  | _ => false
  end.

(** The listener of [socket.once("init", ...)]. *)
Definition init_once : string * Handler := ("init", H_init_once).

(** The session right after the constructor: the channels bound, the
    [init] listener registered, the three tasks of the join pending. *)
Definition connected (id addr : string) : State :=
  set_socket_listeners (socket_bound ++ [init_once])%list
    (set_back_listeners back_bound (new_state id addr)).

(** The same session once the user branch has resolved with [u]. *)
Definition set_results_user (u : option User) (s : State) : State :=
  let a := auto s in
  set_auto (mkAuto (Some u) (results_init a) (results_init_session a)
                   (remainingTasks a) (hasError a) (init_session_waiting a)) s.

(** The join with both branches resolved, before [taskComplete] has
    seen it, and as [init_session] finds it. *)
Definition both_resolved (u : option User) (d : Js.Val) (id addr : string) : State :=
  set_auto (mkAuto (Some u) (Some d) false 2 false true)
    (set_socket_listeners socket_bound (set_back_listeners back_bound (new_state id addr))).

Definition firing (u : option User) (d : Js.Val) (id addr : string) : State :=
  set_auto (mkAuto (Some u) (Some d) false 1 false false)
    (set_socket_listeners socket_bound (set_back_listeners back_bound (new_state id addr))).

Definition user_then_init (u : option User) (d : Js.Val) : list Op :=
  [op_taskCallback_user (Ok u); op_taskComplete; op_socket_init d].

Definition init_then_user (u : option User) (d : Js.Val) : list Op :=
  [op_socket_init d; op_taskComplete; op_taskCallback_user (Ok u)].

(** The operations that run [init_session]. *)
Definition runs_init_session (op : Op) : bool :=
  match op with
  | op_init_session _ _ | op_taskComplete => true
  | _ => false
  end.

(** The calls of the constructor up to the start of the join. *)
Definition connect_calls (id addr : string) : Trace :=
  [logged (new_state id addr) [LStr "New Connection"; LStr addr];
   SocketEmit "init" PNothing; BackNew; BackUnsubscribe; BackSubscribe].

(** The fields no operation assigns. *)
Definition constants (s : State) : string * string * option string :=
  (socket_id s, handshake_address s, sessCode s).

(** Everything but [this.user]. *)
Definition but_user (s : State) : State := set_user None s.

(** Everything but the bookkeeping of [Async.auto]. *)
Definition but_auto (s : State) : State :=
  set_auto (mkAuto None None false 0 false false) s.

(** The refusal of [onToggleSharing]. *)
Definition must_unenroll : string :=
  "You must unenroll before disabling sharing." ++ nl
  ++ "To unenroll, run the command " ++ dq ++ "enroll('default')" ++ dq ++ ".".

(** The calls of [onToggleSharing] when sharing is switched off. *)
Definition sharing_disabled (u : User) (s : State) : Trace :=
  (if_some (workspace s) [WsDestroyD "Sharing Disabled"]
   ++ [UserRemoveShareKey u cb_removeShareKey])%list.

(** The bucket [onBucketCreated] builds. *)
Definition created_bucket (u : User) (obj : Js.Val) : Bucket :=
  mkBucket (and_val obj "bucket_id") (_id u) (and_val obj "main").

(** The session after [init_session] has attached the workspace built
    by [c]: the user set, the workspace bound, the channels rebound and
    the task reported as complete. *)
Definition attached (u : option User) (c : WsCtor) (s : State) : State :=
  set_auto (set_results_init_session (auto s))
    (bound (set_workspace (Some (mkWorkspace c [] None)) (set_user u s))).

(** The calls of [init_session] from its log line to the end of
    [listen]. *)
Definition attach_calls (s : State) (line : list LogArg) (c : WsCtor) : Trace :=
  [logged s line; WsNew c; BackUnsubscribe; WsUnsubscribe; WsSubscribe; BackSubscribe].

(** The workspace of the default case of the [switch]. *)
Definition default_line (u : option User) (init : Js.Val) : list LogArg :=
  match u with
  | Some u' =>
      if Js.truthy (share_key u')
      then [LStr "Attaching as host to student's workspace:"; LVal (share_key u')]
      else [LStr "Attaching to default workspace with sessCode"; LVal (init_info init)]
  | None => [LStr "Attaching to default workspace with sessCode"; LVal (init_info init)]
  end.

Definition default_ctor (u : option User) (init : Js.Val) : WsCtor :=
  match u with
  | Some u' =>
      if Js.truthy (share_key u') then SharedWorkspace_user "host" u'
      else NormalWorkspace (init_oldSessCode init) u Js.JNull
  | None => NormalWorkspace (init_oldSessCode init) u Js.JNull
  end.

End Notions.

Module MoreSamples.
Import Model SocketHandler Session Spec Sample Notions.

Definition student_u3 : User :=
  mkUser "u3" "stud3" "Stud Three" (Js.JStr "math101") [] Js.JUndefined.

Definition host_u4 : User :=
  mkUser "u4" "host" "Host" (Js.JStr "default") [] (Js.JStr "key-4").

Definition init_workspace_no_info : Js.Val := Js.JObj [("action", Js.JStr "workspace")].

Definition init_student : Js.Val :=
  Js.JObj [("action", Js.JStr "student"); ("info", Js.JStr "u2")].

Definition init_bucket : Js.Val :=
  Js.JObj [("action", Js.JStr "bucket"); ("info", Js.JStr "bucket-42")].

Definition bucket_created_payload : Js.Val :=
  Js.JObj [("bucket_id", Js.JStr "bucket-9"); ("main", Js.JStr "run.m")].

Definition enroll_payload : Js.Val := Js.JObj [("program", Js.JStr "math101")].
Definition enroll_default_payload : Js.Val := Js.JObj [("program", Js.JStr "default")].
Definition sharing_off : Js.Val := Js.JObj [("enabled", Js.JBool false)].
Definition sharing_on : Js.Val := Js.JObj [("enabled", Js.JBool true)].

Definition instructor_with_workspace : State :=
  set_workspace (Some normal_workspace) as_instructor.

Definition reenroll_u3_payload : Js.Val :=
  Js.JObj [("userId", Js.JStr "u3"); ("program", Js.JStr "math101")].

End MoreSamples.

(* ================================================================== *)
(** * Facts about the JavaScript built-ins *)
(* ================================================================== *)

Module JsFacts.
Import Js Spec.

Lemma is_digit_cases (d : Z) :
  is_digit d ->
  d = 0 \/ d = 1 \/ d = 2 \/ d = 3 \/ d = 4 \/ d = 5 \/ d = 6 \/ d = 7 \/ d = 8 \/ d = 9.
Proof. unfold is_digit. lia. Qed.

Ltac digit_cases H :=
  apply is_digit_cases in H;
  repeat (destruct H as [H | H]); subst.

Lemma digit_val_digit_char (d : Z) :
  is_digit d -> digit_val 10 (digit_char d) = Some d.
Proof. intros H. digit_cases H; reflexivity. Qed.

Lemma digit_prefix_string_of_digits (ds : list Z) :
  Forall is_digit ds -> digit_prefix 10 (string_of_digits ds) = ds.
Proof.
  induction 1 as [| d ds Hd _ IH]; simpl.
  - reflexivity.
  - rewrite (digit_val_digit_char d Hd), IH. reflexivity.
Qed.

Lemma math_int_app (ds acc : list Z) (a : Z) :
  fold_left shift (ds ++ acc) a = fold_left shift acc (fold_left shift ds a).
Proof. apply fold_left_app. Qed.

(** The digits printed for [n] are decimal digits, there is at least
    one, and read back from any accumulator they append [n] to it. *)
Lemma digits_fuel_spec (f : nat) :
  forall n acc,
    0 <= n < 10 ^ Z.of_nat f -> (1 <= f)%nat ->
    exists ds k,
      digits_fuel f n acc = (ds ++ acc)%list /\
      Forall is_digit ds /\ ds <> [] /\ 0 <= k /\
      forall a, fold_left shift ds a = a * 10 ^ k + n.
Proof.
  induction f as [| f IH]; intros n acc Hn Hf; [lia |].
  simpl digits_fuel.
  assert (Hmod : is_digit (n mod 10)) by (unfold is_digit; apply Z.mod_pos_bound; lia).
  destruct (Z.eqb_spec (n / 10) 0) as [Hq | Hq].
  - exists [n mod 10], 1.
    split; [reflexivity |].
    split; [constructor; [assumption | constructor] |].
    split; [discriminate |].
    split; [lia |].
    intros a. simpl. unfold shift.
    pose proof (Z.div_mod n 10). lia.
  - assert (Hdiv : 0 <= n / 10 < 10 ^ Z.of_nat f).
    { split; [apply Z.div_pos; lia |].
      apply Z.div_lt_upper_bound; [lia |].
      replace (10 * 10 ^ Z.of_nat f) with (10 ^ Z.of_nat (S f)); [lia |].
      rewrite Nat2Z.inj_succ, Z.pow_succ_r; lia. }
    assert (Hf' : (1 <= f)%nat).
    { destruct f; [| lia]. simpl in Hdiv. lia. }
    destruct (IH (n / 10) ((n mod 10) :: acc) Hdiv Hf')
      as (ds & k & Heq & Hall & Hne & Hk & Hfold).
    exists (ds ++ [n mod 10])%list, (k + 1).
    split; [| split; [| split; [| split]]].
    + rewrite Heq, <- app_assoc. reflexivity.
    + apply Forall_app; split; auto.
    + destruct ds; discriminate.
    + lia.
    + intros a. rewrite math_int_app, Hfold. simpl. unfold shift.
      rewrite Z.pow_add_r, Z.pow_1_r by lia.
      pose proof (Z.div_mod n 10). lia.
Qed.

Lemma digits_spec (n : Z) :
  0 <= n ->
  Forall is_digit (digits n) /\ digits n <> [] /\ math_int 10 (digits n) = n.
Proof.
  intros Hn. unfold digits.
  destruct (digits_fuel_spec (S (Z.to_nat (Z.log2 n))) n []) as (ds & k & Heq & Hall & Hne & _ & Hfold).
  - split; [assumption |].
    destruct (Z.eq_dec n 0) as [-> | Hnz]; [reflexivity |].
    rewrite Nat2Z.inj_succ, Z2Nat.id by apply Z.log2_nonneg.
    apply Z.lt_le_trans with (2 ^ Z.succ (Z.log2 n)).
    + apply Z.log2_spec. lia.
    + apply Z.pow_le_mono_l. pose proof (Z.log2_nonneg n). lia.
  - lia.
  - rewrite Heq, app_nil_r.
    split; [assumption | split; [assumption |]].
    unfold math_int. change (fun a d => a * 10 + d) with shift.
    rewrite Hfold. lia.
Qed.

(** A printed natural number reads back as itself. *)
Lemma digit_prefix_front (ds : list Z) (rest : string) :
  Forall is_digit ds -> no_digit_ahead rest = true ->
  digit_prefix 10 (string_of_digits ds ++ rest) = ds.
Proof.
  intros Hall Hrest. induction Hall as [| d ds Hd _ IH]; simpl.
  - destruct rest as [| c r]; [reflexivity |]. simpl in *.
    destruct (digit_val 10 c); [discriminate Hrest | reflexivity].
  - rewrite (digit_val_digit_char d Hd), IH. reflexivity.
Qed.

Lemma append_empty (s : string) : s ++ "" = s.
Proof. induction s as [| c s IH]; simpl; [| rewrite IH]; reflexivity. Qed.

(** Printed digits begin with no white space, no sign and no [0x]. *)
Lemma digits_start (d : Z) (tl : string) :
  is_digit d ->
  trim_start (String (digit_char d) tl) = String (digit_char d) tl /\
  strip_sign (String (digit_char d) tl) = (false, String (digit_char d) tl).
Proof. intros Hd. digit_cases Hd; split; reflexivity. Qed.

Lemma strip_hex_digits (ds : list Z) :
  Forall is_digit ds -> strip_hex (string_of_digits ds) = (10, string_of_digits ds).
Proof.
  intros Hall. destruct ds as [| d1 [| d2 tl]]; [reflexivity | |].
  - inversion Hall as [| ? ? Hd1 _]; subst. digit_cases Hd1; reflexivity.
  - inversion Hall as [| ? ? Hd1 Hrest]; subst.
    inversion Hrest as [| ? ? Hd2 _]; subst.
    digit_cases Hd1; try reflexivity.
    digit_cases Hd2; reflexivity.
Qed.

(** A string that begins with decimal digits, not followed by a further
    digit and not read as hexadecimal, parses as the number of those
    digits; with a minus sign in front, as its opposite. *)
Lemma parse_int_string_front (ds : list Z) (rest : string) :
  Forall is_digit ds -> ds <> [] -> no_digit_ahead rest = true ->
  strip_hex (string_of_digits ds ++ rest) = (10, string_of_digits ds ++ rest) ->
  parse_int_string (string_of_digits ds ++ rest) = number_of false (math_int 10 ds) /\
  parse_int_string (String "-"%char (string_of_digits ds ++ rest))
  = number_of true (math_int 10 ds).
Proof.
  intros Hall Hne Hrest Hhex.
  pose proof (digit_prefix_front ds rest Hall Hrest) as Hpre.
  destruct ds as [| d1 tl]; [congruence |].
  inversion Hall as [| ? ? Hd1 _]; subst.
  change (string_of_digits (d1 :: tl) ++ rest)
    with (String (digit_char d1) (string_of_digits tl ++ rest)) in *.
  destruct (digits_start d1 (string_of_digits tl ++ rest) Hd1) as [Htrim Hsign].
  split.
  - unfold parse_int_string. rewrite Htrim, Hsign. cbv beta iota.
    rewrite Hhex. cbv beta iota. rewrite Hpre. reflexivity.
  - unfold parse_int_string.
    change (trim_start (String "-"%char (String (digit_char d1) (string_of_digits tl ++ rest))))
      with (String "-"%char (String (digit_char d1) (string_of_digits tl ++ rest))).
    change (strip_sign (String "-"%char (String (digit_char d1) (string_of_digits tl ++ rest))))
      with (true, String (digit_char d1) (string_of_digits tl ++ rest)).
    cbv beta iota. rewrite Hhex. cbv beta iota. rewrite Hpre. reflexivity.
Qed.

(** The decimal string of an integer parses as its Number value. *)
Lemma parse_int_string_int (z : Z) :
  parse_int_string (int_to_string z) = number_of (z <? 0) (Z.abs z).
Proof.
  unfold int_to_string.
  destruct (Z.ltb_spec z 0) as [Hneg | Hpos].
  - destruct (digits_spec (- z)) as (Hall & Hne & Hval); [lia |].
    pose proof (strip_hex_digits _ Hall) as Hhex.
    rewrite <- (append_empty (string_of_digits (digits (- z)))) in Hhex |- *.
    destruct (parse_int_string_front _ "" Hall Hne eq_refl Hhex) as [_ ->].
    rewrite Hval. f_equal. lia.
  - destruct (digits_spec z Hpos) as (Hall & Hne & Hval).
    pose proof (strip_hex_digits _ Hall) as Hhex.
    rewrite <- (append_empty (string_of_digits (digits z))) in Hhex |- *.
    destruct (parse_int_string_front _ "" Hall Hne eq_refl Hhex) as [-> _].
    rewrite Hval. f_equal. lia.
Qed.

(** A safe integer is a double. *)
Lemma number_of_safe (z : Z) : safe_integer z -> number_of (z <? 0) (Z.abs z) = JInt z.
Proof.
  unfold safe_integer, number_of, round_int. intros Hz.
  destruct (Z.eqb_spec (Z.abs z) 0) as [H0 | Hnz].
  - assert (z = 0) by lia. subst. reflexivity.
  - assert (Hlt : (Z.abs z <? 2 ^ 53) = true) by (apply Z.ltb_lt; lia).
    rewrite Hlt. destruct (Z.ltb_spec z 0); f_equal; lia.
Qed.

Lemma number_of_small (v : Z) :
  0 <= v < 2 ^ 53 -> number_of false v = JInt v.
Proof.
  intros Hv. unfold number_of, round_int.
  destruct (Z.eqb_spec v 0) as [-> | _]; [reflexivity |].
  assert (Hlt : (v <? 2 ^ 53) = true) by (apply Z.ltb_lt; lia).
  rewrite Hlt. reflexivity.
Qed.

Lemma math_int_shift (ds : list Z) : math_int 10 ds = fold_left shift ds 0.
Proof. reflexivity. Qed.

Lemma fold_shift_nonneg (ds : list Z) (a : Z) :
  Forall is_digit ds -> 0 <= a -> 0 <= fold_left shift ds a.
Proof.
  intros Hall. revert a. induction Hall as [| d ds Hd _ IH]; intros a Ha; simpl.
  - exact Ha.
  - apply IH. unfold shift, is_digit in *. lia.
Qed.

Lemma number_to_string_safe (z : Z) :
  safe_integer z -> number_to_string (JInt z) = int_to_string z.
Proof.
  unfold safe_integer. intros Hz. unfold number_to_string.
  assert (Hle : (Z.abs z <=? 2 ^ 53) = true) by (apply Z.leb_le; lia).
  rewrite Hle. reflexivity.
Qed.

(** [parseInt] of a safe integer is that number. *)
Lemma parseInt_int (z : Z) :
  safe_integer z -> parseInt (JNum (JInt z)) = Some (JInt z).
Proof.
  intros Hz. unfold parseInt. cbn [to_string option_map].
  rewrite (number_to_string_safe z Hz), parse_int_string_int, (number_of_safe z Hz).
  reflexivity.
Qed.

(** A string whose first character can begin no number parses as
    [NaN]; so does the empty string. *)
Lemma parse_int_string_nan (c : ascii) (rest : string) :
  cannot_start_number c = true -> parse_int_string (String c rest) = NaN.
Proof.
  destruct c as [[] [] [] [] [] [] [] []]; intros H; try discriminate H; reflexivity.
Qed.

Lemma or_truthy (v d : Val) : truthy v = true -> Js.or v d = v.
Proof. unfold Js.or. intros ->. reflexivity. Qed.

Lemma or_falsy (v d : Val) : truthy v = false -> Js.or v d = d.
Proof. unfold Js.or. intros ->. reflexivity. Qed.

(** [name || ""] leaves a string name as it is. *)
Lemma or_name (n : string) : Js.or (JStr n) (JStr "") = JStr n.
Proof.
  unfold Js.or. simpl. destruct (String.eqb_spec n ""); simpl; congruence.
Qed.

(** A property read on a truthy value does not throw. *)
Lemma get_truthy (v : Val) (key : string) :
  truthy v = true -> exists x, get v key = Some x.
Proof. destruct v; simpl; try discriminate; eauto. Qed.

Example parseInt_12px : parseInt (JStr "12px") = Some (JInt 12).
Proof. reflexivity. Qed.

Example parseInt_hex : parseInt (JStr "  -0x1A") = Some (JInt (-26)).
Proof. reflexivity. Qed.

Example parseInt_undefined : parseInt JUndefined = Some NaN.
Proof. reflexivity. Qed.

Example parseInt_exponent : parseInt (JNum (JInt (10 ^ 21))) = Some (JInt 1).
Proof. vm_compute. reflexivity. Qed.

Example parseInt_rounds : parseInt (JStr "9007199254740993") = Some (JInt 9007199254740992).
Proof. vm_compute. reflexivity. Qed.

Example parseInt_fraction : parseInt (JNum (JFrac 2469 1)) = Some (JInt 1234).
Proof. vm_compute. reflexivity. Qed.

Example parseInt_own_toString : parseInt (JObj [("toString", JStr "x")]) = None.
Proof. reflexivity. Qed.

Example to_string_array :
  to_string (JArr [JNum (JInt (-40)); JNull; JStr "a"]) = Some "-40,,a".
Proof. reflexivity. Qed.

Example to_string_exponent : to_string (JNum (JInt (10 ^ 21))) = Some "1e+21".
Proof. vm_compute. reflexivity. Qed.

End JsFacts.

(* ================================================================== *)
(** * The [destroyed] flag is never written *)
(* ================================================================== *)

Module Invariant.
Import Model SocketHandler Session Spec.

Lemma keeps_ret {A} (a : A) : keeps (ret a).
Proof. intros s. reflexivity. Qed.

Lemma keeps_throw {A} (e : string) : keeps (@throw A e).
Proof. intros s. reflexivity. Qed.

Lemma keeps_get : keeps get.
Proof. intros s. reflexivity. Qed.

Lemma keeps_effect (e : Effect) : keeps (effect e).
Proof. intros s. reflexivity. Qed.

Lemma keeps_modify (f : State -> State) :
  (forall s, destroyed (f s) = destroyed s) -> keeps (modify f).
Proof. intros H s. apply H. Qed.

Lemma keeps_bind {A B} (m : M A) (f : A -> M B) :
  keeps m -> (forall a, keeps (f a)) -> keeps (bind m f).
Proof.
  intros Hm Hf s. unfold bind.
  specialize (Hm s). destruct (m s) as [a s1 t1 | e s1 t1]; simpl in *.
  - specialize (Hf a s1). destruct (f a s1); simpl in *; congruence.
  - assumption.
Qed.

Create HintDb keeps.

#[local] Hint Resolve keeps_ret keeps_throw keeps_get keeps_effect : keeps.

(** One step of the argument: split a sequence, discharge a primitive,
    or case on what a conditional tests. *)
Ltac keeps_step :=
  match goal with
  | |- keeps (bind _ _) => apply keeps_bind; [| intro]
  | |- keeps (modify _) => apply keeps_modify; intro; reflexivity
  | |- keeps (if ?b then _ else _) => destruct b
  | |- keeps (match ?x with _ => _ end) => destruct x
  | |- keeps (let '(_, _) := ?x in _) => destruct x
  | |- keeps _ => solve [auto with keeps]
  end.

Ltac keeps_tac := repeat keeps_step.

Lemma keeps_with_workspace {A} (f : Workspace -> M A) :
  (forall w, keeps (f w)) -> keeps (with_workspace f).
Proof. intros H. unfold with_workspace. keeps_tac. Qed.

Lemma keeps_if_workspace (m : M unit) : keeps m -> keeps (if_workspace m).
Proof. intros H. unfold if_workspace. keeps_tac. Qed.

Lemma keeps_ws_call (e : Effect) : keeps (ws_call e).
Proof. apply keeps_with_workspace. intro. keeps_tac. Qed.

Lemma keeps_ws_on (ev : string) (h : Handler) : keeps (ws_on ev h).
Proof. apply keeps_with_workspace. intro. keeps_tac. Qed.

Lemma keeps_ws_removeAllListeners : keeps ws_removeAllListeners.
Proof. apply keeps_with_workspace. intro. keeps_tac. Qed.

Lemma keeps_socket_on (ev : string) (h : Handler) : keeps (socket_on ev h).
Proof. unfold socket_on. keeps_tac. Qed.

Lemma keeps_back_on (ev : string) (h : Handler) : keeps (back_on ev h).
Proof. unfold back_on. keeps_tac. Qed.

Lemma keeps_socket_emit (n : string) (p : Payload) : keeps (socket_emit n p).
Proof. unfold socket_emit. keeps_tac. Qed.

Lemma keeps_this_user : keeps this_user.
Proof. unfold this_user. keeps_tac. Qed.

Lemma keeps_field (obj : Js.Val) (key : string) : keeps (field obj key).
Proof. unfold field. keeps_tac. Qed.

Lemma keeps_and_field (obj : Js.Val) (key : string) : keeps (and_field obj key).
Proof. unfold and_field. pose proof (keeps_field obj key). keeps_tac. Qed.

Lemma keeps_deref (st : option User) : keeps (deref st).
Proof. unfold deref. keeps_tac. Qed.

Lemma keeps_log (args : list LogArg) : keeps (log args).
Proof. unfold log. keeps_tac. Qed.

Lemma keeps_to_str (v : Js.Val) : keeps (to_str v).
Proof. unfold to_str. destruct (Js.to_string v); keeps_tac. Qed.

Lemma keeps_parse_int (v : Js.Val) : keeps (parse_int v).
Proof. unfold parse_int. destruct (Js.parseInt v); keeps_tac. Qed.

#[local] Hint Resolve keeps_if_workspace keeps_ws_call keeps_ws_on
  keeps_ws_removeAllListeners keeps_socket_on keeps_back_on keeps_socket_emit
  keeps_this_user keeps_field keeps_and_field keeps_deref keeps_log
  keeps_to_str keeps_parse_int : keeps.

Lemma keeps_sendMessage (m : string) : keeps (sendMessage m).
Proof. unfold sendMessage. keeps_tac. Qed.

Lemma keeps_unlisten : keeps unlisten.
Proof.
  unfold unlisten, socket_removeAllListeners, back_removeAllListeners.
  repeat (apply keeps_bind; [| intro]); try apply keeps_if_workspace; keeps_tac.
Qed.

#[local] Hint Resolve keeps_sendMessage keeps_unlisten : keeps.

Lemma keeps_listen : keeps listen.
Proof.
  unfold listen.
  repeat (apply keeps_bind; [| intro]); try apply keeps_if_workspace; keeps_tac.
Qed.

Lemma keeps_loadInstructor : keeps loadInstructor.
Proof.
  unfold loadInstructor. keeps_tac.
  induction (instructor u) as [| p ps IH]; simpl; keeps_tac.
Qed.

Lemma keeps_loadUserBuckets : keeps loadUserBuckets.
Proof. unfold loadUserBuckets. keeps_tac. Qed.

Lemma keeps_touchUser : keeps touchUser.
Proof. unfold touchUser. keeps_tac. Qed.

Lemma keeps_loadBucket (skipCreate : Js.Val) : keeps (loadBucket skipCreate).
Proof. unfold loadBucket. keeps_tac. Qed.

Lemma keeps_onBucketCreated (obj : Js.Val) : keeps (onBucketCreated obj).
Proof. unfold onBucketCreated. keeps_tac. Qed.

Lemma keeps_next_init_session : keeps next_init_session.
Proof. unfold next_init_session. keeps_tac. Qed.

#[local] Hint Resolve keeps_listen keeps_loadInstructor keeps_loadUserBuckets
  keeps_touchUser keeps_loadBucket keeps_onBucketCreated
  keeps_next_init_session : keeps.

Lemma keeps_init_session (u : option User) (init : Js.Val) : keeps (init_session u init).
Proof. unfold init_session. keeps_tac. Qed.

Lemma keeps_auto_callback (err : option Err) : keeps (auto_callback err).
Proof. unfold auto_callback. keeps_tac. Qed.

#[local] Hint Resolve keeps_init_session keeps_auto_callback : keeps.

Lemma keeps_taskCallback_user (r : Reply (option User)) : keeps (taskCallback_user r).
Proof. unfold taskCallback_user. keeps_tac. Qed.

Lemma keeps_taskCallback_init (data : Js.Val) : keeps (taskCallback_init data).
Proof. unfold taskCallback_init. keeps_tac. Qed.

#[local] Hint Resolve keeps_taskCallback_user keeps_taskCallback_init : keeps.

Lemma keeps_onDataD (obj_data : list Js.Val) : keeps (onDataD obj_data).
Proof.
  unfold onDataD, onEnroll, onUpdateStudents, onUnenrollStudent, onReenrollStudent,
    onPing, onToggleSharing, onOoReconnect, onSetPassword, onDeleteBucket.
  keeps_tac.
Qed.

Lemma keeps_run (op : Op) : keeps (run op).
Proof.
  destruct op; simpl; auto using keeps_onDataD with keeps;
    unfold constructor, session_userId, onDestroyD, onDestroyU, onDataU, onDataW,
      onLogW, loadInstructor_cb, loadUserBuckets_cb, touchUser_cb, loadBucket_cb,
      onSetPassword, onSetPassword_cb, onBucketCreated_cb, onDeleteBucket,
      onDeleteBucket_found, onDeleteBucket_removed, onOoReconnect, setSessCode,
      onDataWtoU, onEnroll, onEnroll_cb, onUpdateStudents, onUnenrollStudent,
      onUnenrollStudent_found, onUnenrollStudent_saved, onReenrollStudent,
      onReenrollStudent_found, onReenrollStudent_saved, onPing, onToggleSharing,
      reload_cb, socket_init, taskComplete;
    keeps_tac.
  apply keeps_if_workspace, keeps_with_workspace. intro. keeps_tac.
Qed.

Lemma run_all_destroyed (ops : list Op) :
  forall s, destroyed (fst (run_all ops s)) = destroyed s.
Proof.
  induction ops as [| op ops IH]; intros s; simpl.
  - reflexivity.
  - specialize (IH (final_state (run op s))).
    destruct (run_all ops (final_state (run op s))) as [s' t]. simpl in *.
    rewrite IH. apply keeps_run.
Qed.

End Invariant.

(* ================================================================== *)
(** * Routing of client messages *)
(* ================================================================== *)

Module Routing.
Import Model SocketHandler Session Spec Sample.

Lemma reserved_prefix_not_reserved (n : string) :
  reserved_prefix n = true -> ~ In n reserved_names.
Proof.
  intros Hp Hin. unfold reserved_names in Hin. simpl in Hin.
  repeat (destruct Hin as [<- | Hin]; [discriminate Hp |]).
  exact Hin.
Qed.

Lemma not_reserved_eqb (n lit : string) :
  ~ In n reserved_names -> In lit reserved_names -> String.eqb n lit = false.
Proof.
  intros Hn Hl. destruct (String.eqb_spec n lit) as [-> | ]; [contradiction | reflexivity].
Qed.

(** Past the [switch] on names: a name that is not reserved reaches the
    prefix test. *)
Lemma onDataD_not_reserved (n : string) (payload : Js.Val) (s : State) :
  ~ In n reserved_names ->
  onDataD [Js.JStr n; payload] s =
  (let data := Js.or payload Js.JNull in
   (if reserved_prefix n then if_workspace (ws_call (WsDataD n data))
    else
      (if String.eqb n "data" then if_workspace (ws_call (WsDataD n data)) else ret tt) ;;
      (if String.eqb n "save" then if_workspace (ws_call (WsDataD n data)) else ret tt) ;;
      effect (BackDataD n data)) s).
Proof.
  intros Hn. unfold onDataD, data_at. cbn [nth].
  rewrite JsFacts.or_name. cbn [Js.is_str].
  repeat (rewrite (not_reserved_eqb n _ Hn) by (simpl; tauto)).
  reflexivity.
Qed.

(** C1 as stated does not hold: the payload [0] of a message named
    ["anything.else"] reaches the backend as [null]. *)
Lemma onDataD_payload_changed :
  ~ (forall (n : string) (payload : Js.Val) (s : State),
        ~ In n reserved_names -> reserved_prefix n = false ->
        In (BackDataD n payload) (trace_of (onDataD [Js.JStr n; payload] s))).
Proof.
  intros H.
  specialize (H "anything.else" (Js.JNum (Js.JInt 0)) fresh).
  assert (Hn : ~ In "anything.else" reserved_names).
  { simpl. intuition discriminate. }
  specialize (H Hn eq_refl).
  vm_compute in H. destruct H as [H | []]. discriminate H.
Qed.

(** C1 (amended): a message whose name starts with ["ot."] or ["ws."] is
    delivered to the workspace's [dataD] when there is a workspace and
    dropped otherwise, and never reaches the backend; a message whose
    name is neither reserved nor so prefixed is forwarded to the
    backend's [dataD], workspace or not, with its name unchanged and its
    payload after [|| null]: unchanged when truthy, [null] when falsy. *)
Theorem onDataD_routing (n : string) (payload : Js.Val) (s : State) :
  (reserved_prefix n = true ->
   onDataD [Js.JStr n; payload] s =
     Done tt s (match workspace s with
                | Some _ => [WsDataD n (Js.or payload Js.JNull)]
                | None => []
                end) /\
   existsb is_BackDataD (trace_of (onDataD [Js.JStr n; payload] s)) = false) /\
  (~ In n reserved_names -> reserved_prefix n = false ->
   exists forked,
     onDataD [Js.JStr n; payload] s =
       Done tt s (forked ++ [BackDataD n (Js.or payload Js.JNull)])%list /\
     existsb is_BackDataD forked = false /\
     (workspace s = None -> forked = [])) /\
  (Js.truthy payload = true -> Js.or payload Js.JNull = payload) /\
  (Js.truthy payload = false -> Js.or payload Js.JNull = Js.JNull).
Proof.
  split; [| split; [| split]].
  - intros Hp.
    rewrite (onDataD_not_reserved n payload s (reserved_prefix_not_reserved n Hp)).
    cbv zeta. rewrite Hp.
    destruct s as [id addr sl bl [w |] u b sc d a]; split; reflexivity.
  - intros Hn Hp.
    rewrite (onDataD_not_reserved n payload s Hn). cbv zeta. rewrite Hp.
    destruct s as [id addr sl bl [w |] u b sc d a].
    + exists ((if String.eqb n "data" then [WsDataD n (Js.or payload Js.JNull)] else [])
              ++ (if String.eqb n "save" then [WsDataD n (Js.or payload Js.JNull)] else []))%list.
      destruct (String.eqb n "data"), (String.eqb n "save");
        (split; [reflexivity | split; [reflexivity | discriminate]]).
    + exists []. destruct (String.eqb n "data"), (String.eqb n "save");
        (split; [reflexivity | split; reflexivity]).
  - apply JsFacts.or_truthy.
  - apply JsFacts.or_falsy.
Qed.

Lemma onDataD_routing_witness :
  (reserved_prefix "ot.insert" = true /\
   onDataD [Js.JStr "ot.insert"; Js.JObj []] with_normal_workspace =
     Done tt with_normal_workspace [WsDataD "ot.insert" (Js.JObj [])]) /\
  (~ In "anything.else" reserved_names /\
   reserved_prefix "anything.else" = false /\
   onDataD [Js.JStr "anything.else"; Js.JStr "x"] fresh =
     Done tt fresh [BackDataD "anything.else" (Js.JStr "x")]).
Proof.
  assert (Hn : ~ In "anything.else" reserved_names) by (simpl; intuition discriminate).
  split; [split; [reflexivity |] | split; [exact Hn | split; [reflexivity |]]].
  - destruct (onDataD_routing "ot.insert" (Js.JObj []) with_normal_workspace)
      as [H _].
    destruct (H eq_refl) as [Heq _]. exact Heq.
  - destruct (onDataD_routing "anything.else" (Js.JStr "x") fresh) as [_ [H _]].
    destruct (H Hn eq_refl) as (forked & Heq & _ & Hnone).
    rewrite (Hnone eq_refl) in Heq. exact Heq.
Defined.

End Routing.

(* ================================================================== *)
(** * Side-effect handlers *)
(* ================================================================== *)

Module Handlers.
Import Model SocketHandler Session Spec Sample.

(** C8 as stated does not hold: a ping whose [startTime] is the string
    ["12px"] is answered with the number [12]. *)
Lemma onPing_startTime_parsed :
  ~ (forall (obj startTime : Js.Val) (s : State),
        Js.truthy obj = true -> Js.get obj "startTime" = Some startTime ->
        onPing obj s = Done tt s [pong startTime]).
Proof.
  intros H.
  specialize (H (Js.JObj [("startTime", Js.JStr "12px")]) (Js.JStr "12px")
                fresh eq_refl eq_refl).
  vm_compute in H. discriminate H.
Qed.

(** C8 (amended): a ping with a truthy payload is handled by
    [parseInt(obj.startTime)]: when the client's [startTime] has a
    string form, one [oo.pong] is emitted whose [startTime] is the
    number parsed from that string, and when it has none (as an object
    with a [toString] entry of its own) the handler throws and emits
    nothing.  The pong carries the client's value itself when that
    value is a safe integer.  When the string form begins with decimal
    digits [ds], not read as a hexadecimal prefix, the pong carries
    the double nearest to the number those digits spell (that number
    itself below 2^53), and its opposite after a minus sign; when the
    string form is empty, or its first character is no white space,
    sign or digit, the pong carries [NaN]. *)
Theorem onPing_pong (obj startTime : Js.Val) (s : State) :
  Js.truthy obj = true -> Js.get obj "startTime" = Some startTime ->
  onPing obj s =
    match Js.to_string startTime with
    | Some text => Done tt s [pong (Js.JNum (Js.parse_int_string text))]
    | None => Throw TypeError s []
    end /\
  (forall z, Js.safe_integer z -> startTime = Js.JNum (Js.JInt z) ->
     onPing obj s = Done tt s [pong startTime]) /\
  (forall ds rest,
     Forall is_digit ds -> ds <> [] -> no_digit_ahead rest = true ->
     Js.strip_hex (Js.string_of_digits ds ++ rest)
     = (10, Js.string_of_digits ds ++ rest) ->
     (Js.to_string startTime = Some (Js.string_of_digits ds ++ rest) ->
      onPing obj s =
        Done tt s [pong (Js.JNum (Js.number_of false (fold_left shift ds 0)))]) /\
     (Js.to_string startTime
      = Some (String "-"%char (Js.string_of_digits ds ++ rest)) ->
      onPing obj s =
        Done tt s [pong (Js.JNum (Js.number_of true (fold_left shift ds 0)))]) /\
     (fold_left shift ds 0 < 2 ^ 53 ->
      Js.number_of false (fold_left shift ds 0) = Js.JInt (fold_left shift ds 0))) /\
  (forall text, Js.to_string startTime = Some text ->
     text = "" \/ (exists c rest, text = String c rest /\ cannot_start_number c = true) ->
     onPing obj s = Done tt s [pong (Js.JNum Js.NaN)]) /\
  (Js.to_string startTime = None -> onPing obj s = Throw TypeError s []) /\
  (forall fields, startTime = Js.JObj fields -> Js.has_toString fields = true ->
     Js.to_string startTime = None).
Proof.
  intros Hobj Hget.
  assert (Hrun : onPing obj s =
                 match Js.to_string startTime with
                 | Some text => Done tt s [pong (Js.JNum (Js.parse_int_string text))]
                 | None => Throw TypeError s []
                 end).
  { unfold onPing, field, parse_int, Js.parseInt. rewrite Hobj, Hget.
    cbn [negb bind ret]. destruct (Js.to_string startTime); reflexivity. }
  split; [exact Hrun |]. split; [| split; [| split; [| split]]].
  - intros z Hz ->. rewrite Hrun. cbn [Js.to_string].
    rewrite (JsFacts.number_to_string_safe z Hz), JsFacts.parse_int_string_int,
      (JsFacts.number_of_safe z Hz). reflexivity.
  - intros ds rest Hall Hne Hrest Hhex.
    destruct (JsFacts.parse_int_string_front ds rest Hall Hne Hrest Hhex) as [Hpos Hneg].
    rewrite JsFacts.math_int_shift in Hpos, Hneg.
    split; [| split].
    + intros Hstr. rewrite Hrun, Hstr, Hpos. reflexivity.
    + intros Hstr. rewrite Hrun, Hstr, Hneg. reflexivity.
    + intros Hlt. apply JsFacts.number_of_small.
      split; [apply JsFacts.fold_shift_nonneg; [exact Hall | lia] | exact Hlt].
  - intros text Hstr Hnone. rewrite Hrun, Hstr.
    destruct Hnone as [-> | (c & rest & -> & Hc)]; [reflexivity |].
    rewrite (JsFacts.parse_int_string_nan c rest Hc). reflexivity.
  - intros Hstr. rewrite Hrun, Hstr. reflexivity.
  - intros fields -> Hown. cbn [Js.to_string]. rewrite Hown. reflexivity.
Qed.

Lemma onPing_pong_witness :
  Js.truthy ping_payload = true /\
  Js.get ping_payload "startTime" = Some (Js.JNum (Js.JInt 1700000000123)) /\
  Js.safe_integer 1700000000123 /\
  onPing ping_payload fresh = Done tt fresh [pong (Js.JNum (Js.JInt 1700000000123))] /\
  onPing (Js.JObj [("startTime", Js.JObj [("toString", Js.JStr "x")])]) fresh =
    Throw TypeError fresh [].
Proof.
  assert (Hsafe : Js.safe_integer 1700000000123) by (unfold Js.safe_integer; simpl; lia).
  split; [reflexivity | split; [reflexivity | split; [exact Hsafe | split]]].
  - destruct (onPing_pong ping_payload (Js.JNum (Js.JInt 1700000000123)) fresh
                          eq_refl eq_refl) as (_ & Hint & _).
    exact (Hint 1700000000123 Hsafe eq_refl).
  - destruct (onPing_pong (Js.JObj [("startTime", Js.JObj [("toString", Js.JStr "x")])])
                          (Js.JObj [("toString", Js.JStr "x")]) fresh eq_refl eq_refl)
      as (_ & _ & _ & _ & Hthrow & _).
    exact (Hthrow eq_refl).
Defined.

(** C6: on a ["sesscode"] event carrying [code], the handler logs it,
    calls [back.setSessCode(code)], emits [sesscode] with
    [{sessCode: code}] to the client, and records [code] on the
    workspace if there is one; nothing else changes. *)
Theorem setSessCode_effects (code : string) (s : State) :
  setSessCode code s =
    Done tt (record_sessCode code s)
      [ConsoleLog [LStr ("[" ++ socket_id s ++ "]"); LStr "SessCode"; LStr code];
       BackSetSessCode (Some code);
       SocketEmit "sesscode" (PJs (Js.JObj [("sessCode", Js.JStr code)]))] /\
  option_map ws_sessCode (workspace (record_sessCode code s)) =
    option_map (fun _ => Some code) (workspace s) /\
  Js.get (Js.JObj [("sessCode", Js.JStr code)]) "sessCode" = Some (Js.JStr code).
Proof.
  destruct s as [id addr sl bl [w |] us bk sc dd au]; repeat split; reflexivity.
Qed.

(** C3: when [destroyed] is set, [init_session] returns at once: the
    state is unchanged (no user attached, no workspace created) and no
    call is made on any collaborator; and the [taskComplete] that would
    start it, with both results present, makes no call and leaves the
    user, the workspace and the registries as they were. *)
Theorem init_session_destroyed (u : option User) (init : Js.Val) (s : State) :
  destroyed s = true ->
  init_session u init s = Done tt s [] /\
  (results_user (auto s) = Some u -> results_init (auto s) = Some init ->
   let o := taskComplete s in
   threw o = false /\ trace_of o = [] /\
   user (final_state o) = user s /\
   workspace (final_state o) = workspace s /\
   registries (final_state o) = registries s).
Proof.
  intros Hd. split.
  - unfold init_session, bind, get. rewrite Hd. reflexivity.
  - intros Hu Hi.
    destruct s as [id addr sl bl ws us bk sc dd [ru ri ris rem he wait]].
    simpl in *. subst.
    destruct wait, rem as [| [| rem]]; cbv; repeat split; reflexivity.
Qed.

Lemma init_session_destroyed_witness :
  destroyed destroyed_session = true /\
  init_session None init_default destroyed_session = Done tt destroyed_session [] /\
  trace_of (taskComplete destroyed_session) = [].
Proof.
  destruct (init_session_destroyed None init_default destroyed_session eq_refl)
    as [Heq Htask].
  destruct (Htask eq_refl eq_refl) as (_ & Htrace & _).
  split; [reflexivity | split; [exact Heq | exact Htrace]].
Defined.

End Handlers.

Module Authorization.
Import Model SocketHandler Session Spec Sample.

(** Run a handler as far as the tests on its inputs allow. *)
Ltac run_handler := cbn -[Js.indexOf Js.to_string id_equals String.append].

Lemma id_equals_spec (a b : string) : id_equals a b = true <-> a = b.
Proof. unfold id_equals. apply String.eqb_eq. Qed.

(** C5: a delete request that names a bucket ([bucket_id] truthy), on
    a session with a user, is logged and looks the bucket up by that id,
    handing the lookup the callback of this very request; a request with
    a falsy payload or a falsy [bucket_id] does nothing.  When the
    bucket found belongs to another user than the one of the session,
    the callback answers with the log line and the message
    ["You are not the owner of that bucket"], the state is unchanged
    and [remove] is not called; [remove] is called exactly when a
    bucket was found whose [user_id] equals the user's [_id]; the
    request itself, before the lookup, never calls it. *)
Theorem onDeleteBucket_ownership (obj : Js.Val) (r : Reply (option Bucket))
        (u : User) (s : State) :
  user s = Some u ->
  (forall id,
     Js.truthy obj = true -> Js.get obj "bucket_id" = Some id -> Js.truthy id = true ->
     onDeleteBucket obj s =
       Done tt s [logged s [LStr "Deleting bucket:"; LVal id];
                  BucketFindOne id (cb_onDeleteBucket_found obj)] /\
     onDataD [Js.JStr "oo.delete_bucket"; obj] s = onDeleteBucket obj s) /\
  (Js.truthy obj = false -> onDeleteBucket obj s = Done tt s []) /\
  (forall id,
     Js.truthy obj = true -> Js.get obj "bucket_id" = Some id -> Js.truthy id = false ->
     onDeleteBucket obj s = Done tt s []) /\
  (forall b, r = Ok (Some b) -> _id u <> user_id b ->
     onDeleteBucket_found obj r s =
       Done tt s
         (logged s [LStr "ERROR: Bad owner:"; LStr (user_id b); LStr (consoleText u)]
          :: message "You are not the owner of that bucket")) /\
  (forall b, r = Ok (Some b) -> _id u = user_id b ->
     onDeleteBucket_found obj r s =
       Done tt s [BucketRemove b (cb_onDeleteBucket_removed obj)]) /\
  (existsb is_BucketRemove (trace_of (onDeleteBucket_found obj r s)) = true <->
   exists b, r = Ok (Some b) /\ _id u = user_id b) /\
  final_state (onDeleteBucket_found obj r s) = s /\
  existsb is_BucketRemove (trace_of (onDeleteBucket obj s)) = false /\
  final_state (onDeleteBucket obj s) = s.
Proof.
  intros Hu.
  destruct s as [id addr sl bl ws us bk sc dd au]; simpl in Hu; subst us.
  split; [| split; [| split; [| split; [| split; [| split; [| split; [| split]]]]]]].
  - intros x Hobj Hx Hid. split.
    + unfold onDeleteBucket, field. rewrite Hobj, Hx. cbn. rewrite Hid. reflexivity.
    + unfold onDataD, data_at. cbn [nth]. rewrite JsFacts.or_name.
      rewrite (JsFacts.or_truthy obj _ Hobj). reflexivity.
  - intros Hobj. unfold onDeleteBucket. rewrite Hobj. reflexivity.
  - intros x Hobj Hx Hid.
    unfold onDeleteBucket, field. rewrite Hobj, Hx. cbn. rewrite Hid. reflexivity.
  - intros b -> Hne.
    assert (E : id_equals (_id u) (user_id b) = false).
    { destruct (id_equals (_id u) (user_id b)) eqn:E; [| reflexivity].
      apply id_equals_spec in E. contradiction. }
    unfold onDeleteBucket_found. cbn -[id_equals]. rewrite E. reflexivity.
  - intros b -> Heq.
    apply id_equals_spec in Heq.
    unfold onDeleteBucket_found. cbn -[id_equals]. rewrite Heq. reflexivity.
  - destruct r as [err | [b |]].
    + split; [discriminate | intros (b & Hb & _); discriminate].
    + unfold onDeleteBucket_found. cbn -[id_equals].
      destruct (id_equals (_id u) (user_id b)) eqn:E.
      * apply id_equals_spec in E. split; [intros _; eauto | reflexivity].
      * split; [discriminate |].
        intros (b' & Hb & Heq). apply id_equals_spec in Heq. congruence.
    + split; [discriminate | intros (b & Hb & _); discriminate].
  - destruct r as [err | [b |]]; try reflexivity.
    unfold onDeleteBucket_found. cbn -[id_equals].
    destruct (id_equals (_id u) (user_id b)); reflexivity.
  - unfold onDeleteBucket, field.
    destruct (Js.truthy obj) eqn:Hobj; [| reflexivity].
    destruct (JsFacts.get_truthy obj "bucket_id" Hobj) as [x ->].
    cbn. destruct (Js.truthy x); reflexivity.
  - unfold onDeleteBucket, field.
    destruct (Js.truthy obj) eqn:Hobj; [| reflexivity].
    destruct (JsFacts.get_truthy obj "bucket_id" Hobj) as [x ->].
    cbn. destruct (Js.truthy x); reflexivity.
Qed.



(** C9: on a session without a user, [oo.reenroll_student] with a
    [userId] and a [program] throws when it reads the instructor list;
    [oo.unenroll_student] with a [userId] starts the lookup and throws
    in its callback whenever the lookup does not fail; the handlers of
    enroll, set-password, toggle-sharing and delete-bucket return
    without doing anything. *)
Theorem student_requests_without_user (s : State) :
  user s = None ->
  (forall obj userId to,
     Js.truthy obj = true ->
     Js.get obj "userId" = Some userId -> Js.truthy userId = true ->
     Js.get obj "program" = Some to -> Js.truthy to = true ->
     onDataD [Js.JStr "oo.reenroll_student"; obj] s = Throw TypeError s []) /\
  (forall obj userId,
     Js.truthy obj = true ->
     Js.get obj "userId" = Some userId -> Js.truthy userId = true ->
     onDataD [Js.JStr "oo.unenroll_student"; obj] s =
       Done tt s [UserFindById userId cb_onUnenrollStudent_found] /\
     forall found, onUnenrollStudent_found (Ok found) s = Throw TypeError s []) /\
  (forall obj,
     onEnroll obj s = Done tt s [] /\
     onSetPassword obj s = Done tt s [] /\
     onToggleSharing obj s = Done tt s [] /\
     onDeleteBucket obj s = Done tt s []).
Proof.
  intros Hu.
  destruct s as [id addr sl bl ws us bk sc dd au]; simpl in Hu; subst us.
  split; [| split].
  - intros obj userId to Hobj Hid Hidt Hto Htot.
    unfold onDataD, data_at. cbn [nth]. rewrite JsFacts.or_name.
    rewrite (JsFacts.or_truthy obj _ Hobj). cbn [Js.is_str String.eqb Ascii.eqb Bool.eqb].
    unfold onReenrollStudent, field.
    rewrite Hobj, Hid, Hto. run_handler. rewrite Hidt. run_handler. rewrite Htot.
    reflexivity.
  - intros obj userId Hobj Hid Hidt. split.
    + unfold onDataD, data_at. cbn [nth]. rewrite JsFacts.or_name.
      rewrite (JsFacts.or_truthy obj _ Hobj). cbn [Js.is_str String.eqb Ascii.eqb Bool.eqb].
      unfold onUnenrollStudent, field.
      rewrite Hobj, Hid. run_handler. rewrite Hidt. reflexivity.
    + intros found. reflexivity.
  - intros obj. repeat split; try reflexivity.
    + unfold onSetPassword. destruct (Js.truthy obj); reflexivity.
    + unfold onDeleteBucket, field.
      destruct (Js.truthy obj) eqn:Hobj; [| reflexivity].
      destruct (JsFacts.get_truthy obj "bucket_id" Hobj) as [x ->].
      cbn. destruct (Js.truthy x); reflexivity.
Qed.

Lemma onDeleteBucket_ownership_witness :
  user as_instructor = Some instructor_u1 /\
  _id instructor_u1 <> user_id bucket_of_u2 /\
  onDeleteBucket (Js.JObj [("bucket_id", Js.JStr "bucket-42")]) as_instructor =
    Done tt as_instructor
         [logged as_instructor [LStr "Deleting bucket:"; LVal (Js.JStr "bucket-42")];
          BucketFindOne (Js.JStr "bucket-42")
            (cb_onDeleteBucket_found (Js.JObj [("bucket_id", Js.JStr "bucket-42")]))] /\
  existsb is_BucketRemove
    (trace_of (onDeleteBucket_found (Js.JObj [("bucket_id", Js.JStr "bucket-42")])
                                    (Ok (Some bucket_of_u2)) as_instructor)) = false /\
  onDeleteBucket_found (Js.JObj [("bucket_id", Js.JStr "bucket-7")])
                       (Ok (Some bucket_of_u1)) as_instructor =
    Done tt as_instructor
         [BucketRemove bucket_of_u1
            (cb_onDeleteBucket_removed (Js.JObj [("bucket_id", Js.JStr "bucket-7")]))].
Proof.
  assert (Hne : _id instructor_u1 <> user_id bucket_of_u2) by discriminate.
  split; [reflexivity | split; [exact Hne | split; [| split]]].
  - destruct (onDeleteBucket_ownership (Js.JObj [("bucket_id", Js.JStr "bucket-42")])
                (Ok (Some bucket_of_u2)) instructor_u1 as_instructor eq_refl)
      as (Hreq & _).
    destruct (Hreq (Js.JStr "bucket-42") eq_refl eq_refl eq_refl) as [Heq _].
    exact Heq.
  - destruct (onDeleteBucket_ownership (Js.JObj [("bucket_id", Js.JStr "bucket-42")])
                (Ok (Some bucket_of_u2)) instructor_u1 as_instructor eq_refl)
      as (_ & _ & _ & Hbad & _).
    rewrite (Hbad bucket_of_u2 eq_refl Hne). reflexivity.
  - destruct (onDeleteBucket_ownership (Js.JObj [("bucket_id", Js.JStr "bucket-7")])
                (Ok (Some bucket_of_u1)) instructor_u1 as_instructor eq_refl)
      as (_ & _ & _ & _ & Hown & _).
    exact (Hown bucket_of_u1 eq_refl eq_refl).
Defined.


Lemma student_requests_without_user_witness :
  user fresh = None /\
  onDataD [Js.JStr "oo.reenroll_student"; reenroll_payload] fresh = Throw TypeError fresh [] /\
  onDataD [Js.JStr "oo.unenroll_student"; unenroll_payload] fresh =
    Done tt fresh [UserFindById (Js.JStr "u2") cb_onUnenrollStudent_found] /\
  onUnenrollStudent_found (Ok (Some student_u2)) fresh = Throw TypeError fresh [] /\
  onEnroll (Js.JObj [("program", Js.JStr "math101")]) fresh = Done tt fresh [].
Proof.
  destruct (student_requests_without_user fresh eq_refl) as (Hre & Hun & Hpre).
  destruct (Hun unenroll_payload (Js.JStr "u2") eq_refl eq_refl eq_refl) as [Hreq Hcb].
  destruct (Hpre (Js.JObj [("program", Js.JStr "math101")])) as (Henroll & _).
  split; [reflexivity | split; [| split; [exact Hreq | split; [apply Hcb | exact Henroll]]]].
  exact (Hre reenroll_payload (Js.JStr "u2") (Js.JStr "chem3")
             eq_refl eq_refl eq_refl eq_refl eq_refl).
Defined.

End Authorization.

(* ================================================================== *)
(** * Listener lifecycle *)
(* ================================================================== *)

Module Lifecycle.
Import Model SocketHandler Session Spec Sample.

Lemma unlisten_eq (s : State) :
  unlisten s =
    Done tt (unbound s) (BackUnsubscribe :: if_some (workspace s) [WsUnsubscribe]).
Proof. destruct s as [id addr sl bl [w |] us bk sc dd au]; reflexivity. Qed.

Lemma listen_eq (s : State) :
  listen s =
    Done tt (bound s)
      ((BackUnsubscribe :: if_some (workspace s) [WsUnsubscribe])
       ++ if_some (workspace s) [WsSubscribe] ++ [BackSubscribe])%list.
Proof. destruct s as [id addr sl bl [w |] us bk sc dd au]; reflexivity. Qed.

Lemma bound_bound (s : State) : bound (bound s) = bound s.
Proof. destruct s as [id addr sl bl [w |] us bk sc dd au]; reflexivity. Qed.

Lemma bound_unbound (s : State) : bound (unbound s) = bound s.
Proof. destruct s as [id addr sl bl [w |] us bk sc dd au]; reflexivity. Qed.

Lemma registries_bound (s : State) :
  registries (bound s) =
    (socket_bound, back_bound, option_map (fun _ => ws_bound) (workspace s)).
Proof. destruct s as [id addr sl bl [w |] us bk sc dd au]; reflexivity. Qed.

(** Rebinding a bound session any number of times leaves it bound. *)
Lemma rebind_bound (n : nat) :
  forall s, exists t, rebind n (bound s) = Done tt (bound s) t.
Proof.
  induction n as [| n IH]; intros s; simpl.
  - exists []. reflexivity.
  - unfold bind. rewrite listen_eq, bound_bound.
    destruct (IH s) as [t ->]. eexists. reflexivity.
Qed.

Lemma NoDup_bound : NoDup socket_bound /\ NoDup back_bound /\ NoDup ws_bound.
Proof.
  unfold socket_bound, back_bound, ws_bound.
  repeat split;
    repeat (constructor; [simpl; intuition discriminate |]); constructor.
Qed.

(** C2: [listen] first unbinds (after [unlisten] nothing is registered
    on the socket, the backend or the workspace, the backend is
    unsubscribed, and so is the workspace when there is one), then
    attaches and subscribes; after any number of calls in a row the
    registries are those of one call on a session with nothing bound,
    namely the listener set of [listen], each listener once. *)
Theorem listen_rebind (s : State) (n : nat) :
  registries (final_state (unlisten s)) =
    ([], [], option_map (fun _ => []) (workspace s)) /\
  trace_of (unlisten s) = BackUnsubscribe :: if_some (workspace s) [WsUnsubscribe] /\
  trace_of (listen s) =
    (trace_of (unlisten s) ++ if_some (workspace s) [WsSubscribe] ++ [BackSubscribe])%list /\
  final_state (listen s) = final_state (listen (final_state (unlisten s))) /\
  threw (rebind (S n) s) = false /\
  registries (final_state (rebind (S n) s)) =
    registries (final_state (listen (unbound s))) /\
  registries (final_state (rebind (S n) s)) =
    (socket_bound, back_bound, option_map (fun _ => ws_bound) (workspace s)) /\
  NoDup socket_bound /\ NoDup back_bound /\ NoDup ws_bound.
Proof.
  assert (Hre : exists t, rebind (S n) s = Done tt (bound s) t).
  { simpl. unfold bind. rewrite listen_eq.
    destruct (rebind_bound n s) as [t ->]. eexists. reflexivity. }
  destruct Hre as [t Hre].
  rewrite !unlisten_eq, !listen_eq, Hre. cbn [final_state trace_of threw].
  rewrite bound_unbound, registries_bound.
  repeat split; try apply NoDup_bound.
  destruct s as [id addr sl bl [w |] us bk sc dd au]; reflexivity.
Qed.

End Lifecycle.

(* ================================================================== *)
(** * The startup join *)
(* ================================================================== *)

Module Join.
Import Model SocketHandler Session Spec Sample.

Lemma stalled_refl (s : State) : results_user (auto s) = None -> stalled s s.
Proof. unfold stalled. intuition. Qed.

(** One operation of a join without user result: the session stays
    stalled, only the log and [setImmediate] are called, and a failure
    is logged. *)
Lemma stalled_step (s0 s : State) (op : Op) :
  stalled s0 s -> join_op_without_user op = true ->
  stalled s0 (final_state (run op s)) /\
  existsb calls_collaborator (trace_of (run op s)) = false /\
  forall err, op = op_taskCallback_user (Failed err) ->
              In (logged s0 [LStr "ASYNC ERROR"; LStr err]) (trace_of (run op s)).
Proof.
  intros (Hid & Hd & Hu & Hw & Hr & Hwait) Hop.
  destruct s as [id addr sl bl ws us bk sc dd [ru ri ris rem he wait]].
  unfold stalled, logged. simpl in *.
  rewrite <- Hid, <- Hd, <- Hu, <- Hw, <- Hwait. subst ru.
  clear Hid Hd Hu Hw Hwait s0.
  destruct op; try discriminate Hop; simpl.
  - destruct r as [err | u]; [| discriminate Hop].
    repeat split; try reflexivity.
    intros err' [= ->]. left. reflexivity.
  - unfold socket_init, bind, get. cbn.
    destruct (existsb is_init_once sl); cbn; repeat split; congruence.
  - destruct wait, rem as [| [| rem]]; cbn; repeat split; congruence.
Qed.

Lemma stalled_run (ops : list Op) :
  forall s0 s,
    stalled s0 s -> forallb join_op_without_user ops = true ->
    stalled s0 (fst (run_all ops s)) /\
    existsb calls_collaborator (snd (run_all ops s)) = false /\
    forall err, In (op_taskCallback_user (Failed err)) ops ->
                In (logged s0 [LStr "ASYNC ERROR"; LStr err]) (snd (run_all ops s)).
Proof.
  induction ops as [| op ops IH]; intros s0 s Hst Hall; simpl in *.
  - split; [exact Hst | split; [reflexivity | intros err []]].
  - apply andb_true_iff in Hall. destruct Hall as [Hop Hall].
    destruct (stalled_step s0 s op Hst Hop) as (Hst' & Hquiet & Hlog).
    destruct (IH s0 (final_state (run op s)) Hst' Hall) as (Hst'' & Hquiet' & Hlog').
    destruct (run_all ops (final_state (run op s))) as [s' t]. simpl in *.
    split; [assumption | split].
    + rewrite existsb_app, Hquiet, Hquiet'. reflexivity.
    + intros err [-> | Hin]; apply in_or_app.
      * left. apply Hlog. reflexivity.
      * right. apply Hlog'. assumption.
Qed.

(** The constructor of a session with a user id starts the lookup and
    leaves the join waiting for both branches. *)
Lemma constructor_lookup (sess uid : Js.Val) (id addr : string) :
  (forall s, session_userId sess s = Done uid s []) -> Js.truthy uid = true ->
  constructor sess (new_state id addr) =
    Done tt
      (set_socket_listeners (socket_bound ++ [("init", H_init_once)])%list
         (set_back_listeners back_bound (new_state id addr)))
      [logged (new_state id addr) [LStr "New Connection"; LStr addr];
       SocketEmit "init" PNothing; BackNew; BackUnsubscribe; BackSubscribe;
       UserFindById uid cb_auto_user].
Proof.
  intros Hsess Huid. unfold constructor.
  unfold bind at 1. cbn [get].
  unfold bind at 1. cbn [log get bind effect app].
  unfold bind at 1. cbn [socket_emit effect].
  unfold bind at 1. cbn [effect].
  unfold bind at 1. rewrite Lifecycle.listen_eq.
  unfold bind at 1. rewrite Hsess.
  rewrite Huid. reflexivity.
Qed.

(** C4 as stated does not hold: after a failed lookup the client's
    [init] and the deferred [taskComplete] start no [init_session]; no
    workspace is constructed and the listener of [init_session] is still
    waiting, where the same [init] on a session without a user id gets a
    normal workspace. *)
Lemma lookup_failure_stalls_join :
  let failed := run_all failed_join (final_state (constructor session_of_u1 fresh)) in
  let anonymous := run_all anonymous_join (final_state (constructor Js.JNull fresh)) in
  workspace (fst failed) = None /\
  existsb is_WsNew (snd failed) = false /\
  init_session_waiting (auto (fst failed)) = true /\
  option_map ctor (workspace (fst anonymous)) =
    Some (NormalWorkspace Js.JUndefined None Js.JNull) /\
  existsb is_WsNew (snd anonymous) = true.
Proof. cbv zeta. repeat split; reflexivity. Qed.

(** C4 (amended): when the profile lookup of the startup join fails,
    the error is logged as ["ASYNC ERROR"] and the session is not
    destroyed, but the join continuation does not run, whatever the
    order of the failure, the client's [init] and the deferred
    [taskComplete] calls: no user is attached, no workspace is created,
    the listener of [init_session] stays waiting, and nothing but the
    log is called. *)
Theorem user_lookup_failure (sess uid : Js.Val) (id addr : string) (err : Err)
        (ops : list Op) :
  (forall s, session_userId sess s = Done uid s []) -> Js.truthy uid = true ->
  forallb join_op_without_user ops = true ->
  In (op_taskCallback_user (Failed err)) ops ->
  let started := constructor sess (new_state id addr) in
  let final := run_all ops (final_state started) in
  In (UserFindById uid cb_auto_user) (trace_of started) /\
  In (ConsoleLog [LStr ("[" ++ id ++ "]"); LStr "ASYNC ERROR"; LStr err]) (snd final) /\
  destroyed (fst final) = false /\
  user (fst final) = None /\
  workspace (fst final) = None /\
  results_user (auto (fst final)) = None /\
  init_session_waiting (auto (fst final)) = true /\
  existsb calls_collaborator (snd final) = false.
Proof.
  intros Hsess Huid Hops Hin. cbv zeta.
  rewrite (constructor_lookup sess uid id addr Hsess Huid).
  cbn [final_state trace_of].
  match goal with |- context [run_all ops ?s] => set (s1 := s) end.
  destruct (stalled_run ops s1 s1 (stalled_refl s1 eq_refl) Hops)
    as ((Hid & Hd & Hu & Hw & Hr & Hwait) & Hquiet & Hlog).
  split; [simpl; tauto |].
  split; [exact (Hlog err Hin) |].
  rewrite Hd, Hu, Hw, Hr, Hwait, Hquiet. repeat split; reflexivity.
Qed.

Lemma user_lookup_failure_witness :
  let final := run_all failed_join (final_state (constructor session_of_u1 fresh)) in
  In (ConsoleLog [LStr "[id]"; LStr "ASYNC ERROR"; LStr "db down"]) (snd final) /\
  destroyed (fst final) = false /\
  workspace (fst final) = None.
Proof.
  cbv zeta.
  assert (Hsess : forall s, session_userId session_of_u1 s = Done (Js.JStr "u1") s [])
    by (intros s; reflexivity).
  assert (Hin : In (op_taskCallback_user (Failed "db down")) failed_join)
    by (left; reflexivity).
  destruct (user_lookup_failure session_of_u1 (Js.JStr "u1") "id" "addr" "db down"
              failed_join Hsess eq_refl eq_refl Hin)
    as (_ & Hlog & Hd & _ & Hw & _).
  split; [exact Hlog | split; [exact Hd | exact Hw]].
Defined.

End Join.

(* ================================================================== *)
(** * The teardown flag *)
(* ================================================================== *)

Module Teardown.
Import Model SocketHandler Session Spec.

(** C10: a new handler has [destroyed = false], and no operation of the
    unit (constructor, method, listener or callback, the teardown
    handlers [onDestroyD] and [onDestroyU] among them) changes the flag,
    whether it returns or throws; so every state a session reaches
    through these operations has [destroyed = false], and the guard of
    [init_session] can only see a flag written from outside. *)
Theorem destroyed_never_written :
  (forall id addr, destroyed (new_state id addr) = false) /\
  (forall op s, destroyed (final_state (run op s)) = destroyed s) /\
  (forall s, destroyed (final_state (onDestroyD s)) = destroyed s) /\
  (forall message s, destroyed (final_state (onDestroyU message s)) = destroyed s) /\
  (forall ops id addr, destroyed (fst (run_all ops (new_state id addr))) = false).
Proof.
  split; [reflexivity | split; [| split; [| split]]].
  - intros op s. apply Invariant.keeps_run.
  - intros s. apply (Invariant.keeps_run op_onDestroyD).
  - intros message s. apply (Invariant.keeps_run (op_onDestroyU message)).
  - intros ops id addr. rewrite Invariant.run_all_destroyed. reflexivity.
Qed.

End Teardown.

(* ================================================================== *)
(** * Running the methods *)
(* ================================================================== *)

Module Run.
Import Model SocketHandler Session Spec Notions.

Lemma after_nil {A} (o : Outcome A) : after [] o = o.
Proof. destruct o; reflexivity. Qed.

Lemma bind_run {A B} (m : M A) (f : A -> M B) (s s1 : State) (a : A) (t1 : Trace) :
  m s = Done a s1 t1 -> bind m f s = after t1 (f a s1).
Proof. intros H. unfold bind. rewrite H. reflexivity. Qed.

Lemma bind_pure {A B} (m : M A) (f : A -> M B) (s : State) (a : A) :
  m s = Done a s [] -> bind m f s = f a s.
Proof. intros H. rewrite (bind_run m f s s a [] H). apply after_nil. Qed.

Lemma field_eq (obj : Js.Val) (key : string) (s : State) :
  Js.truthy obj = true -> field obj key s = Done (and_val obj key) s [].
Proof.
  intros H. unfold field, and_val. rewrite H.
  destruct (JsFacts.get_truthy obj key H) as [x ->]. reflexivity.
Qed.

Lemma and_field_eq (obj : Js.Val) (key : string) (s : State) :
  and_field obj key s = Done (and_val obj key) s [].
Proof.
  unfold and_field. destruct (Js.truthy obj) eqn:H.
  - apply field_eq, H.
  - unfold and_val. rewrite H. reflexivity.
Qed.

Lemma session_userId_eq (sess : Js.Val) (s : State) :
  session_userId sess s = Done (userId_of sess) s [].
Proof.
  unfold session_userId. rewrite (bind_pure _ _ s _ (and_field_eq sess "passport" s)).
  apply and_field_eq.
Qed.

(** [programs.forEach]: one query for each program, in order. *)
Lemma forEach_program (programs : list string) (s : State) :
  fold_right
    (fun program rest => effect (UserFind program (cb_loadInstructor program)) ;; rest)
    (ret tt) programs s
  = Done tt s (map (fun program => UserFind program (cb_loadInstructor program)) programs).
Proof.
  induction programs as [| p ps IH]; simpl.
  - reflexivity.
  - unfold bind at 1. simpl. rewrite IH. reflexivity.
Qed.

Lemma loadInstructor_eq (s : State) :
  loadInstructor s =
    Done tt s (match user s with Some u => instructor_queries u | None => [] end).
Proof.
  unfold loadInstructor. rewrite (bind_pure get _ s s eq_refl).
  destruct (user s) as [u |]; [| reflexivity].
  unfold instructor_queries.
  destruct (instructor u) as [| p ps] eqn:E; [reflexivity |].
  change ((length (p :: ps) =? 0)%nat) with false. cbv iota.
  apply forEach_program.
Qed.

(** The three loaders of [init_session] make the store calls they are
    named after, for a session with a user, and none without. *)
Lemma loaders_eq {B} (k : M B) (s : State) :
  (loadInstructor ;; loadUserBuckets ;; touchUser ;; k) s = after (loaders (user s)) (k s).
Proof.
  rewrite (bind_run _ _ s s tt _ (loadInstructor_eq s)).
  destruct s as [id addr sl bl ws [u |] bk sc dd au]; simpl user; unfold loaders.
  - unfold loadUserBuckets, touchUser, bind, get, effect. simpl.
    destruct (k _); simpl; rewrite <- !app_assoc; reflexivity.
  - unfold loadUserBuckets, touchUser, bind, get, ret. simpl.
    destruct (k _); reflexivity.
Qed.

(** ** Calls a computation makes *)

Lemma emits_ret {A} P (a : A) : emits_only P (ret a).
Proof. intros s. reflexivity. Qed.

Lemma emits_throw {A} P (e : string) : emits_only P (@throw A e).
Proof. intros s. reflexivity. Qed.

Lemma emits_get P : emits_only P get.
Proof. intros s. reflexivity. Qed.

Lemma emits_modify P (f : State -> State) : emits_only P (modify f).
Proof. intros s. reflexivity. Qed.

Lemma emits_effect (P : Effect -> bool) (e : Effect) : P e = true -> emits_only P (effect e).
Proof. intros H s. simpl. rewrite H. reflexivity. Qed.

Lemma emits_bind {A B} P (m : M A) (f : A -> M B) :
  emits_only P m -> (forall a, emits_only P (f a)) -> emits_only P (bind m f).
Proof.
  intros Hm Hf s. unfold bind.
  specialize (Hm s). destruct (m s) as [a s1 t1 | e s1 t1]; simpl in *.
  - specialize (Hf a s1). destruct (f a s1); simpl in *;
      rewrite forallb_app, Hm, Hf; reflexivity.
  - assumption.
Qed.

Lemma none_emitted (P : Effect -> bool) (t : Trace) :
  forallb (fun e => negb (P e)) t = true -> existsb P t = false.
Proof.
  induction t as [| x t IH]; simpl; [reflexivity |].
  intros H. apply andb_true_iff in H. destruct H as [Hx Ht].
  rewrite (IH Ht). destruct (P x); [discriminate Hx | reflexivity].
Qed.

Lemma trace_of_after {A} (t : Trace) (o : Outcome A) :
  trace_of (after t o) = (t ++ trace_of o)%list.
Proof. destruct o; reflexivity. Qed.

Create HintDb emits.

#[export] Hint Resolve emits_ret emits_throw emits_get emits_modify : emits.

Ltac emits_step :=
  match goal with
  | |- emits_only _ (bind _ _) => apply emits_bind; [| intro]
  | |- emits_only _ (effect _) => apply emits_effect; reflexivity
  | |- emits_only _ (socket_emit _ _) => apply emits_effect; reflexivity
  | |- emits_only _ (if ?b then _ else _) => destruct b
  | |- emits_only _ (match ?x with _ => _ end) => destruct x
  | |- emits_only _ _ => solve [auto with emits]
  end.

Ltac emits_tac := repeat emits_step.

Lemma emits_if_workspace P (m : M unit) : emits_only P m -> emits_only P (if_workspace m).
Proof. intros H. unfold if_workspace. emits_tac. Qed.

Lemma emits_ws_call (P : Effect -> bool) (e : Effect) : P e = true -> emits_only P (ws_call e).
Proof.
  intros H. unfold ws_call, with_workspace.
  apply emits_bind; [auto with emits | intros s0].
  destruct (workspace s0); [apply emits_effect, H | auto with emits].
Qed.

Lemma emits_log (P : Effect -> bool) (args : list LogArg) :
  (forall l, P (ConsoleLog l) = true) -> emits_only P (log args).
Proof. intros H s. simpl. rewrite H. reflexivity. Qed.

Lemma emits_field P (obj : Js.Val) (key : string) : emits_only P (field obj key).
Proof. unfold field. emits_tac. Qed.

Lemma emits_this_user P : emits_only P this_user.
Proof. unfold this_user. emits_tac. Qed.

Lemma emits_deref P (st : option User) : emits_only P (deref st).
Proof. unfold deref. emits_tac. Qed.

Lemma emits_to_str P (v : Js.Val) : emits_only P (to_str v).
Proof. unfold to_str. destruct (Js.to_string v); emits_tac. Qed.

Lemma emits_parse_int P (v : Js.Val) : emits_only P (parse_int v).
Proof. unfold parse_int. destruct (Js.parseInt v); emits_tac. Qed.

Lemma emits_sendMessage (P : Effect -> bool) (m : string) :
  (forall n d, P (SocketEmit n d) = true) -> emits_only P (sendMessage m).
Proof. intros H s. simpl. rewrite !H. reflexivity. Qed.

#[export] Hint Resolve emits_if_workspace emits_field emits_this_user emits_deref
  emits_to_str emits_parse_int : emits.

(** The same with the log, the messages and the calls on the workspace. *)
Ltac emits_call :=
  match goal with
  | |- emits_only _ (log _) => apply emits_log; intro; reflexivity
  | |- emits_only _ (sendMessage _) => apply emits_sendMessage; intros; reflexivity
  | |- emits_only _ (ws_call _) => apply emits_ws_call; reflexivity
  | |- emits_only _ (if_workspace _) => apply emits_if_workspace
  | |- _ => emits_step
  | |- emits_only _ _ => progress cbv zeta
  end.

Ltac emits_calls := repeat emits_call.

(** ** Observations a computation preserves *)

Lemma preserves_ret {A X} (f : State -> X) (a : A) : preserves f (ret a).
Proof. intros s. reflexivity. Qed.

Lemma preserves_throw {A X} (f : State -> X) (e : string) : preserves f (@throw A e).
Proof. intros s. reflexivity. Qed.

Lemma preserves_get {X} (f : State -> X) : preserves f get.
Proof. intros s. reflexivity. Qed.

Lemma preserves_effect {X} (f : State -> X) (e : Effect) : preserves f (effect e).
Proof. intros s. reflexivity. Qed.

Lemma preserves_modify {X} (f : State -> X) (g : State -> State) :
  (forall s, f (g s) = f s) -> preserves f (modify g).
Proof. intros H s. apply H. Qed.

Lemma preserves_bind {A B X} (f : State -> X) (m : M A) (k : A -> M B) :
  preserves f m -> (forall a, preserves f (k a)) -> preserves f (bind m k).
Proof.
  intros Hm Hk s. unfold bind.
  specialize (Hm s). destruct (m s) as [a s1 t1 | e s1 t1]; simpl in *.
  - specialize (Hk a s1). destruct (k a s1); simpl in *; congruence.
  - assumption.
Qed.

Create HintDb preserves.

#[export] Hint Resolve preserves_ret preserves_throw preserves_get preserves_effect : preserves.

Ltac preserves_step :=
  match goal with
  | |- preserves _ (bind _ _) => apply preserves_bind; [| intro]
  | |- preserves _ (modify _) => apply preserves_modify; intro; reflexivity
  | |- preserves _ (if ?b then _ else _) => destruct b
  | |- preserves _ (match ?x with _ => _ end) => destruct x
  | |- preserves _ _ => solve [auto with preserves]
  end.

Ltac preserves_tac := repeat preserves_step.

Lemma preserves_if_workspace {X} (f : State -> X) (m : M unit) :
  preserves f m -> preserves f (if_workspace m).
Proof. intros H. unfold if_workspace. preserves_tac. Qed.

Lemma preserves_ws_call {X} (f : State -> X) (e : Effect) : preserves f (ws_call e).
Proof. unfold ws_call, with_workspace. preserves_tac. Qed.

Lemma preserves_log {X} (f : State -> X) (args : list LogArg) : preserves f (log args).
Proof. unfold log. preserves_tac. Qed.

Lemma preserves_socket_emit {X} (f : State -> X) n d : preserves f (socket_emit n d).
Proof. unfold socket_emit. preserves_tac. Qed.

Lemma preserves_field {X} (f : State -> X) obj key : preserves f (field obj key).
Proof. unfold field. preserves_tac. Qed.

Lemma preserves_and_field {X} (f : State -> X) obj key : preserves f (and_field obj key).
Proof. unfold and_field. pose proof (preserves_field f obj key). preserves_tac. Qed.

Lemma preserves_this_user {X} (f : State -> X) : preserves f this_user.
Proof. unfold this_user. preserves_tac. Qed.

Lemma preserves_deref {X} (f : State -> X) st : preserves f (deref st).
Proof. unfold deref. preserves_tac. Qed.

Lemma preserves_to_str {X} (f : State -> X) v : preserves f (to_str v).
Proof. unfold to_str. destruct (Js.to_string v); preserves_tac. Qed.

Lemma preserves_parse_int {X} (f : State -> X) v : preserves f (parse_int v).
Proof. unfold parse_int. destruct (Js.parseInt v); preserves_tac. Qed.

#[export] Hint Resolve preserves_if_workspace preserves_ws_call preserves_log
  preserves_socket_emit preserves_field preserves_and_field preserves_this_user
  preserves_deref preserves_to_str preserves_parse_int : preserves.

Lemma preserves_sendMessage {X} (f : State -> X) m : preserves f (sendMessage m).
Proof. unfold sendMessage. preserves_tac. Qed.

Lemma preserves_loadInstructor {X} (f : State -> X) : preserves f loadInstructor.
Proof. intros s. rewrite loadInstructor_eq. reflexivity. Qed.

Lemma preserves_loadUserBuckets {X} (f : State -> X) : preserves f loadUserBuckets.
Proof. unfold loadUserBuckets. preserves_tac. Qed.

Lemma preserves_touchUser {X} (f : State -> X) : preserves f touchUser.
Proof. unfold touchUser. preserves_tac. Qed.

Lemma preserves_loadBucket {X} (f : State -> X) sc : preserves f (loadBucket sc).
Proof. unfold loadBucket. preserves_tac. Qed.

Lemma preserves_onBucketCreated {X} (f : State -> X) obj : preserves f (onBucketCreated obj).
Proof. unfold onBucketCreated. preserves_tac. Qed.

Lemma preserves_auto_callback {X} (f : State -> X) err : preserves f (auto_callback err).
Proof. unfold auto_callback. preserves_tac. Qed.

#[export] Hint Resolve preserves_sendMessage preserves_loadInstructor
  preserves_loadUserBuckets preserves_touchUser preserves_loadBucket
  preserves_onBucketCreated preserves_auto_callback : preserves.

End Run.

(* ================================================================== *)
(** * Workspace selection in [init_session] *)
(* ================================================================== *)

Module Selection.
Import Model SocketHandler Session Spec Sample Notions MoreSamples Run.

(** [init_session] on a live session, up to the [switch]. *)
Lemma init_session_switch (u : option User) (init : Js.Val) (s : State) :
  destroyed s = false ->
  init_session u init s =
    after (loaders u)
      (match select_workspace (init_action init) (init_info init)
                              (init_oldSessCode init) u with
       | None => Done tt (set_user u s) []
       | Some (line, c) =>
           (log line ;;
            effect (WsNew c) ;;
            modify (set_workspace (Some (mkWorkspace c [] None))) ;;
            listen ;;
            (if Js.is_str (init_action init) "bucket" then
               modify (set_bucketId (init_info init)) ;;
               loadBucket (init_skipCreate init)
             else if negb (Js.truthy (init_skipCreate init))
                  then ws_call WsBeginOctaveRequest
                  else ret tt) ;;
            next_init_session) (set_user u s)
       end).
Proof.
  intros Hd. unfold init_session.
  rewrite (bind_pure get _ s s eq_refl), Hd.
  rewrite (bind_run (modify (set_user u)) _ s (set_user u s) tt [] eq_refl), after_nil.
  rewrite loaders_eq.
  replace (user (set_user u s)) with u by (destruct s; reflexivity).
  f_equal.
  rewrite (bind_pure _ _ _ _ (and_field_eq init "action" _)).
  rewrite (bind_pure _ _ _ _ (and_field_eq init "info" _)).
  rewrite (bind_pure _ _ _ _ (and_field_eq init "sessCode" _)).
  rewrite (bind_pure _ _ _ _ (and_field_eq init "skipCreate" _)).
  unfold init_action, init_info, init_oldSessCode, init_skipCreate.
  destruct (select_workspace _ _ _ u) as [[line c] |]; reflexivity.
Qed.

Lemma needs_info_false (action : Js.Val) :
  needs_info action = false ->
  Js.is_str action "workspace" = false /\ Js.is_str action "student" = false /\
  Js.is_str action "bucket" = false.
Proof.
  unfold needs_info. intros H.
  apply orb_false_elim in H. destruct H as [H Hb].
  apply orb_false_elim in H. tauto.
Qed.

Lemma after_after {A} (t1 t2 : Trace) (o : Outcome A) :
  after t1 (after t2 o) = after (t1 ++ t2)%list o.
Proof. destruct o; simpl; rewrite app_assoc; reflexivity. Qed.

(** The part of [init_session] after the [switch], up to the end of
    [listen]. *)
Lemma attach_prefix {B} (u : option User) (line : list LogArg) (c : WsCtor)
      (k : M B) (s : State) :
  (log line ;;
   effect (WsNew c) ;;
   modify (set_workspace (Some (mkWorkspace c [] None))) ;;
   listen ;;
   k) (set_user u s)
  = after (attach_calls s line c)
          (k (bound (set_workspace (Some (mkWorkspace c [] None)) (set_user u s)))).
Proof.
  destruct s as [id addr sl bl ws us bk sc dd au].
  rewrite (bind_run (log line) _ _ _ tt _ eq_refl).
  rewrite (bind_run (effect (WsNew c)) _ _ _ tt _ eq_refl).
  rewrite (bind_run (modify _) _ _ _ tt _ eq_refl).
  rewrite (bind_run listen _ _ _ tt _ (Lifecycle.listen_eq _)).
  rewrite !after_after. reflexivity.
Qed.

(** The rest, for an action other than ["bucket"]. *)
Lemma attach_run (u : option User) (line : list LogArg) (c : WsCtor) (skip : Js.Val)
      (s : State) :
  (log line ;;
   effect (WsNew c) ;;
   modify (set_workspace (Some (mkWorkspace c [] None))) ;;
   listen ;;
   (if negb (Js.truthy skip) then ws_call WsBeginOctaveRequest else ret tt) ;;
   next_init_session) (set_user u s)
  = Done tt (attached u c s)
      (attach_calls s line c
       ++ (if Js.truthy skip then [] else [WsBeginOctaveRequest])
       ++ [SetImmediate_taskComplete])%list.
Proof.
  rewrite attach_prefix.
  destruct s as [id addr sl bl ws us bk sc dd au].
  destruct (Js.truthy skip); reflexivity.
Qed.

(** The rest for the action ["bucket"], whose [info] is truthy. *)
Lemma attach_bucket_run (u : option User) (line : list LogArg) (c : WsCtor)
      (info skip : Js.Val) (s : State) :
  Js.truthy info = true ->
  (log line ;;
   effect (WsNew c) ;;
   modify (set_workspace (Some (mkWorkspace c [] None))) ;;
   listen ;;
   (modify (set_bucketId info) ;; loadBucket skip) ;;
   next_init_session) (set_user u s)
  = Done tt (set_bucketId info (attached u c s))
      (attach_calls s line c
       ++ [BucketFindOne info (cb_loadBucket skip); SetImmediate_taskComplete])%list.
Proof.
  intros Hinfo. rewrite attach_prefix.
  destruct s as [id addr sl bl ws us bk sc dd au].
  unfold loadBucket, bind, modify, get. simpl. rewrite Hinfo. reflexivity.
Qed.

(** X1.  On a live session, an [init] whose action is ["workspace"],
    ["student"] or ["bucket"] and whose [info] is missing or falsy
    attaches the user and starts the three loaders, and that is all: no
    workspace is constructed, the channels are not rebound, and the task
    never reports completion. *)
Theorem init_session_missing_info (u : option User) (init : Js.Val) (s : State) :
  destroyed s = false ->
  needs_info (init_action init) = true ->
  Js.truthy (init_info init) = false ->
  init_session u init s = Done tt (set_user u s) (loaders u).
Proof.
  intros Hd Hact Hinfo. rewrite (init_session_switch u init s Hd).
  unfold select_workspace, needs_info in *. rewrite Hinfo.
  destruct (Js.is_str (init_action init) "workspace");
    [| destruct (Js.is_str (init_action init) "student");
       [| destruct (Js.is_str (init_action init) "bucket"); [| discriminate Hact]]];
    simpl; rewrite app_nil_r; reflexivity.
Qed.

Lemma init_session_missing_info_witness :
  destroyed fresh = false /\
  needs_info (init_action init_workspace_no_info) = true /\
  Js.truthy (init_info init_workspace_no_info) = false /\
  init_session (Some instructor_u1) init_workspace_no_info fresh =
    Done tt as_instructor
         [UserFind "math101" (cb_loadInstructor "math101");
          BucketFind "u1" cb_loadUserBuckets;
          UserTouchLastActivity instructor_u1 cb_touchUser].
Proof.
  do 3 (split; [reflexivity |]).
  exact (init_session_missing_info (Some instructor_u1) init_workspace_no_info fresh
           eq_refl eq_refl eq_refl).
Defined.

(** X2.  On a live session, an [init] with any other action (["session"],
    none at all, an [init] that is [null], an unknown action) always gets
    a workspace: the host side of the shared workspace when the user has
    a share key, else a normal workspace on the old session code, which
    is [init.sessCode] or, for the action ["session"] without one,
    [init.info].  The channels are rebound, the backend request is begun
    unless [skipCreate] is set, and the task reports completion. *)
Theorem init_session_default (u : option User) (init : Js.Val) (s : State) :
  destroyed s = false ->
  needs_info (init_action init) = false ->
  init_session u init s =
    Done tt (attached u (default_ctor u init) s)
      (loaders u
       ++ attach_calls s (default_line u init) (default_ctor u init)
       ++ (if Js.truthy (init_skipCreate init) then [] else [WsBeginOctaveRequest])
       ++ [SetImmediate_taskComplete])%list.
Proof.
  intros Hd Hact. rewrite (init_session_switch u init s Hd).
  destruct (needs_info_false _ Hact) as (Hw & Hs & Hb).
  unfold select_workspace. rewrite Hw, Hs, Hb.
  assert (Hsel :
    match u with
    | Some u0 =>
        if Js.truthy (share_key u0)
        then Some ([LStr "Attaching as host to student's workspace:"; LVal (share_key u0)],
                   SharedWorkspace_user "host" u0)
        else Some ([LStr "Attaching to default workspace with sessCode";
                    LVal (init_info init)],
                   NormalWorkspace (init_oldSessCode init) u Js.JNull)
    | None => Some ([LStr "Attaching to default workspace with sessCode";
                     LVal (init_info init)],
                    NormalWorkspace (init_oldSessCode init) u Js.JNull)
    end = Some (default_line u init, default_ctor u init)).
  { unfold default_line, default_ctor.
    destruct u as [u0 |]; [destruct (Js.truthy (share_key u0)) |]; reflexivity. }
  rewrite Hsel, attach_run. reflexivity.
Qed.

Lemma init_session_default_witness :
  destroyed fresh = false /\
  needs_info (init_action init_default) = false /\
  workspace (final_state (init_session (Some host_u4) init_default fresh)) =
    Some (mkWorkspace (SharedWorkspace_user "host" host_u4) ws_bound None) /\
  workspace (final_state (init_session None Js.JNull fresh)) =
    Some (mkWorkspace (NormalWorkspace Js.JNull None Js.JNull) ws_bound None).
Proof.
  do 2 (split; [reflexivity |]).
  rewrite (init_session_default None Js.JNull fresh eq_refl eq_refl).
  rewrite (init_session_default (Some host_u4) init_default fresh eq_refl eq_refl).
  split; reflexivity.
Defined.

(** X3.  On a live session, an [init] with the action ["bucket"] and a
    truthy [info] gets a normal workspace on that bucket, records the
    bucket id and looks the bucket up; the backend request is not begun
    here, whatever [skipCreate] says: that is left to the callback of
    the lookup. *)
Theorem init_session_bucket (u : option User) (init : Js.Val) (s : State) :
  destroyed s = false ->
  Js.is_str (init_action init) "bucket" = true ->
  Js.truthy (init_info init) = true ->
  let c := NormalWorkspace (init_oldSessCode init) u (init_info init) in
  init_session u init s =
    Done tt (set_bucketId (init_info init) (attached u c s))
      (loaders u
       ++ attach_calls s [LStr "Attaching to a bucket:"; LVal (init_info init)] c
       ++ [BucketFindOne (init_info init) (cb_loadBucket (init_skipCreate init));
           SetImmediate_taskComplete])%list /\
  existsb is_WsBeginOctaveRequest (trace_of (init_session u init s)) = false.
Proof.
  intros Hd Hact Hinfo c.
  assert (Heq : init_session u init s =
    Done tt (set_bucketId (init_info init) (attached u c s))
      (loaders u
       ++ attach_calls s [LStr "Attaching to a bucket:"; LVal (init_info init)] c
       ++ [BucketFindOne (init_info init) (cb_loadBucket (init_skipCreate init));
           SetImmediate_taskComplete])%list).
  { rewrite (init_session_switch u init s Hd).
    assert (Hw : Js.is_str (init_action init) "workspace" = false).
    { destruct (init_action init); try reflexivity. simpl in *.
      apply String.eqb_eq in Hact. subst. reflexivity. }
    assert (Hs : Js.is_str (init_action init) "student" = false).
    { destruct (init_action init); try reflexivity. simpl in *.
      apply String.eqb_eq in Hact. subst. reflexivity. }
    unfold select_workspace. rewrite Hw, Hs, Hact, Hinfo. cbv iota. simpl negb. cbv iota.
    rewrite (attach_bucket_run u _ c _ _ s Hinfo). reflexivity. }
  split; [exact Heq |].
  rewrite Heq. cbn [trace_of]. rewrite !existsb_app.
  assert (Hl : existsb is_WsBeginOctaveRequest (loaders u) = false).
  { destruct u as [u0 |]; [| reflexivity]. unfold loaders, instructor_queries.
    rewrite existsb_app. simpl. rewrite orb_false_r.
    induction (instructor u0); simpl; auto. }
  rewrite Hl. reflexivity.
Qed.

Lemma init_session_bucket_witness :
  destroyed fresh = false /\
  Js.is_str (init_action init_bucket) "bucket" = true /\
  Js.truthy (init_info init_bucket) = true /\
  bucketId (final_state (init_session None init_bucket fresh)) = Js.JStr "bucket-42" /\
  existsb is_WsBeginOctaveRequest (trace_of (init_session None init_bucket fresh)) = false.
Proof.
  do 3 (split; [reflexivity |]).
  destruct (init_session_bucket None init_bucket fresh eq_refl eq_refl eq_refl)
    as [Heq Hno].
  split; [rewrite Heq; reflexivity | exact Hno].
Defined.

(** X4.  On a live session, an [init] with the action ["workspace"] or
    ["student"] and a truthy [info] gets the shared workspace of that
    kind on [info], whoever the user is and whether or not the user has
    a share key of their own. *)
Theorem init_session_shared (u : option User) (init : Js.Val) (s : State) :
  destroyed s = false ->
  Js.truthy (init_info init) = true ->
  (Js.is_str (init_action init) "workspace" = true ->
   init_session u init s =
     Done tt (attached u (SharedWorkspace_info "default" (init_info init)) s)
       (loaders u
        ++ attach_calls s [LStr "Attaching to colaborative workspace:"; LVal (init_info init)]
                        (SharedWorkspace_info "default" (init_info init))
        ++ (if Js.truthy (init_skipCreate init) then [] else [WsBeginOctaveRequest])
        ++ [SetImmediate_taskComplete])%list) /\
  (Js.is_str (init_action init) "student" = true ->
   init_session u init s =
     Done tt (attached u (SharedWorkspace_info "student" (init_info init)) s)
       (loaders u
        ++ attach_calls s [LStr "Attaching to a student's workspace:"; LVal (init_info init)]
                        (SharedWorkspace_info "student" (init_info init))
        ++ (if Js.truthy (init_skipCreate init) then [] else [WsBeginOctaveRequest])
        ++ [SetImmediate_taskComplete])%list).
Proof.
  intros Hd Hinfo. split; intros Hact; rewrite (init_session_switch u init s Hd).
  - assert (Hb : Js.is_str (init_action init) "bucket" = false).
    { destruct (init_action init); try reflexivity. simpl in *.
      apply String.eqb_eq in Hact. subst. reflexivity. }
    unfold select_workspace. rewrite Hact, Hinfo, Hb. cbv iota. simpl negb. cbv iota.
    rewrite attach_run. reflexivity.
  - assert (Hb : Js.is_str (init_action init) "bucket" = false).
    { destruct (init_action init); try reflexivity. simpl in *.
      apply String.eqb_eq in Hact. subst. reflexivity. }
    assert (Hw : Js.is_str (init_action init) "workspace" = false).
    { destruct (init_action init); try reflexivity. simpl in *.
      apply String.eqb_eq in Hact. subst. reflexivity. }
    unfold select_workspace. rewrite Hact, Hw, Hinfo, Hb. cbv iota. simpl negb. cbv iota.
    rewrite attach_run. reflexivity.
Qed.

Lemma init_session_shared_witness :
  destroyed fresh = false /\
  Js.truthy (init_info init_student) = true /\
  Js.is_str (init_action init_student) "student" = true /\
  workspace (final_state (init_session (Some host_u4) init_student fresh)) =
    Some (mkWorkspace (SharedWorkspace_info "student" (Js.JStr "u2")) ws_bound None).
Proof.
  do 3 (split; [reflexivity |]).
  destruct (init_session_shared (Some host_u4) init_student fresh eq_refl eq_refl)
    as [_ H].
  rewrite (H eq_refl). reflexivity.
Defined.

End Selection.

(* ================================================================== *)
(** * Teardown from either side *)
(* ================================================================== *)

Module Disconnects.
Import Model SocketHandler Session Spec Sample Notions MoreSamples Run.

(** X5.  When the client disconnects, the workspace (if any) is told
    ["Client Disconnect"] before anything is unbound; then every
    registry is emptied and backend and workspace are unsubscribed.
    The backend is not destroyed and keeps its session code, the
    workspace object stays in its field, and since the [init] listener
    is gone with the others, an [init] arriving afterwards starts
    nothing. *)
Theorem onDestroyD_unbinds (s : State) :
  onDestroyD s =
    Done tt (unbound s)
      (logged s [LStr "Client Disconnect"]
       :: if_some (workspace s) [WsDestroyD "Client Disconnect"]
       ++ BackUnsubscribe :: if_some (workspace s) [WsUnsubscribe])%list /\
  registries (unbound s) = ([], [], option_map (fun _ => []) (workspace s)) /\
  option_map ctor (workspace (unbound s)) = option_map ctor (workspace s) /\
  (forall data, socket_init data (unbound s) = Done tt (unbound s) []).
Proof.
  destruct s as [id addr sl bl [w |] us bk sc dd au]; repeat split; reflexivity.
Qed.

(** X6.  When the backend reports its destruction, the client is sent
    [destroy-u] with the reason, the backend's session code is cleared
    and the workspace (if any) is told the reason; nothing is unbound
    and no field changes, so messages that still arrive are routed as
    before. *)
Theorem onDestroyU_keeps_bindings (reason : string) (s : State) :
  onDestroyU reason s =
    Done tt s
      ([logged s [LStr "Upstream Destroyed:"; LStr reason];
        SocketEmit "destroy-u" (PJs (Js.JStr reason));
        BackSetSessCode None]
       ++ if_some (workspace s) [WsDestroyU reason])%list /\
  (forall obj_data,
     onDataD obj_data (final_state (onDestroyU reason s)) = onDataD obj_data s).
Proof.
  assert (H : onDestroyU reason s =
    Done tt s
      ([logged s [LStr "Upstream Destroyed:"; LStr reason];
        SocketEmit "destroy-u" (PJs (Js.JStr reason));
        BackSetSessCode None]
       ++ if_some (workspace s) [WsDestroyU reason])%list).
  { destruct s as [id addr sl bl [w |] us bk sc dd au]; reflexivity. }
  split; [exact H |].
  intros obj_data. rewrite H. reflexivity.
Qed.

End Disconnects.

(* ================================================================== *)
(** * Messages from the backend and buckets *)
(* ================================================================== *)

Module Upstream.
Import Model SocketHandler Session Spec Sample Notions MoreSamples Run.

Lemma onBucketCreated_no_emit (obj : Js.Val) :
  emits_only (fun e => negb (is_SocketEmit e)) (onBucketCreated obj).
Proof. unfold onBucketCreated. emits_calls. Qed.

(** X7.  A message from the backend is shown to the workspace first (if
    there is one) and then sent to the client under the same name with
    the data as received, falsy values included.  The one exception is
    ["bucket-repo-created"], which goes to the workspace and to
    [onBucketCreated] and is never sent to the client. *)
Theorem onDataU_passthrough (name : string) (data : Js.Val) (s : State) :
  (String.eqb name "bucket-repo-created" = false ->
   onDataU name data s =
     Done tt s (if_some (workspace s) [WsDataU name data]
                ++ [SocketEmit name (PJs data)])%list) /\
  onDataU "bucket-repo-created" data s =
    after (if_some (workspace s) [WsDataU "bucket-repo-created" data])
          (onBucketCreated data s) /\
  existsb is_SocketEmit (trace_of (onDataU "bucket-repo-created" data s)) = false.
Proof.
  assert (Hcreated : onDataU "bucket-repo-created" data s =
    after (if_some (workspace s) [WsDataU "bucket-repo-created" data])
          (onBucketCreated data s)).
  { unfold onDataU.
    erewrite bind_run.
    2: { instantiate (1 := if_some (workspace s) [WsDataU "bucket-repo-created" data]).
         instantiate (1 := s). instantiate (1 := tt).
         destruct s as [id addr sl bl [w |] us bk sc dd au]; reflexivity. }
    reflexivity. }
  split; [| split; [exact Hcreated |]].
  - intros Hname. unfold onDataU.
    erewrite bind_run.
    2: { instantiate (1 := if_some (workspace s) [WsDataU name data]).
         instantiate (1 := s). instantiate (1 := tt).
         destruct s as [id addr sl bl [w |] us bk sc dd au]; reflexivity. }
    rewrite Hname. reflexivity.
  - rewrite Hcreated, trace_of_after, existsb_app.
    rewrite (none_emitted _ _ (onBucketCreated_no_emit data s)).
    destruct (workspace s); reflexivity.
Qed.

Lemma onDataU_passthrough_witness :
  String.eqb "out" "bucket-repo-created" = false /\
  onDataU "out" (Js.JNum (Js.JInt 0)) with_normal_workspace =
    Done tt with_normal_workspace
         [WsDataU "out" (Js.JNum (Js.JInt 0)); SocketEmit "out" (PJs (Js.JNum (Js.JInt 0)))].
Proof.
  split; [reflexivity |].
  destruct (onDataU_passthrough "out" (Js.JNum (Js.JInt 0)) with_normal_workspace)
    as [H _].
  exact (H eq_refl).
Defined.

(** X8.  A confirmed bucket creation with a bucket id is saved as a
    bucket owned by the user of the session, with the id and the [main]
    of the message; once saved it is announced to the client, and a
    later delete request of the same session passes the ownership test
    on it.  Without a user nothing is saved: the event is logged and
    dropped. *)
Theorem onBucketCreated_owned (obj : Js.Val) (s : State) :
  Js.truthy obj = true ->
  Js.truthy (and_val obj "bucket_id") = true ->
  match user s with
  | Some u =>
      let b := created_bucket u obj in
      onBucketCreated obj s =
        Done tt s
          [logged s [LStr "Creating bucket:"; LVal (and_val obj "bucket_id");
                     LStr (consoleText u)];
           BucketSave b (cb_onBucketCreated b)] /\
      user_id b = _id u /\
      onBucketCreated_cb b None s =
        Done tt s [SocketEmit "bucket-created" (PBucketCreated b)] /\
      (forall request,
         onDeleteBucket_found request (Ok (Some b)) s =
           Done tt s [BucketRemove b (cb_onDeleteBucket_removed request)])
  | None =>
      onBucketCreated obj s =
        Done tt s
          [logged s [LStr "ERROR: No user but got bucket-created message!";
                     LVal (and_val obj "bucket_id")]]
  end.
Proof.
  intros Hobj Hid.
  destruct (JsFacts.get_truthy obj "bucket_id" Hobj) as [x Hx].
  destruct (JsFacts.get_truthy obj "main" Hobj) as [y Hy].
  unfold created_bucket, and_val in *. rewrite Hobj, Hx in *. rewrite Hy.
  unfold onBucketCreated, field. rewrite Hobj, Hx, Hy.
  destruct s as [id addr sl bl ws [u |] bk sc dd au]; cbn -[id_equals]; rewrite Hid.
  - repeat split; try reflexivity.
    intros request. cbn -[id_equals].
    unfold id_equals. rewrite String.eqb_refl. reflexivity.
  - reflexivity.
Qed.

Lemma onBucketCreated_owned_witness :
  Js.truthy bucket_created_payload = true /\
  Js.truthy (and_val bucket_created_payload "bucket_id") = true /\
  onBucketCreated bucket_created_payload as_instructor =
    Done tt as_instructor
      [logged as_instructor [LStr "Creating bucket:"; LVal (Js.JStr "bucket-9"); LStr "prof"];
       BucketSave (mkBucket (Js.JStr "bucket-9") "u1" (Js.JStr "run.m"))
         (cb_onBucketCreated (mkBucket (Js.JStr "bucket-9") "u1" (Js.JStr "run.m")))].
Proof.
  do 2 (split; [reflexivity |]).
  pose proof (onBucketCreated_owned bucket_created_payload as_instructor eq_refl eq_refl)
    as H.
  simpl in H. destruct H as [H _]. exact H.
Defined.

(** X9.  When the bucket of the session is not found and its id has a
    string form (as a string has: itself), the client is told which
    bucket is missing and sent [destroy-u] with ["Unknown Bucket"], and
    the workspace field is cleared; the workspace object is not told,
    not unsubscribed and not unbound, and the socket and backend
    registries stay.  On the session so left, a reconnect request is
    answered with [destroy-u] ["Invalid Session"] and messages for the
    workspace are dropped.  When the id has no string form (an object
    with a [toString] entry of its own), building the message throws:
    nothing is sent and the workspace field is kept. *)
Theorem loadBucket_not_found (skipCreate : Js.Val) (s : State) :
  let s' := set_workspace None s in
  loadBucket_cb skipCreate (Ok None) s =
    match Js.to_string (bucketId s) with
    | Some id =>
        Done tt s'
          (message ("Unable to find bucket: " ++ id)
           ++ [SocketEmit "destroy-u" (PJs (Js.JStr "Unknown Bucket"))])%list
    | None => Throw TypeError s []
    end /\
  (forall id, bucketId s = Js.JStr id ->
     loadBucket_cb skipCreate (Ok None) s =
       Done tt s'
         (message ("Unable to find bucket: " ++ id)
          ++ [SocketEmit "destroy-u" (PJs (Js.JStr "Unknown Bucket"))])%list) /\
  (forall fields, bucketId s = Js.JObj fields -> Js.has_toString fields = true ->
     loadBucket_cb skipCreate (Ok None) s = Throw TypeError s []) /\
  socket_listeners s' = socket_listeners s /\
  back_listeners s' = back_listeners s /\
  onOoReconnect s' =
    Done tt s' [SocketEmit "destroy-u" (PJs (Js.JStr "Invalid Session"))] /\
  (forall n payload,
     reserved_prefix n = true -> onDataD [Js.JStr n; payload] s' = Done tt s' []).
Proof.
  cbv zeta.
  assert (Hrun : loadBucket_cb skipCreate (Ok None) s =
            match Js.to_string (bucketId s) with
            | Some id =>
                Done tt (set_workspace None s)
                  (message ("Unable to find bucket: " ++ id)
                   ++ [SocketEmit "destroy-u" (PJs (Js.JStr "Unknown Bucket"))])%list
            | None => Throw TypeError s []
            end).
  { destruct s as [id addr sl bl ws us bk sc dd au].
    unfold loadBucket_cb, to_str. cbn -[Js.to_string String.append].
    destruct (Js.to_string bk); reflexivity. }
  split; [exact Hrun | split; [| split; [| split; [| split; [| split]]]]].
  - intros id Hid. rewrite Hrun, Hid. reflexivity.
  - intros fields Hid Hown. rewrite Hrun, Hid. cbn [Js.to_string]. rewrite Hown. reflexivity.
  - destruct s; reflexivity.
  - destruct s; reflexivity.
  - destruct s; reflexivity.
  - intros n payload Hp.
    rewrite (Routing.onDataD_not_reserved n payload _
               (Routing.reserved_prefix_not_reserved n Hp)).
    cbv zeta. rewrite Hp. destruct s; reflexivity.
Qed.

Lemma loadBucket_not_found_witness :
  reserved_prefix "ot.insert" = true /\
  workspace (final_state (loadBucket_cb Js.JUndefined (Ok None) with_normal_workspace)) = None /\
  onDataD [Js.JStr "ot.insert"; Js.JObj []] (set_workspace None with_normal_workspace) =
    Done tt (set_workspace None with_normal_workspace) [].
Proof.
  destruct (loadBucket_not_found Js.JUndefined with_normal_workspace)
    as (Heq & _ & _ & _ & _ & _ & Hdrop).
  split; [reflexivity | split; [rewrite Heq; reflexivity |]].
  exact (Hdrop "ot.insert" (Js.JObj []) eq_refl).
Defined.

(** X10.  When the bucket of the session is found, its record is sent
    to the client as [bucket-info] and then the backend request is
    begun, unless [skipCreate] is set; when the lookup fails, the client
    gets a message and the request is not begun, the workspace staying
    in place. *)
Theorem loadBucket_found (skipCreate : Js.Val) (b : Bucket) (w : Workspace) (s : State) :
  workspace s = Some w ->
  loadBucket_cb skipCreate (Ok (Some b)) s =
    Done tt s
      ([logged s [LStr "Bucket loaded:"; LVal (bucket_id b)];
        SocketEmit "bucket-info" (PBucketInfo b)]
       ++ (if Js.truthy skipCreate then [] else [WsBeginOctaveRequest]))%list /\
  (forall err,
     loadBucket_cb skipCreate (Failed err) s =
       Done tt s
         (logged s [LStr "LOAD BUCKET ERROR"; LStr err]
          :: message "Encountered error while initializing bucket.")).
Proof.
  intros Hw.
  destruct s as [id addr sl bl ws us bk sc dd au]. simpl in Hw. subst ws.
  split.
  - unfold loadBucket_cb. destruct (Js.truthy skipCreate); reflexivity.
  - intros err. reflexivity.
Qed.

Lemma loadBucket_found_witness :
  workspace with_normal_workspace = Some normal_workspace /\
  loadBucket_cb Js.JUndefined (Ok (Some bucket_of_u2)) with_normal_workspace =
    Done tt with_normal_workspace
      [logged with_normal_workspace [LStr "Bucket loaded:"; LVal (Js.JStr "bucket-42")];
       SocketEmit "bucket-info" (PBucketInfo bucket_of_u2);
       WsBeginOctaveRequest].
Proof.
  split; [reflexivity |].
  destruct (loadBucket_found Js.JUndefined bucket_of_u2 normal_workspace
              with_normal_workspace eq_refl) as [H _].
  exact H.
Defined.

(** X25.  A delete request with a bucket id, on a session with a user,
    looks the bucket up by that id.  When no bucket is found the client
    is asked whether it was deleted already; when the removal succeeded
    the client is sent [bucket-deleted] with the id of the request. *)
Theorem onDeleteBucket_flow (obj : Js.Val) (u : User) (s : State) :
  user s = Some u -> Js.truthy obj = true ->
  Js.truthy (and_val obj "bucket_id") = true ->
  onDeleteBucket obj s =
    Done tt s
      [logged s [LStr "Deleting bucket:"; LVal (and_val obj "bucket_id")];
       BucketFindOne (and_val obj "bucket_id") (cb_onDeleteBucket_found obj)] /\
  onDeleteBucket_found obj (Ok None) s =
    Done tt s (message "Unable to find bucket; did you already delete it?") /\
  onDeleteBucket_removed obj None s =
    Done tt s
      [SocketEmit "bucket-deleted" (PJs (Js.JObj [("bucket_id", and_val obj "bucket_id")]))].
Proof.
  intros Hu Hobj Hid.
  destruct (JsFacts.get_truthy obj "bucket_id" Hobj) as [x Hx].
  unfold and_val in *. rewrite Hobj, Hx in *.
  destruct s as [id addr sl bl ws us bk sc dd au]. simpl in Hu. subst us.
  split; [| split].
  - unfold onDeleteBucket, field. rewrite Hobj, Hx. cbn. rewrite Hid. reflexivity.
  - reflexivity.
  - unfold onDeleteBucket_removed, field. rewrite Hx. reflexivity.
Qed.

Lemma onDeleteBucket_flow_witness :
  user as_instructor = Some instructor_u1 /\
  Js.truthy (Js.JObj [("bucket_id", Js.JStr "bucket-7")]) = true /\
  Js.truthy (and_val (Js.JObj [("bucket_id", Js.JStr "bucket-7")]) "bucket_id") = true /\
  onDeleteBucket_removed (Js.JObj [("bucket_id", Js.JStr "bucket-7")]) None as_instructor =
    Done tt as_instructor
      [SocketEmit "bucket-deleted" (PJs (Js.JObj [("bucket_id", Js.JStr "bucket-7")]))].
Proof.
  do 3 (split; [reflexivity |]).
  destruct (onDeleteBucket_flow (Js.JObj [("bucket_id", Js.JStr "bucket-7")])
              instructor_u1 as_instructor eq_refl eq_refl eq_refl) as (_ & _ & H).
  exact H.
Defined.

End Upstream.

(* ================================================================== *)
(** * Sharing, enrolling and students *)
(* ================================================================== *)

Module Profiles.
Import Model SocketHandler Session Spec Sample Notions MoreSamples Run.

(** [indexOf] finds exactly the strings of the array. *)
Lemma indexOf_from_bounds (arr : list string) :
  forall i v, 0 <= i -> Js.indexOf_from i arr v = -1 \/ i <= Js.indexOf_from i arr v.
Proof.
  induction arr as [| x arr IH]; intros i v Hi; simpl.
  - left. reflexivity.
  - destruct (Js.is_str v x); [right; lia |].
    destruct (IH (i + 1) v) as [H | H]; [lia | left; exact H | right; lia].
Qed.

Lemma indexOf_from_In (arr : list string) (x : string) :
  forall i, 0 <= i -> (Js.indexOf_from i arr (Js.JStr x) = -1 <-> ~ In x arr).
Proof.
  induction arr as [| y arr IH]; intros i Hi; simpl.
  - tauto.
  - destruct (String.eqb_spec x y) as [-> | Hne].
    + split; [lia | intros H; exfalso; apply H; left; reflexivity].
    + rewrite (IH (i + 1)) by lia. split.
      * intros H [Heq | Hin]; [congruence | contradiction].
      * intros H Hin. apply H. right. exact Hin.
Qed.

Lemma indexOf_In (arr : list string) (x : string) :
  Js.indexOf arr (Js.JStr x) = -1 <-> ~ In x arr.
Proof. apply indexOf_from_In. lia. Qed.

Lemma indexOf_found (arr : list string) (x : string) :
  In x arr -> (Js.indexOf arr (Js.JStr x) =? -1) = false.
Proof.
  intros Hin. apply Z.eqb_neq. intros H. apply indexOf_In in H. contradiction.
Qed.

Lemma indexOf_not_string (arr : list string) (v : Js.Val) :
  (forall x, v <> Js.JStr x) -> Js.indexOf arr v = -1.
Proof.
  intros Hv. unfold Js.indexOf. generalize 0.
  induction arr as [| y arr IH]; intros i; simpl; [reflexivity |].
  destruct v; simpl; try apply IH. exfalso. apply (Hv s). reflexivity.
Qed.

(** X11.  For a session with a user, a sharing request with
    [enabled] falsy is refused with a message while the user is
    enrolled in a program other than ["default"]: no share key is
    removed and the workspace is not told.  Otherwise switching off
    tells the workspace ["Sharing Disabled"] and removes the share key,
    and switching on creates one, enrolled or not.  Either store call
    ends with [reload] sent to the client, also when it failed. *)
Theorem onToggleSharing_cases (obj : Js.Val) (u : User) (s : State) :
  user s = Some u -> Js.truthy obj = true ->
  let enabled := and_val obj "enabled" in
  let enrolled := Js.truthy (program u) && negb (Js.is_str (program u) "default") in
  onToggleSharing obj s =
    Done tt s
      (if Js.truthy enabled then [UserCreateShareKey u cb_createShareKey]
       else if enrolled then message must_unenroll
       else sharing_disabled u s) /\
  (forall err,
     reload_cb err s =
       Done tt s
         (match err with Some e => [logged s [LStr "MONGO ERROR"; LStr e]] | None => [] end
          ++ [SocketEmit "reload" (PJs (Js.JObj []))])%list).
Proof.
  intros Hu Hobj. cbv zeta.
  destruct (JsFacts.get_truthy obj "enabled" Hobj) as [x Hx].
  unfold and_val. rewrite Hobj, Hx.
  destruct s as [id addr sl bl ws us bk sc dd au]. simpl in Hu. subst us.
  split.
  - unfold onToggleSharing, field. rewrite Hobj, Hx. cbn.
    destruct (Js.truthy x); cbn.
    + destruct (Js.truthy (program u) && negb (Js.is_str (program u) "default")); reflexivity.
    + destruct (Js.truthy (program u)); cbn;
        [destruct (Js.is_str (program u) "default"); cbn |];
        try reflexivity; destruct ws; reflexivity.
  - intros [e |]; reflexivity.
Qed.

Lemma onToggleSharing_cases_witness :
  user instructor_with_workspace = Some instructor_u1 /\
  Js.truthy sharing_off = true /\
  onToggleSharing sharing_off instructor_with_workspace =
    Done tt instructor_with_workspace
      [WsDestroyD "Sharing Disabled"; UserRemoveShareKey instructor_u1 cb_removeShareKey].
Proof.
  do 2 (split; [reflexivity |]).
  destruct (onToggleSharing_cases sharing_off instructor_u1 instructor_with_workspace
              eq_refl eq_refl) as [H _].
  exact H.
Defined.

(** X12.  An enroll request with a program sets the program of the
    session's user and saves that same document; no other field of the
    session changes.  From then on switching sharing off is refused,
    unless the program enrolled in is ["default"], in which case it goes
    through. *)
Theorem onEnroll_then_sharing (obj : Js.Val) (u : User) (s : State) :
  user s = Some u -> Js.truthy obj = true ->
  Js.truthy (and_val obj "program") = true ->
  let p := and_val obj "program" in
  let u' := set_program p u in
  let s' := set_user (Some u') s in
  onEnroll obj s =
    Done tt s'
      [logged s [LStr "Enrolling"; LStr (consoleText u); LStr "in program"; LVal p];
       UserSave u' cb_onEnroll] /\
  (forall off,
     Js.truthy off = true -> Js.truthy (and_val off "enabled") = false ->
     onToggleSharing off s' =
       Done tt s' (if Js.is_str p "default" then sharing_disabled u' s'
                   else message must_unenroll)).
Proof.
  intros Hu Hobj Hp. cbv zeta.
  destruct (JsFacts.get_truthy obj "program" Hobj) as [x Hx].
  unfold and_val in *. rewrite Hobj, Hx in *.
  destruct s as [id addr sl bl ws us bk sc dd au]. simpl in Hu. subst us.
  split.
  - unfold onEnroll, field. rewrite Hobj, Hx. cbn. rewrite Hp. reflexivity.
  - intros off Hoff Hen.
    destruct (JsFacts.get_truthy off "enabled" Hoff) as [y Hy].
    rewrite Hoff, Hy in Hen.
    unfold onToggleSharing, field. rewrite Hoff, Hy. cbn. rewrite Hen, Hp. cbn.
    destruct (Js.is_str x "default"); cbn; [destruct ws |]; reflexivity.
Qed.

Lemma onEnroll_then_sharing_witness :
  user as_instructor = Some instructor_u1 /\
  Js.truthy enroll_payload = true /\
  Js.truthy (and_val enroll_payload "program") = true /\
  onToggleSharing sharing_off
    (set_user (Some (set_program (Js.JStr "math101") instructor_u1)) as_instructor) =
    Done tt (set_user (Some (set_program (Js.JStr "math101") instructor_u1)) as_instructor)
         (message must_unenroll).
Proof.
  do 3 (split; [reflexivity |]).
  destruct (onEnroll_then_sharing enroll_payload instructor_u1 as_instructor
              eq_refl eq_refl eq_refl) as [_ H].
  exact (H sharing_off eq_refl eq_refl).
Defined.

(** X13.  An instructor may unenroll a student exactly of the programs
    in their instructor list: when the student's program is one of
    them, the student is saved with the program ["default"], and the
    client is told once the save succeeded.  A student whose program is
    not a string of the list is left alone. *)
Theorem onUnenrollStudent_authorized (u student : User) (s : State) :
  user s = Some u ->
  (forall p, program student = Js.JStr p -> In p (instructor u) ->
     let student' := set_program (Js.JStr "default") student in
     onUnenrollStudent_found (Ok (Some student)) s =
       Done tt s
         [logged s [LStr "Un-enrolling"; LStr (consoleText u); LStr "from program";
                    LVal (program student)];
          UserSave student' (cb_onUnenrollStudent_saved student')] /\
     onUnenrollStudent_saved student' None s =
       Done tt s (message ("Student successfully unenrolled: " ++ displayName student))) /\
  ((forall p, program student = Js.JStr p -> ~ In p (instructor u)) ->
     existsb is_store_call (trace_of (onUnenrollStudent_found (Ok (Some student)) s)) = false).
Proof.
  intros Hu.
  destruct s as [id addr sl bl ws us bk sc dd au]. simpl in Hu. subst us.
  split.
  - intros p Hp Hin. cbv zeta. split; [| reflexivity].
    unfold onUnenrollStudent_found. cbn -[Js.indexOf].
    rewrite Hp, (indexOf_found _ _ Hin). reflexivity.
  - intros Hnot. unfold onUnenrollStudent_found. cbn -[Js.indexOf].
    assert (Hidx : Js.indexOf (instructor u) (program student) = -1).
    { destruct (program student) eqn:Hp;
        try (apply indexOf_not_string; intros x; discriminate).
      apply indexOf_In. apply Hnot. reflexivity. }
    rewrite Hidx. reflexivity.
Qed.

Lemma onUnenrollStudent_authorized_witness :
  user as_instructor = Some instructor_u1 /\
  program student_u3 = Js.JStr "math101" /\
  In "math101" (instructor instructor_u1) /\
  onUnenrollStudent_found (Ok (Some student_u3)) as_instructor =
    Done tt as_instructor
      [logged as_instructor [LStr "Un-enrolling"; LStr "prof"; LStr "from program";
                             LVal (Js.JStr "math101")];
       UserSave (set_program (Js.JStr "default") student_u3)
         (cb_onUnenrollStudent_saved (set_program (Js.JStr "default") student_u3))].
Proof.
  assert (Hin : In "math101" (instructor instructor_u1)) by (left; reflexivity).
  do 2 (split; [reflexivity |]). split; [exact Hin |].
  destruct (onUnenrollStudent_authorized instructor_u1 student_u3 as_instructor eq_refl)
    as [H _].
  destruct (H "math101" eq_refl Hin) as [Heq _]. exact Heq.
Defined.

(** X14.  A reenroll request goes through when both the destination
    program and the student's current program are in the acting user's
    instructor list: the student is saved with the destination program.
    A student who has been unenrolled is in ["default"], so unless the
    instructor list contains ["default"] the same instructor cannot
    reenroll them: the callback only logs a warning. *)
Theorem onReenrollStudent_authorized (obj : Js.Val) (u student : User) (s : State) :
  user s = Some u -> Js.truthy obj = true ->
  (forall p to,
     program student = Js.JStr p -> In p (instructor u) ->
     and_val obj "program" = Js.JStr to -> In to (instructor u) ->
     Js.truthy (and_val obj "userId") = true -> to <> "" ->
     let student' := set_program (Js.JStr to) student in
     onReenrollStudent obj s =
       Done tt s [UserFindById (and_val obj "userId") (cb_onReenrollStudent_found obj)] /\
     onReenrollStudent_found obj (Ok (Some student)) s =
       Done tt s
         [logged s [LStr "Re-enrolling"; LStr (consoleText u); LStr "from program";
                    LVal (program student); LStr "to program"; LVal (Js.JStr to)];
          UserSave student' (cb_onReenrollStudent_saved student')]) /\
  (~ In "default" (instructor u) ->
   onReenrollStudent_found obj
     (Ok (Some (set_program (Js.JStr "default") student))) s =
     Done tt s [logged s [LStr "Warning: illegal call to reenroll student"]]).
Proof.
  intros Hu Hobj.
  destruct (JsFacts.get_truthy obj "program" Hobj) as [x Hx].
  destruct (JsFacts.get_truthy obj "userId" Hobj) as [y Hy].
  unfold and_val. rewrite Hobj, Hx, Hy.
  destruct s as [id addr sl bl ws us bk sc dd au]. simpl in Hu. subst us.
  split.
  - intros p to Hp Hin -> Hto Hid Hne. cbv zeta. split.
    + unfold onReenrollStudent, field. rewrite Hobj, Hy, Hx.
      cbn -[Js.indexOf]. rewrite Hid. cbn -[Js.indexOf].
      destruct (String.eqb_spec to "") as [-> | _]; [congruence |].
      cbn -[Js.indexOf]. rewrite (indexOf_found _ _ Hto). reflexivity.
    + unfold onReenrollStudent_found, field. rewrite Hx.
      cbn -[Js.indexOf]. rewrite Hp, (indexOf_found _ _ Hin). reflexivity.
  - intros Hnot. unfold onReenrollStudent_found. cbn -[Js.indexOf].
    rewrite (proj2 (indexOf_In _ _) Hnot). reflexivity.
Qed.

Lemma onReenrollStudent_authorized_witness :
  user as_instructor = Some instructor_u1 /\
  Js.truthy reenroll_u3_payload = true /\
  In "math101" (instructor instructor_u1) /\
  ~ In "default" (instructor instructor_u1) /\
  onReenrollStudent reenroll_u3_payload as_instructor =
    Done tt as_instructor
      [UserFindById (Js.JStr "u3") (cb_onReenrollStudent_found reenroll_u3_payload)] /\
  onReenrollStudent_found reenroll_u3_payload
    (Ok (Some (set_program (Js.JStr "default") student_u3))) as_instructor =
    Done tt as_instructor
      [logged as_instructor [LStr "Warning: illegal call to reenroll student"]].
Proof.
  assert (Hin : In "math101" (instructor instructor_u1)) by (left; reflexivity).
  assert (Hnot : ~ In "default" (instructor instructor_u1))
    by (simpl; intuition discriminate).
  assert (Hne : "math101" <> "") by discriminate.
  do 2 (split; [reflexivity |]). split; [exact Hin |]. split; [exact Hnot |].
  destruct (onReenrollStudent_authorized reenroll_u3_payload instructor_u1 student_u3
              as_instructor eq_refl eq_refl) as [Hgo Hback].
  destruct (Hgo "math101" "math101" eq_refl Hin eq_refl Hin eq_refl Hne) as [Hreq _].
  split; [exact Hreq | exact (Hback Hnot)].
Defined.

(** X15.  When the lookup of the student finds no document, the
    callbacks of unenroll and reenroll read [student.program] of [null]
    and throw, having sent and saved nothing; when the lookup itself
    fails they write one log line. *)
Theorem student_not_found (obj : Js.Val) (u : User) (s : State) :
  user s = Some u ->
  onUnenrollStudent_found (Ok None) s = Throw TypeError s [] /\
  onReenrollStudent_found obj (Ok None) s = Throw TypeError s [] /\
  (forall err,
     onUnenrollStudent_found (Failed err) s =
       Done tt s [logged s [LStr "MONGO ERROR"; LStr err]] /\
     onReenrollStudent_found obj (Failed err) s =
       Done tt s [logged s [LStr "ERROR ON UNENROLL STUDENT"; LStr err]]).
Proof.
  intros Hu.
  destruct s as [id addr sl bl ws us bk sc dd au]. simpl in Hu. subst us.
  repeat split; reflexivity.
Qed.

Lemma student_not_found_witness :
  user as_instructor = Some instructor_u1 /\
  onUnenrollStudent_found (Ok None) as_instructor = Throw TypeError as_instructor [].
Proof.
  split; [reflexivity |].
  destruct (student_not_found unenroll_payload instructor_u1 as_instructor eq_refl)
    as [H _].
  exact H.
Defined.

End Profiles.

(* ================================================================== *)
(** * Client messages: names, frame, fields *)
(* ================================================================== *)

Module Messages.
Import Model SocketHandler Session Spec Sample Notions MoreSamples Run.

(** X16.  A client message without a name, or with a falsy one, is
    handled as the message named [""]: it matches no control name and no
    prefix and goes to the backend under the empty name.  A name that
    is truthy but not a string matches no control name either and then
    has no [substr]: the handler throws before anything is sent. *)
Theorem onDataD_name_edges (obj_data : list Js.Val) (s : State) :
  (Js.truthy (data_at obj_data 0) = false ->
   onDataD obj_data s =
     Done tt s [BackDataD "" (Js.or (data_at obj_data 1) Js.JNull)]) /\
  (Js.truthy (data_at obj_data 0) = true ->
   (forall n, data_at obj_data 0 <> Js.JStr n) ->
   onDataD obj_data s = Throw TypeError s []).
Proof.
  split.
  - intros Hname. unfold onDataD. rewrite (JsFacts.or_falsy _ _ Hname).
    destruct s; reflexivity.
  - intros Hname Hstr. unfold onDataD. rewrite (JsFacts.or_truthy _ _ Hname).
    destruct (data_at obj_data 0); try reflexivity.
    exfalso. apply (Hstr s0). reflexivity.
Qed.

Lemma onDataD_name_edges_witness :
  Js.truthy (data_at [] 0) = false /\
  onDataD [] fresh = Done tt fresh [BackDataD "" Js.JNull] /\
  Js.truthy (data_at [Js.JNum (Js.JInt 5); Js.JStr "x"] 0) = true /\
  onDataD [Js.JNum (Js.JInt 5); Js.JStr "x"] fresh = Throw TypeError fresh [].
Proof.
  destruct (onDataD_name_edges [] fresh) as [Hempty _].
  destruct (onDataD_name_edges [Js.JNum (Js.JInt 5); Js.JStr "x"] fresh) as [_ Hnum].
  split; [reflexivity | split; [exact (Hempty eq_refl) | split; [reflexivity |]]].
  apply Hnum; [reflexivity | intros n; discriminate].
Defined.

Lemma local_onEnroll obj : emits_only (fun e => negb (is_dataD e)) (onEnroll obj).
Proof. unfold onEnroll. emits_calls. Qed.

Lemma local_onUpdateStudents obj :
  emits_only (fun e => negb (is_dataD e)) (onUpdateStudents obj).
Proof. unfold onUpdateStudents. emits_calls. Qed.

Lemma local_onUnenrollStudent obj :
  emits_only (fun e => negb (is_dataD e)) (onUnenrollStudent obj).
Proof. unfold onUnenrollStudent. emits_calls. Qed.

Lemma local_onReenrollStudent obj :
  emits_only (fun e => negb (is_dataD e)) (onReenrollStudent obj).
Proof. unfold onReenrollStudent. emits_calls. Qed.

Lemma local_onPing obj : emits_only (fun e => negb (is_dataD e)) (onPing obj).
Proof. unfold onPing. emits_calls. Qed.

Lemma local_onToggleSharing obj :
  emits_only (fun e => negb (is_dataD e)) (onToggleSharing obj).
Proof. unfold onToggleSharing. emits_calls. Qed.

Lemma local_onOoReconnect : emits_only (fun e => negb (is_dataD e)) onOoReconnect.
Proof. unfold onOoReconnect. emits_calls. Qed.

Lemma local_onSetPassword obj :
  emits_only (fun e => negb (is_dataD e)) (onSetPassword obj).
Proof. unfold onSetPassword. emits_calls. Qed.

Lemma local_onDeleteBucket obj :
  emits_only (fun e => negb (is_dataD e)) (onDeleteBucket obj).
Proof. unfold onDeleteBucket. emits_calls. Qed.

(** X17.  A message under one of the ten control names stays with its
    handler: whatever the payload and the state, it is passed neither to
    the backend's [dataD] nor to the workspace's. *)
Theorem reserved_names_stay_local (n : string) (payload : Js.Val) (s : State) :
  In n reserved_names ->
  existsb is_dataD (trace_of (onDataD [Js.JStr n; payload] s)) = false.
Proof.
  intros Hin. apply none_emitted.
  unfold reserved_names in Hin. simpl in Hin.
  repeat (destruct Hin as [<- | Hin]); try contradiction.
  - reflexivity.
  - exact (local_onEnroll _ s).
  - exact (local_onUpdateStudents _ s).
  - exact (local_onUnenrollStudent _ s).
  - exact (local_onReenrollStudent _ s).
  - exact (local_onPing _ s).
  - exact (local_onToggleSharing _ s).
  - exact (local_onOoReconnect s).
  - exact (local_onSetPassword _ s).
  - exact (local_onDeleteBucket _ s).
Qed.

Lemma reserved_names_stay_local_witness :
  In "oo.ping" reserved_names /\
  existsb is_dataD (trace_of (onDataD [Js.JStr "oo.ping"; ping_payload] with_normal_workspace))
  = false.
Proof.
  assert (Hin : In "oo.ping" reserved_names) by (simpl; tauto).
  split; [exact Hin |].
  exact (reserved_names_stay_local "oo.ping" ping_payload with_normal_workspace Hin).
Defined.

Lemma frame_onDataD (obj_data : list Js.Val) : preserves but_user (onDataD obj_data).
Proof.
  unfold onDataD, onEnroll, onUpdateStudents, onUnenrollStudent, onReenrollStudent,
    onPing, onToggleSharing, onOoReconnect, onSetPassword, onDeleteBucket.
  preserves_tac.
Qed.

(** X18.  Handling a client message, whatever it is and whether the
    handler returns or throws, changes no field of the session but
    [user]: the registries, the workspace, the bucket id, the flag and
    the join are as before. *)
Theorem client_message_frame (obj_data : list Js.Val) (s : State) :
  let s' := final_state (onDataD obj_data s) in
  but_user s' = but_user s /\
  registries s' = registries s /\
  workspace s' = workspace s /\
  bucketId s' = bucketId s /\
  auto s' = auto s.
Proof.
  cbv zeta. pose proof (frame_onDataD obj_data s) as H.
  split; [exact H |].
  destruct (final_state (onDataD obj_data s)), s. unfold but_user in H. simpl in H.
  injection H as -> -> -> -> -> -> -> -> ->. repeat split; reflexivity.
Qed.

(** X19.  The answer to a ping is empty for a falsy payload and
    carries [NaN] when the payload has no [startTime].  When
    [startTime] is the decimal string of an integer [z], it carries the
    double nearest to [z]: [z] itself when [z] is a safe integer. *)
Theorem onPing_edges (obj : Js.Val) (s : State) :
  (Js.truthy obj = false -> onPing obj s = Done tt s []) /\
  (Js.truthy obj = true -> and_val obj "startTime" = Js.JUndefined ->
   onPing obj s = Done tt s [pong (Js.JNum Js.NaN)]) /\
  (forall z, Js.truthy obj = true ->
     and_val obj "startTime" = Js.JStr (Js.int_to_string z) ->
     onPing obj s = Done tt s [pong (Js.JNum (Js.number_of (z <? 0) (Z.abs z)))] /\
     (Js.safe_integer z -> onPing obj s = Done tt s [pong (Js.JNum (Js.JInt z))])).
Proof.
  split; [| split].
  - intros H. unfold onPing. rewrite H. reflexivity.
  - intros H Hst. unfold onPing. rewrite H. cbn [negb].
    rewrite (bind_pure _ _ _ _ (field_eq obj "startTime" s H)), Hst. reflexivity.
  - intros z H Hst.
    assert (Hrun : onPing obj s =
                   Done tt s [pong (Js.JNum (Js.number_of (z <? 0) (Z.abs z)))]).
    { unfold onPing. rewrite H. cbn [negb].
      rewrite (bind_pure _ _ _ _ (field_eq obj "startTime" s H)), Hst.
      unfold parse_int, Js.parseInt. cbn [Js.to_string option_map].
      rewrite JsFacts.parse_int_string_int. reflexivity. }
    split; [exact Hrun |].
    intros Hz. rewrite Hrun, (JsFacts.number_of_safe z Hz). reflexivity.
Qed.

Lemma onPing_edges_witness :
  Js.truthy (Js.JObj []) = true /\
  and_val (Js.JObj []) "startTime" = Js.JUndefined /\
  onPing (Js.JObj []) fresh = Done tt fresh [pong (Js.JNum Js.NaN)] /\
  Js.safe_integer (-42) /\
  onPing (Js.JObj [("startTime", Js.JStr "-42")]) fresh =
    Done tt fresh [pong (Js.JNum (Js.JInt (-42)))] /\
  onPing (Js.JObj [("startTime", Js.JStr "9007199254740993")]) fresh =
    Done tt fresh [pong (Js.JNum (Js.JInt 9007199254740992))].
Proof.
  assert (Hsafe : Js.safe_integer (-42)) by (unfold Js.safe_integer; simpl; lia).
  destruct (onPing_edges (Js.JObj []) fresh) as (_ & Hnan & _).
  destruct (onPing_edges (Js.JObj [("startTime", Js.JStr "-42")]) fresh) as (_ & _ & Hz).
  destruct (onPing_edges (Js.JObj [("startTime", Js.JStr "9007199254740993")]) fresh)
    as (_ & _ & Hbig).
  do 2 (split; [reflexivity |]).
  split; [exact (Hnan eq_refl eq_refl) |].
  split; [exact Hsafe |].
  split.
  - destruct (Hz (-42) eq_refl eq_refl) as [_ Hint]. exact (Hint Hsafe).
  - destruct (Hbig 9007199254740993 eq_refl eq_refl) as [Hround _]. exact Hround.
Defined.

End Messages.

(* ================================================================== *)
(** * Connection and the join, in either order *)
(* ================================================================== *)

Module Startup.
Import Model SocketHandler Session Spec Sample Notions MoreSamples Run.

(** X20.  The constructor, on any handshake session, logs the
    connection, sends [init] to the client, creates the backend channel
    and binds socket and backend; it then looks the user up when the
    handshake carries a user id and otherwise, also when there is no
    session or no passport at all, resolves the user branch of the join
    with [null] at once; last it registers the [init] listener.  It
    never throws. *)
Theorem constructor_start (sess : Js.Val) (id addr : string) :
  constructor sess (new_state id addr) =
    if Js.truthy (userId_of sess) then
      Done tt (connected id addr)
           (connect_calls id addr ++ [UserFindById (userId_of sess) cb_auto_user])%list
    else
      Done tt (set_results_user None (connected id addr))
           (connect_calls id addr ++ [SetImmediate_taskComplete])%list.
Proof.
  unfold constructor.
  rewrite (bind_pure get _ _ _ eq_refl).
  rewrite (bind_run (log _) _ _ _ tt _ eq_refl).
  rewrite (bind_run (socket_emit _ _) _ _ _ tt _ eq_refl).
  rewrite (bind_run (effect BackNew) _ _ _ tt _ eq_refl).
  rewrite (bind_run listen _ _ _ tt _ (Lifecycle.listen_eq _)).
  rewrite (bind_pure _ _ _ _ (session_userId_eq sess _)).
  destruct (Js.truthy (userId_of sess)); reflexivity.
Qed.

Lemma waiting_init_session (u : option User) (d : Js.Val) :
  preserves (fun s => (remainingTasks (auto s), init_session_waiting (auto s)))
            (init_session u d).
Proof.
  unfold init_session, next_init_session. preserves_tac.
  intros s. rewrite Lifecycle.listen_eq. destruct s; reflexivity.
Qed.

(** [init_session] returns, whatever it is given. *)
Lemma init_session_returns (u : option User) (d : Js.Val) (s : State) :
  exists s' t, init_session u d s = Done tt s' t.
Proof.
  destruct (destroyed s) eqn:Hd.
  - exists s, []. unfold init_session. rewrite (bind_pure get _ _ _ eq_refl), Hd.
    reflexivity.
  - rewrite (Selection.init_session_switch u d s Hd).
    assert (Hcases :
      forall line c,
        (Js.is_str (init_action d) "bucket" = true -> Js.truthy (init_info d) = true) ->
        exists s' t,
          (log line ;;
           effect (WsNew c) ;;
           modify (set_workspace (Some (mkWorkspace c [] None))) ;;
           listen ;;
           (if Js.is_str (init_action d) "bucket" then
              modify (set_bucketId (init_info d)) ;; loadBucket (init_skipCreate d)
            else if negb (Js.truthy (init_skipCreate d))
                 then ws_call WsBeginOctaveRequest else ret tt) ;;
           next_init_session) (set_user u s) = Done tt s' t).
    { intros line c Hb. destruct (Js.is_str (init_action d) "bucket").
      - rewrite (Selection.attach_bucket_run u line c _ _ s (Hb eq_refl)). eauto.
      - rewrite Selection.attach_run. eauto. }
    unfold select_workspace.
    destruct (Js.is_str (init_action d) "workspace") eqn:Hw.
    { destruct (Js.truthy (init_info d)); cbn [negb].
      - destruct (Hcases [LStr "Attaching to colaborative workspace:"; LVal (init_info d)]
                    (SharedWorkspace_info "default" (init_info d)))
          as (s' & t & ->); [reflexivity | simpl; eauto].
      - simpl. eauto. }
    destruct (Js.is_str (init_action d) "student") eqn:Hs.
    { destruct (Js.truthy (init_info d)); cbn [negb].
      - destruct (Hcases [LStr "Attaching to a student's workspace:"; LVal (init_info d)]
                    (SharedWorkspace_info "student" (init_info d)))
          as (s' & t & ->); [reflexivity | simpl; eauto].
      - simpl. eauto. }
    destruct (Js.is_str (init_action d) "bucket") eqn:Hb.
    { destruct (Js.truthy (init_info d)) eqn:Hi; cbn [negb].
      - rewrite (Selection.attach_bucket_run u _ _ _ _ s Hi). simpl. eauto.
      - simpl. eauto. }
    destruct u as [u0 |]; [destruct (Js.truthy (share_key u0)) |];
      rewrite Selection.attach_run; simpl; eauto.
Qed.

(** X21.  The join continuation runs once, after both branches, in
    either order.  Whether the user or the client's [init] resolves
    first, the session reaches the same state with nothing called but
    the two deferred [taskComplete]; the [taskComplete] that finds both
    results runs [init_session] on them and takes its listener away; a
    second [init] from the client is ignored, and any later
    [taskComplete] calls nothing and leaves the session as it is. *)
Theorem join_fires_once (u : option User) (d : Js.Val) (id addr : string) :
  run_all (user_then_init u d) (connected id addr) =
    (both_resolved u d id addr, [SetImmediate_taskComplete; SetImmediate_taskComplete]) /\
  run_all (init_then_user u d) (connected id addr) =
    (both_resolved u d id addr, [SetImmediate_taskComplete; SetImmediate_taskComplete]) /\
  taskComplete (both_resolved u d id addr) = init_session u d (firing u d id addr) /\
  init_session_waiting (auto (final_state (taskComplete (both_resolved u d id addr)))) = false /\
  (forall d', socket_init d' (both_resolved u d id addr) =
              Done tt (both_resolved u d id addr) []) /\
  (forall s, init_session_waiting (auto s) = false ->
     trace_of (taskComplete s) = [] /\
     threw (taskComplete s) = false /\
     but_auto (final_state (taskComplete s)) = but_auto s /\
     init_session_waiting (auto (final_state (taskComplete s))) = false).
Proof.
  pose proof (waiting_init_session u d (firing u d id addr)) as Hw.
  assert (Hfire :
    taskComplete (both_resolved u d id addr) = init_session u d (firing u d id addr)).
  { destruct (init_session_returns u d (firing u d id addr)) as (s' & t & Heq).
    rewrite Heq in Hw |- *. simpl in Hw. injection Hw as Hrem _.
    unfold taskComplete.
    rewrite (bind_run (modify _) _ _ _ tt _ eq_refl), after_nil.
    rewrite (bind_pure get _ _ _ eq_refl).
    cbn [auto set_auto both_resolved init_session_waiting results_user results_init].
    rewrite (bind_run (modify _ ;; init_session u d) _ _ s' tt t).
    - rewrite (bind_pure get _ _ _ eq_refl), Hrem. simpl. rewrite app_nil_r. reflexivity.
    - rewrite (bind_run (modify _) _ _ _ tt [] eq_refl), after_nil.
      exact Heq. }
  split; [reflexivity | split; [reflexivity | split; [exact Hfire |]]].
  split; [| split].
  - rewrite Hfire. injection Hw as _ Hwait. exact Hwait.
  - intros d'. reflexivity.
  - intros s Hwait.
    destruct s as [i a sl bl ws us bk sc dd [ru ri ris rem he wait]].
    simpl in Hwait. subst wait.
    destruct rem as [| [| rem]]; repeat split; reflexivity.
Qed.

Lemma join_fires_once_witness :
  init_session_waiting (auto (both_resolved None init_default "id" "addr")) = true /\
  option_map ctor
    (workspace (final_state (taskComplete (both_resolved None init_default "id" "addr")))) =
    Some (NormalWorkspace Js.JUndefined None Js.JNull) /\
  init_session_waiting
    (auto (final_state (taskComplete (both_resolved None init_default "id" "addr")))) = false /\
  trace_of (taskComplete
              (final_state (taskComplete (both_resolved None init_default "id" "addr")))) = [].
Proof.
  destruct (join_fires_once None init_default "id" "addr")
    as (_ & _ & Hfire & Hwait & _ & Hlater).
  destruct (Hlater _ Hwait) as (Hquiet & _).
  split; [reflexivity | split; [| split; [exact Hwait | exact Hquiet]]].
  rewrite Hfire. reflexivity.
Defined.

End Startup.

(* ================================================================== *)
(** * Fields, store failures, instructor queries *)
(* ================================================================== *)

Module Fields.
Import Model SocketHandler Session Spec Sample Notions MoreSamples Run.

Lemma preserves_with_workspace {A X} (f : State -> X) (g : Workspace -> M A) :
  (forall w, preserves f (g w)) -> preserves f (with_workspace g).
Proof. intros H. unfold with_workspace. preserves_tac. Qed.

Lemma preserves_listen {X} (f : State -> X) :
  (forall s, f (bound s) = f s) -> preserves f listen.
Proof. intros H s. rewrite Lifecycle.listen_eq. apply H. Qed.

Lemma preserves_unlisten {X} (f : State -> X) :
  (forall s, f (unbound s) = f s) -> preserves f unlisten.
Proof. intros H s. rewrite Lifecycle.unlisten_eq. apply H. Qed.

(** The same argument with the two binding methods and the writes on
    the workspace object. *)
Ltac fields_step :=
  match goal with
  | |- preserves _ listen => apply preserves_listen; intros []; reflexivity
  | |- preserves _ unlisten => apply preserves_unlisten; intros []; reflexivity
  | |- preserves _ (if_workspace _) => apply preserves_if_workspace
  | |- preserves _ (with_workspace _) => apply preserves_with_workspace; intro
  | |- _ => preserves_step
  end.

Ltac fields_tac := repeat fields_step.

Ltac unfold_ops :=
  unfold constructor, session_userId, onDestroyD, onDestroyU, onDataD, onDataU, onDataW,
    onLogW, loadInstructor_cb, loadUserBuckets_cb, touchUser_cb, loadBucket_cb,
    onSetPassword, onSetPassword_cb, onBucketCreated_cb, onDeleteBucket,
    onDeleteBucket_found, onDeleteBucket_removed, onOoReconnect, setSessCode,
    onDataWtoU, onEnroll, onEnroll_cb, onUpdateStudents, onUnenrollStudent,
    onUnenrollStudent_found, onUnenrollStudent_saved, onReenrollStudent,
    onReenrollStudent_found, onReenrollStudent_saved, onPing, onToggleSharing,
    reload_cb, socket_init, taskComplete, init_session, next_init_session,
    taskCallback_user, taskCallback_init, socket_on.

Lemma constants_run (op : Op) : preserves constants (run op).
Proof. destruct op; simpl; unfold_ops; fields_tac. Qed.

Lemma bucketId_run (op : Op) :
  runs_init_session op = false -> preserves bucketId (run op).
Proof. destruct op; simpl; try discriminate; intros _; unfold_ops; fields_tac. Qed.

(** X22.  No operation of the unit assigns the socket's id, the
    handshake address or [this.sessCode]: the session code a workspace
    reports is passed on to the backend and the client and kept on the
    workspace, never on the handler.  [bucketId] is assigned by
    [init_session] alone (directly or when [taskComplete] starts it). *)
Theorem fields_never_assigned (op : Op) (s : State) :
  constants (final_state (run op s)) = constants s /\
  sessCode (final_state (run op s)) = sessCode s /\
  (runs_init_session op = false -> bucketId (final_state (run op s)) = bucketId s).
Proof.
  pose proof (constants_run op s) as H.
  split; [exact H | split].
  - unfold constants in H. injection H as _ _ Hs. exact Hs.
  - intros Hop. exact (bucketId_run op Hop s).
Qed.

Lemma fields_never_assigned_witness :
  runs_init_session (op_setSessCode "abc123") = false /\
  sessCode (final_state (run (op_setSessCode "abc123") with_normal_workspace)) = None /\
  option_map ws_sessCode
    (workspace (final_state (run (op_setSessCode "abc123") with_normal_workspace)))
  = Some (Some "abc123").
Proof.
  destruct (fields_never_assigned (op_setSessCode "abc123") with_normal_workspace)
    as (_ & Hs & _).
  split; [reflexivity | split; [rewrite Hs; reflexivity | reflexivity]].
Defined.

(** X23.  A failure of the store is written to the log and nothing is
    sent to the client in the callbacks of the last-activity update, the
    bucket list, the password change, the bucket creation, the
    enrollment and the two student saves; the client hears of a failure
    only from the two callbacks of the bucket deletion (and from the
    bucket load), which add a message to the log line. *)
Theorem store_failures (err : Err) (bucket : Bucket) (student : User) (obj : Js.Val)
        (s : State) :
  touchUser_cb (Some err) s = Done tt s [logged s [LStr "TOUCH ACTIVITY ERROR"; LStr err]] /\
  loadUserBuckets_cb (Failed err) s =
    Done tt s [logged s [LStr "LOAD USER BUCKETS ERROR"; LStr err]] /\
  onSetPassword_cb (Some err) s = Done tt s [logged s [LStr "SET PASSWORD ERROR"; LStr err]] /\
  onBucketCreated_cb bucket (Some err) s =
    Done tt s [logged s [LStr "ERROR creating bucket:"; LStr err]] /\
  onEnroll_cb (Some err) s = Done tt s [logged s [LStr "MONGO ERROR"; LStr err]] /\
  onUnenrollStudent_saved student (Some err) s =
    Done tt s [logged s [LStr "MONGO ERROR"; LStr err]] /\
  onReenrollStudent_saved student (Some err) s =
    Done tt s [logged s [LStr "MONGO ERROR"; LStr err]] /\
  onDeleteBucket_found obj (Failed err) s =
    Done tt s (logged s [LStr "LOAD BUCKET ERROR"; LStr err]
               :: message "Encountered error while finding bucket.") /\
  onDeleteBucket_removed obj (Some err) s =
    Done tt s (logged s [LStr "REMOVE BUCKET ERROR"; LStr err]
               :: message "Encountered error while removing bucket.").
Proof. repeat split; reflexivity. Qed.

(** X24.  [loadInstructor] asks the store once for each program of the
    user's instructor list, in the order of the list, and not at all
    for a session without a user or a user who instructs nothing; each
    answer is passed to the client with its program, the list of users
    being [undefined] when the query failed. *)
Theorem loadInstructor_queries (s : State) :
  loadInstructor s =
    Done tt s (match user s with Some u => instructor_queries u | None => [] end) /\
  (forall u, user s = Some u ->
     length (trace_of (loadInstructor s)) = length (instructor u)) /\
  (forall program users,
     loadInstructor_cb program (Ok users) s =
       Done tt s [SocketEmit "instructor" (PInstructor program (Some users))]) /\
  (forall program err,
     loadInstructor_cb program (Failed err) s =
       Done tt s [SocketEmit "instructor" (PInstructor program None)]).
Proof.
  split; [apply loadInstructor_eq | split; [| split; reflexivity]].
  intros u Hu. rewrite loadInstructor_eq, Hu. simpl.
  unfold instructor_queries. apply length_map.
Qed.

Lemma loadInstructor_queries_witness :
  user as_instructor = Some instructor_u1 /\
  loadInstructor as_instructor =
    Done tt as_instructor [UserFind "math101" (cb_loadInstructor "math101")] /\
  length (trace_of (loadInstructor as_instructor)) = 1%nat.
Proof.
  destruct (loadInstructor_queries as_instructor) as (Heq & Hlen & _).
  split; [reflexivity | split; [exact Heq | exact (Hlen instructor_u1 eq_refl)]].
Defined.

End Fields.
